(** * MacroWeb algorithm library: a shallow embedding and its properties

    The development embeds the goal / energy-balance engine of the
    application (the file that exports [calculateAge], [validateGoalSafety],
    [calculateDailyCalorieTarget], [calculateMacroGrams], [getMacroTargets]
    and [performWeeklyCheckIn]) and settles the properties stated about it.

    Numbers.  The TypeScript [number] type is modelled by [JS.number]: an
    exact rational, or one of the three special values [+Infinity],
    [-Infinity] and [NaN].  The special values follow the IEEE-754 rules the
    language uses (division by zero, [Infinity - Infinity], comparisons with
    [NaN] ...).  Arithmetic on finite values is exact: binary rounding of the
    64-bit format and the sign of zero are not modelled (a zero divisor is
    treated as [+0]).  The inputs at which a stated property is refuted are
    integers or dyadic rationals, on which the 64-bit computation gives the
    same results.

    Time.  [new Date()] reads the clock; the embedding passes the instant of
    the call as an explicit argument [now].

    Beyond the library itself the development embeds the computations of its
    callers: the onboarding wizard ([Onboarding]), the average of the
    check-in page ([CheckInPage]) and the totals of the diary and the
    dashboard ([Diary], [Dashboard]). *)

From Stdlib Require Import ZArith QArith Qround Qabs Lqa Lia Bool.
From Stdlib Require Import String Ascii List DecimalString.
Import ListNotations.

Local Open Scope string_scope.
Local Open Scope Z_scope.
Local Open Scope Q_scope.

(* ================================================================== *)
(** ** The fragment of the language runtime the module relies on      *)
(* ================================================================== *)

Module JS.

(** The [number] type. *)
Inductive number : Type :=
| Fin (q : Q)
| PosInf
| NegInf
| NaN.

Definition ofZ (z : Z) : number := Fin (inject_Z z).

(** Sign of a number: [1], [0] or [-1]; [NaN] has none and yields [0]. *)
Definition sign (x : number) : Z :=
  match x with
  | Fin q => Z.sgn (Qnum q)
  | PosInf => 1
  | NegInf => -1
  | NaN => 0
  end.

(** The infinity of a given sign; a zero sign stands for an undefined
    result. *)
Definition inf_of_sign (s : Z) : number :=
  match s with
  | Z0 => NaN
  | Zpos _ => PosInf
  | Zneg _ => NegInf
  end.

Definition neg (x : number) : number :=
  match x with
  | Fin q => Fin (- q)
  | PosInf => NegInf
  | NegInf => PosInf
  | NaN => NaN
  end.

(** [x + y] *)
Definition add (x y : number) : number :=
  match x, y with
  | NaN, _ | _, NaN => NaN
  | Fin a, Fin b => Fin (a + b)
  | PosInf, NegInf | NegInf, PosInf => NaN
  | PosInf, _ | _, PosInf => PosInf
  | NegInf, _ | _, NegInf => NegInf
  end.

(** [x - y] *)
Definition sub (x y : number) : number := add x (neg y).

(** [x * y] *)
Definition mul (x y : number) : number :=
  match x, y with
  | NaN, _ | _, NaN => NaN
  | Fin a, Fin b => Fin (a * b)
  | _, _ => inf_of_sign (sign x * sign y)
  end.

(** [x / y] *)
Definition div (x y : number) : number :=
  match x, y with
  | NaN, _ | _, NaN => NaN
  | Fin a, Fin b =>
      if Qeq_bool b 0 then inf_of_sign (sign x) else Fin (a / b)
  | Fin _, _ => Fin 0
  | _, Fin b =>
      if Qeq_bool b 0 then x else inf_of_sign (sign x * sign y)
  | _, _ => NaN
  end.

(** [x < y] *)
Definition lt (x y : number) : bool :=
  match x, y with
  | NaN, _ | _, NaN => false
  | Fin a, Fin b => negb (Qle_bool b a)
  | NegInf, NegInf => false
  | NegInf, _ => true
  | _, PosInf => match x with PosInf => false | _ => true end
  | _, _ => false
  end.

(** [x > y] *)
Definition gt (x y : number) : bool := lt y x.

(** [x <= y] *)
Definition le (x y : number) : bool :=
  match x, y with
  | NaN, _ | _, NaN => false
  | Fin a, Fin b => Qle_bool a b
  | NegInf, _ => true
  | _, PosInf => true
  | _, _ => false
  end.

(** [x >= y] *)
Definition ge (x y : number) : bool := le y x.

(** [Math.abs] *)
Definition Math_abs (x : number) : number :=
  match x with
  | Fin q => Fin (Qabs q)
  | PosInf | NegInf => PosInf
  | NaN => NaN
  end.

(** [Math.round]: the nearest integer, a tie going towards [+Infinity]. *)
Definition Math_round (x : number) : number :=
  match x with
  | Fin q => ofZ (Qfloor (q + (1 # 2)))
  | _ => x
  end.

(** [Math.max] of two arguments. *)
Definition Math_max (x y : number) : number :=
  match x, y with
  | NaN, _ | _, NaN => NaN
  | _, _ => if lt x y then y else x
  end.

(** A number that is neither [NaN] nor an infinity. *)
Definition isFinite (x : number) : bool :=
  match x with Fin _ => true | _ => false end.

(** Two numbers denote the same value ([Fin] up to the equality of
    fractions).  Unlike [===] this relation is reflexive at [NaN]. *)
Definition same (x y : number) : Prop :=
  match x, y with
  | Fin a, Fin b => a == b
  | PosInf, PosInf | NegInf, NegInf | NaN, NaN => True
  | _, _ => False
  end.

(** *** Rendering numbers *)

Definition string_of_Z (z : Z) : string := NilZero.string_of_int (Z.to_int z).

(** [x.toFixed(1)].  For a magnitude below [10^21] this is the decimal
    numeral with one fractional digit nearest to [x] (the larger one on a
    tie), preceded by ["-"] when [x < 0].  From [10^21] on the language
    switches to exponent notation, which is not rendered here: the model
    keeps positional digits. *)
Definition toFixed1 (x : number) : string :=
  match x with
  | NaN => "NaN"
  | PosInf => "Infinity"
  | NegInf => "-Infinity"
  | Fin q =>
      let n := Qfloor (10 * Qabs q + (1 # 2)) in
      ((if negb (Qle_bool 0 q) then "-" else "")
         ++ string_of_Z (n / 10) ++ "." ++ string_of_Z (n mod 10))%string
  end.

(** [s.includes(t)] *)
Fixpoint includes (s t : string) : bool :=
  if String.prefix t s then true
  else match s with
       | EmptyString => false
       | String _ s' => includes s' t
       end.

(** *** Dates *)

(** A [Date] object holds a time value: a whole number of milliseconds since
    1970-01-01T00:00:00Z, or no value at all (an invalid date). *)
Definition Date : Type := option Z.

Definition msPerDay : Z := 86400000.

(** [d.getTime()] *)
Definition getTime (d : Date) : number :=
  match d with
  | Some t => ofZ t
  | None => NaN
  end.

(** [new Date(v)] for a number [v]: the time value is [v] truncated to an
    integer, provided it is finite and within 8.64e15 ms of the epoch. *)
Definition newDate (v : number) : Date :=
  match v with
  | Fin q =>
      if Qle_bool (Qabs q) (inject_Z 8640000000000000)
      then Some (Z.quot (Qnum q) (Zpos (Qden q)))
      else None
  | _ => None
  end.

(** Number of the first day of year [y], counted from the epoch. *)
Definition DayFromYear (y : Z) : Z :=
  (365 * (y - 1970) + (y - 1969) / 4 - (y - 1901) / 100 + (y - 1601) / 400)%Z.

(** The year a day number falls in: the largest [y] with
    [DayFromYear y <= day].  The candidates lie around the estimate that the
    mean length of a year (146097 / 400 days) gives. *)
Definition YearFromDay (day : Z) : Z :=
  let e := (1970 + (day * 400) / 146097)%Z in
  if (DayFromYear (e + 2) <=? day)%Z then (e + 2)%Z
  else if (DayFromYear (e + 1) <=? day)%Z then (e + 1)%Z
  else if (DayFromYear e <=? day)%Z then e
  else (e - 1)%Z.

Definition YearFromTime (t : Z) : Z := YearFromDay (t / msPerDay).

(** [d.getUTCFullYear()] *)
Definition getUTCFullYear (d : Date) : number :=
  match d with
  | Some t => ofZ (YearFromTime t)
  | None => NaN
  end.

Definition isLeapYear (y : Z) : bool :=
  ((y mod 4 =? 0) && (negb (y mod 100 =? 0) || (y mod 400 =? 0)))%Z.

(** Days of the year that precede the first of month [m] (1 to 12). *)
Definition daysBeforeMonth (y m : Z) : Z :=
  (nth (Z.to_nat (m - 1)) [0; 31; 59; 90; 120; 151; 181; 212; 243; 273; 304; 334] 0
   + (if isLeapYear y && (2 <? m) then 1 else 0))%Z.

(** [new Date('YYYY-MM-DD')]: midnight UTC of that calendar day. *)
Definition dateOfYMD (y m d : Z) : Date :=
  Some (msPerDay * (DayFromYear y + daysBeforeMonth y m + (d - 1)))%Z.

(** [Math.min] of two arguments. *)
Definition Math_min (x y : number) : number :=
  match x, y with
  | NaN, _ | _, NaN => NaN
  | _, _ => if lt y x then y else x
  end.

(** A number counts as true unless it is zero or [NaN]. *)
Definition truthy (x : number) : bool :=
  match x with
  | Fin q => negb (Qeq_bool q 0)
  | PosInf | NegInf => true
  | NaN => false
  end.

(** [x || y] on numbers. *)
Definition orElse (x y : number) : number := if truthy x then x else y.

End JS.

(* ================================================================== *)
(** ** The algorithm library                                           *)
(* ================================================================== *)

Module Algorithm.
Import JS.

Inductive Gender : Type := male | female | other.
Inductive MacroPreference : Type := balanced | high_protein | low_carb | keto | manual.

Definition Gender_eqb (a b : Gender) : bool :=
  match a, b with
  | male, male | female, female | other, other => true
  | _, _ => false
  end.

Definition MacroPreference_eqb (a b : MacroPreference) : bool :=
  match a, b with
  | balanced, balanced | high_protein, high_protein | low_carb, low_carb
  | keto, keto | manual, manual => true
  | _, _ => false
  end.

(** The ratio triple of a preset or of a caller. *)
Record Ratios : Type := { protein : number; carbs : number; fat : number }.

(** Macro preference ratios (protein, carbs, fat). *)
Definition MACRO_PRESETS (p : MacroPreference) : Ratios :=
  match p with
  | balanced => {| protein := Fin 0.30; carbs := Fin 0.35; fat := Fin 0.35 |}
  | high_protein => {| protein := Fin 0.40; carbs := Fin 0.30; fat := Fin 0.30 |}
  | low_carb => {| protein := Fin 0.35; carbs := Fin 0.20; fat := Fin 0.45 |}
  | keto => {| protein := Fin 0.30; carbs := Fin 0.05; fat := Fin 0.65 |}
  | manual => {| protein := Fin 0.30; carbs := Fin 0.35; fat := Fin 0.35 |}
  end.

(** Calories per gram for macros. *)
Module CALORIES_PER_GRAM.
Definition protein : Z := 4.
Definition carbs : Z := 4.
Definition fat : Z := 9.
End CALORIES_PER_GRAM.

(** 1 pound = ~3500 calories deficit/surplus. *)
Definition CALORIES_PER_POUND : Z := 3500.

(** Safety limits. *)
Definition MIN_CALORIES_MALE : Z := 1500.
Definition MIN_CALORIES_FEMALE : Z := 1200.
Definition MAX_WEEKLY_LOSS_LBS : Z := 2.
Definition MAX_WEEKLY_GAIN_LBS : Z := 1.

Module GoalCalculationInput.
Record t : Type := {
  tdee : number;
  currentWeightLbs : number;
  targetWeightLbs : number;
  targetDate : Date;
  gender : Gender
}.
End GoalCalculationInput.

Module CalorieTarget.
Record t : Type := {
  dailyCalories : number;
  weeklyChange : number;
  dailyDeficitSurplus : number
}.
End CalorieTarget.

Module MacroGrams.
Record t : Type := {
  proteinGrams : number;
  carbsGrams : number;
  fatGrams : number
}.
End MacroGrams.

Module MacroTargets.
Record t : Type := {
  dailyCalories : number;
  proteinGrams : number;
  carbsGrams : number;
  fatGrams : number
}.
End MacroTargets.

Module WeeklyCheckInInput.
Record t : Type := {
  previousWeight : number;
  currentWeight : number;
  avgDailyCalories : number;
  currentDailyTarget : number;
  targetWeightLbs : number;
  targetDate : Date;
  macroPreference : MacroPreference;
  proteinRatio : number;
  carbsRatio : number;
  fatRatio : number
}.
End WeeklyCheckInInput.

Module WeeklyCheckInResult.
Record t : Type := {
  calculatedTDEE : number;
  expectedWeeklyChange : number;
  actualWeeklyChange : number;
  newDailyCalories : number;
  adjustmentReason : string;
  newProteinGrams : number;
  newCarbsGrams : number;
  newFatGrams : number
}.
End WeeklyCheckInResult.

Module GoalSafety.
Record t : Type := {
  isSafe : bool;
  isRealistic : bool;
  message : string
}.
End GoalSafety.

(** Calculate age from date of birth. *)
Definition calculateAge (dateOfBirth referenceDate : Date) : number :=
  let ageDiffMs := sub (getTime referenceDate) (getTime dateOfBirth) in
  let ageDate := newDate ageDiffMs in
  Math_abs (sub (getUTCFullYear ageDate) (ofZ 1970)).

(** Calculate days between two dates. *)
Definition daysBetween (startDate endDate : Date) : number :=
  let msPerDay := ofZ (1000 * 60 * 60 * 24) in
  let diffMs := sub (getTime endDate) (getTime startDate) in
  Math_round (div diffMs msPerDay).

(** Calculate required weekly weight change to hit goal.  [now] is the
    instant of the call. *)
Definition calculateRequiredWeeklyChange (now : Date)
    (currentWeightLbs targetWeightLbs : number) (targetDate : Date) : number :=
  let days := daysBetween now targetDate in
  let weeks := div days (ofZ 7) in
  if le weeks (ofZ 0) then ofZ 0
  else
    let totalChange := sub targetWeightLbs currentWeightLbs in
    div totalChange weeks.

(** Validate if a weight loss/gain goal is realistic and safe. *)
Definition validateGoalSafety (weeklyChange : number) : GoalSafety.t :=
  let absChange := Math_abs weeklyChange in
  if lt weeklyChange (ofZ 0) then
    if gt absChange (mul (ofZ MAX_WEEKLY_LOSS_LBS) (Fin 1.5)) then
      {| GoalSafety.isSafe := false;
         GoalSafety.isRealistic := false;
         GoalSafety.message :=
           ("Losing " ++ toFixed1 absChange
            ++ " lbs/week is extremely dangerous and unrealistic. Maximum recommended is "
            ++ string_of_Z MAX_WEEKLY_LOSS_LBS ++ " lbs/week.")%string |}
    else if gt absChange (ofZ MAX_WEEKLY_LOSS_LBS) then
      {| GoalSafety.isSafe := false;
         GoalSafety.isRealistic := true;
         GoalSafety.message :=
           ("Losing " ++ toFixed1 absChange
            ++ " lbs/week is aggressive and may not be sustainable. Consider a more gradual approach.")%string |}
    else
      {| GoalSafety.isSafe := true;
         GoalSafety.isRealistic := true;
         GoalSafety.message := "Your goal is realistic and safe." |}
  else if gt weeklyChange (ofZ 0) then
    if gt absChange (mul (ofZ MAX_WEEKLY_GAIN_LBS) (Fin 1.5)) then
      {| GoalSafety.isSafe := false;
         GoalSafety.isRealistic := false;
         GoalSafety.message :=
           ("Gaining " ++ toFixed1 absChange
            ++ " lbs/week will likely result in excessive fat gain. Maximum recommended is "
            ++ string_of_Z MAX_WEEKLY_GAIN_LBS ++ " lb/week.")%string |}
    else if gt absChange (ofZ MAX_WEEKLY_GAIN_LBS) then
      {| GoalSafety.isSafe := false;
         GoalSafety.isRealistic := true;
         GoalSafety.message :=
           ("Gaining " ++ toFixed1 absChange
            ++ " lbs/week is aggressive. Consider a slower approach for lean gains.")%string |}
    else
      {| GoalSafety.isSafe := true;
         GoalSafety.isRealistic := true;
         GoalSafety.message := "Your goal is realistic and safe." |}
  else
    {| GoalSafety.isSafe := true;
       GoalSafety.isRealistic := true;
       GoalSafety.message := "Your goal is realistic and safe." |}.

(** Calculate daily calorie target based on goal. *)
Definition calculateDailyCalorieTarget (now : Date)
    (input : GoalCalculationInput.t) : CalorieTarget.t :=
  let tdee := GoalCalculationInput.tdee input in
  let gender := GoalCalculationInput.gender input in
  let weeklyChange :=
    calculateRequiredWeeklyChange now
      (GoalCalculationInput.currentWeightLbs input)
      (GoalCalculationInput.targetWeightLbs input)
      (GoalCalculationInput.targetDate input) in
  let dailyDeficitSurplus :=
    div (mul weeklyChange (ofZ CALORIES_PER_POUND)) (ofZ 7) in
  let dailyCalories := Math_round (add tdee dailyDeficitSurplus) in
  let minCalories :=
    if Gender_eqb gender male then ofZ MIN_CALORIES_MALE
    else ofZ MIN_CALORIES_FEMALE in
  let dailyCalories :=
    if lt dailyCalories minCalories then minCalories else dailyCalories in
  {| CalorieTarget.dailyCalories := dailyCalories;
     CalorieTarget.weeklyChange := weeklyChange;
     CalorieTarget.dailyDeficitSurplus := dailyDeficitSurplus |}.

(** Calculate macro gram targets from calories and ratios. *)
Definition calculateMacroGrams
    (dailyCalories proteinRatio carbsRatio fatRatio : number) : MacroGrams.t :=
  let total := add (add proteinRatio carbsRatio) fatRatio in
  let normalizedProtein := div proteinRatio total in
  let normalizedCarbs := div carbsRatio total in
  let normalizedFat := div fatRatio total in
  {| MacroGrams.proteinGrams :=
       Math_round (div (mul dailyCalories normalizedProtein)
                       (ofZ CALORIES_PER_GRAM.protein));
     MacroGrams.carbsGrams :=
       Math_round (div (mul dailyCalories normalizedCarbs)
                       (ofZ CALORIES_PER_GRAM.carbs));
     MacroGrams.fatGrams :=
       Math_round (div (mul dailyCalories normalizedFat)
                       (ofZ CALORIES_PER_GRAM.fat)) |}.

(** Get macro targets based on preference and calorie target.  An omitted
    [customRatios] is [None]. *)
Definition getMacroTargets (dailyCalories : number)
    (preference : MacroPreference) (customRatios : option Ratios)
    : MacroTargets.t :=
  let ratios :=
    match MacroPreference_eqb preference manual, customRatios with
    | true, Some custom => custom
    | _, _ => MACRO_PRESETS preference
    end in
  let grams :=
    calculateMacroGrams dailyCalories (protein ratios) (carbs ratios) (fat ratios) in
  {| MacroTargets.dailyCalories := dailyCalories;
     MacroTargets.proteinGrams := MacroGrams.proteinGrams grams;
     MacroTargets.carbsGrams := MacroGrams.carbsGrams grams;
     MacroTargets.fatGrams := MacroGrams.fatGrams grams |}.

(** Calculate true TDEE from actual intake and weight change. *)
Definition calculateTrueTDEE
    (avgDailyCalories weightChangeLbs daysTracked : number) : number :=
  let dailyCalorieChange :=
    div (mul weightChangeLbs (ofZ CALORIES_PER_POUND)) daysTracked in
  Math_round (sub avgDailyCalories dailyCalorieChange).

(** Weekly check-in algorithm: adjusts calorie targets based on actual
    progress vs expected progress.  [now] is the instant of the call. *)
Definition performWeeklyCheckIn (now : Date)
    (input : WeeklyCheckInInput.t) : WeeklyCheckInResult.t :=
  let previousWeight := WeeklyCheckInInput.previousWeight input in
  let currentWeight := WeeklyCheckInInput.currentWeight input in
  let avgDailyCalories := WeeklyCheckInInput.avgDailyCalories input in
  let currentDailyTarget := WeeklyCheckInInput.currentDailyTarget input in
  let targetWeightLbs := WeeklyCheckInInput.targetWeightLbs input in
  let targetDate := WeeklyCheckInInput.targetDate input in
  let proteinRatio := WeeklyCheckInInput.proteinRatio input in
  let carbsRatio := WeeklyCheckInInput.carbsRatio input in
  let fatRatio := WeeklyCheckInInput.fatRatio input in
  let actualWeeklyChange := sub currentWeight previousWeight in
  let expectedWeeklyChange :=
    calculateRequiredWeeklyChange now previousWeight targetWeightLbs targetDate in
  let calculatedTDEE :=
    calculateTrueTDEE avgDailyCalories actualWeeklyChange (ofZ 7) in
  let tolerance := Fin 0.2 in
  let '(newDailyCalories, adjustmentReason) :=
      if lt expectedWeeklyChange (ofZ 0) then
        if gt actualWeeklyChange (add expectedWeeklyChange tolerance) then
          (sub currentDailyTarget (ofZ 100),
           "Lost less than expected. Reducing daily calories by 100.")
        else if lt actualWeeklyChange (sub expectedWeeklyChange tolerance) then
          (add currentDailyTarget (ofZ 100),
           "Lost more than expected. Increasing daily calories by 100 to prevent too rapid loss.")
        else
          (currentDailyTarget, "On track! No adjustment needed.")
      else if gt expectedWeeklyChange (ofZ 0) then
        if lt actualWeeklyChange (sub expectedWeeklyChange tolerance) then
          (add currentDailyTarget (ofZ 100),
           "Gained less than expected. Increasing daily calories by 100.")
        else if gt actualWeeklyChange (add expectedWeeklyChange tolerance) then
          (sub currentDailyTarget (ofZ 100),
           "Gained more than expected. Reducing daily calories by 100.")
        else
          (currentDailyTarget, "On track! No adjustment needed.")
      else
        if gt (Math_abs actualWeeklyChange) tolerance then
          if gt actualWeeklyChange (ofZ 0) then
            (sub currentDailyTarget (ofZ 50),
             "Weight increased slightly. Reducing calories by 50.")
          else
            (add currentDailyTarget (ofZ 50),
             "Weight decreased slightly. Increasing calories by 50.")
        else
          (currentDailyTarget, "Maintaining weight. No adjustment needed.") in
  let newMacros :=
    calculateMacroGrams newDailyCalories proteinRatio carbsRatio fatRatio in
  {| WeeklyCheckInResult.calculatedTDEE := calculatedTDEE;
     WeeklyCheckInResult.expectedWeeklyChange := expectedWeeklyChange;
     WeeklyCheckInResult.actualWeeklyChange := actualWeeklyChange;
     WeeklyCheckInResult.newDailyCalories := newDailyCalories;
     WeeklyCheckInResult.adjustmentReason := adjustmentReason;
     WeeklyCheckInResult.newProteinGrams := MacroGrams.proteinGrams newMacros;
     WeeklyCheckInResult.newCarbsGrams := MacroGrams.carbsGrams newMacros;
     WeeklyCheckInResult.newFatGrams := MacroGrams.fatGrams newMacros |}.

Inductive ActivityLevel : Type :=
  sedentary | light | moderate | active | very_active.

(** Activity level multipliers for TDEE calculation. *)
Definition ACTIVITY_MULTIPLIERS (a : ActivityLevel) : number :=
  match a with
  | sedentary => Fin 1.2
  | light => Fin 1.375
  | moderate => Fin 1.55
  | active => Fin 1.725
  | very_active => Fin 1.9
  end.

Module BMRInput.
Record t : Type := {
  gender : Gender;
  weightKg : number;
  heightCm : number;
  ageYears : number
}.
End BMRInput.

(** [TDEEInput extends BMRInput]: the fields of [BMRInput] and the activity
    level. *)
Module TDEEInput.
Record t : Type := {
  gender : Gender;
  weightKg : number;
  heightCm : number;
  ageYears : number;
  activityLevel : ActivityLevel
}.

(** A [TDEEInput] passed where a [BMRInput] is expected. *)
Definition asBMRInput (i : t) : BMRInput.t :=
  {| BMRInput.gender := gender i;
     BMRInput.weightKg := weightKg i;
     BMRInput.heightCm := heightCm i;
     BMRInput.ageYears := ageYears i |}.
End TDEEInput.

(** Convert pounds to kilograms. *)
Definition lbsToKg (lbs : number) : number := mul lbs (Fin 0.453592).

(** Convert kilograms to pounds. *)
Definition kgToLbs (kg : number) : number := div kg (Fin 0.453592).

(** Convert feet and inches to centimeters. *)
Definition feetInchesToCm (feet inches : number) : number :=
  let totalInches := add (mul feet (ofZ 12)) inches in
  mul totalInches (Fin 2.54).

(** Calculate BMR using Mifflin-St Jeor equation. *)
Definition calculateBMR (input : BMRInput.t) : number :=
  let gender := BMRInput.gender input in
  let weightKg := BMRInput.weightKg input in
  let heightCm := BMRInput.heightCm input in
  let ageYears := BMRInput.ageYears input in
  let base :=
    sub (add (mul (ofZ 10) weightKg) (mul (Fin 6.25) heightCm))
        (mul (ofZ 5) ageYears) in
  if Gender_eqb gender male then add base (ofZ 5)
  else if Gender_eqb gender female then sub base (ofZ 161)
  else sub base (ofZ 78).

(** Calculate TDEE (Total Daily Energy Expenditure):
    TDEE = BMR x Activity Multiplier.  The product can fall on a tie of the
    rounding in exact arithmetic where the binary product does not (the
    test suite records 3070 for 1780 x 1.725, exactly 3070.5). *)
Definition calculateTDEE (input : TDEEInput.t) : number :=
  let bmr := calculateBMR (TDEEInput.asBMRInput input) in
  Math_round (mul bmr (ACTIVITY_MULTIPLIERS (TDEEInput.activityLevel input))).

(** Determine if a weekly check-in is available.  [None] is [null]; [now]
    is the instant of the call. *)
Definition isCheckInAvailable (now : Date) (lastCheckInDate : option Date)
    : bool :=
  match lastCheckInDate with
  | None => true
  | Some last =>
      let daysSinceCheckIn := daysBetween last now in
      ge daysSinceCheckIn (ofZ 7)
  end.

(** Get days until next check-in. *)
Definition daysUntilCheckIn (now : Date) (lastCheckInDate : option Date)
    : number :=
  match lastCheckInDate with
  | None => ofZ 0
  | Some last =>
      let daysSinceCheckIn := daysBetween last now in
      Math_max (ofZ 0) (sub (ofZ 7) daysSinceCheckIn)
  end.

End Algorithm.

(* ================================================================== *)
(** ** Sample inputs                                                    *)
(* ================================================================== *)

Module Samples.
Import JS Algorithm.

(** The reference day of the test suite and the day ten weeks later. *)
Definition today : Date := dateOfYMD 2026 2 4.
Definition inTenWeeks : Date := dateOfYMD 2026 4 15.

(** A check-in with balanced ratios. *)
Definition checkIn (previous current target goal : number) (due : Date)
    : WeeklyCheckInInput.t :=
  {| WeeklyCheckInInput.previousWeight := previous;
     WeeklyCheckInInput.currentWeight := current;
     WeeklyCheckInInput.avgDailyCalories := ofZ 2000;
     WeeklyCheckInInput.currentDailyTarget := target;
     WeeklyCheckInInput.targetWeightLbs := goal;
     WeeklyCheckInInput.targetDate := due;
     WeeklyCheckInInput.macroPreference := balanced;
     WeeklyCheckInInput.proteinRatio := Fin 0.3;
     WeeklyCheckInInput.carbsRatio := Fin 0.35;
     WeeklyCheckInInput.fatRatio := Fin 0.35 |}.

(** Losing goal of 1 lb/week, no change on the scale. *)
Definition losingTooSlow : WeeklyCheckInInput.t :=
  checkIn (ofZ 200) (ofZ 200) (ofZ 2000) (ofZ 190) inTenWeeks.

(** Gaining goal of 1 lb/week, no change on the scale. *)
Definition gainingTooSlow : WeeklyCheckInInput.t :=
  checkIn (ofZ 150) (ofZ 150) (ofZ 2500) (ofZ 160) inTenWeeks.

(** Maintenance goal, half a pound gained. *)
Definition maintainingDrift : WeeklyCheckInInput.t :=
  checkIn (ofZ 170) (Fin 170.5) (ofZ 2200) (ofZ 170) inTenWeeks.

(** Losing goal of 1 lb/week, no change on the scale, with a current target
    that already sits on the lower calorie floor. *)
Definition losingAtFloor : WeeklyCheckInInput.t :=
  checkIn (ofZ 200) (ofZ 200) (ofZ 1200) (ofZ 190) inTenWeeks.

(** 20 lbs to lose in two weeks from a TDEE of 1800 kcal. *)
Definition crashDiet : GoalCalculationInput.t :=
  {| GoalCalculationInput.tdee := ofZ 1800;
     GoalCalculationInput.currentWeightLbs := ofZ 200;
     GoalCalculationInput.targetWeightLbs := ofZ 180;
     GoalCalculationInput.targetDate := dateOfYMD 2026 2 18;
     GoalCalculationInput.gender := female |}.

(** 10 lbs to lose in ten weeks from a TDEE of 2500 kcal. *)
Definition steadyLoss : GoalCalculationInput.t :=
  {| GoalCalculationInput.tdee := ofZ 2500;
     GoalCalculationInput.currentWeightLbs := ofZ 200;
     GoalCalculationInput.targetWeightLbs := ofZ 190;
     GoalCalculationInput.targetDate := inTenWeeks;
     GoalCalculationInput.gender := male |}.

End Samples.

(* ================================================================== *)
(** ** Notions used to state the properties                            *)
(* ================================================================== *)

Module Properties.
Import JS Algorithm.

(** Energy of a gram triple: 4 kcal per gram of protein and of carbs, 9 per
    gram of fat.  Defined when the three amounts are finite. *)
Definition kcalOfGrams (g : MacroGrams.t) : option Q :=
  match MacroGrams.proteinGrams g, MacroGrams.carbsGrams g,
        MacroGrams.fatGrams g with
  | Fin gp, Fin gc, Fin gf => Some (gp * 4 + gc * 4 + gf * 9)
  | _, _, _ => None
  end.

(** The gram triple is finite and its energy differs from [dailyCalories]
    by at most [bound] kcal. *)
Definition recombinesWithin (bound dailyCalories : Q) (g : MacroGrams.t) : Prop :=
  match kcalOfGrams g with
  | Some e => Qabs (e - dailyCalories) <= bound
  | None => False
  end.

(** How a call ends: by returning a value, or by throwing an error to the
    caller. *)
Inductive Error : Type := InvalidInput.

Inductive outcome (A : Type) : Type :=
| Returned (v : A)
| Thrown (e : Error).

Arguments Returned {A} v.
Arguments Thrown {A} e.

(** The outcome of calling a function of the library whose embedding
    computes [v].  No function of the library contains a [throw] statement
    or a validation of its arguments, and the built-ins they call
    ([getTime], the [Date] constructor, [getUTCFullYear], [Math.abs],
    [Math.round], [toFixed(1)], arithmetic and comparison of numbers) do not
    throw on numbers and [Date] objects: every call returns. *)
Definition call {A : Type} (v : A) : outcome A := Returned v.

(** A calendar day. *)
Record CivilDate : Type := { year : Z; month : Z; day : Z }.

Definition ymd (y m d : Z) : CivilDate :=
  {| year := y; month := m; day := d |}.

Definition toDate (c : CivilDate) : Date :=
  dateOfYMD (year c) (month c) (day c).

(** Whole calendar years elapsed from [birth] to [reference]: the difference
    of the years, less one when the anniversary of [birth] has not yet been
    reached in the year of [reference]. *)
Definition wholeYearsElapsed (birth reference : CivilDate) : Z :=
  (year reference - year birth
   - (if (month reference <? month birth)
         || ((month reference =? month birth) && (day reference <? day birth))
      then 1 else 0))%Z.

(** [a] is an earlier instant than [b]. *)
Definition precedes (a b : Date) : Prop :=
  match a, b with
  | Some x, Some y => (x < y)%Z
  | _, _ => False
  end.

(** None of the three gram amounts is a finite number. *)
Definition noFiniteGram (g : MacroGrams.t) : Prop :=
  isFinite (MacroGrams.proteinGrams g) = false
  /\ isFinite (MacroGrams.carbsGrams g) = false
  /\ isFinite (MacroGrams.fatGrams g) = false.

End Properties.

(* ================================================================== *)
(** ** The onboarding wizard                                           *)
(* ================================================================== *)

(** The component that walks a new user through baseline, goal, timeline,
    macros and summary.  Its state is the React state of the component; a
    state setter is modelled by the state it leaves.  The form keeps the
    two dates as text and parses them with [new Date(text)] where they are
    used: the embedding keeps the parsed [Date]. *)
Module Onboarding.
Import JS Algorithm.

Inductive GoalType : Type := lose | maintain | gain.

Inductive Step : Type := baseline | goal | timeline | macros | summary.

Definition Step_eqb (a b : Step) : bool :=
  match a, b with
  | baseline, baseline | goal, goal | timeline, timeline
  | macros, macros | summary, summary => true
  | _, _ => false
  end.

Record FormData : Type := {
  gender : Gender;
  heightFeet : number;
  heightInches : number;
  currentWeight : number;
  dateOfBirth : Date;
  activityLevel : ActivityLevel;
  goalType : GoalType;
  targetWeight : number;
  targetDate : Date;
  macroPreference : MacroPreference;
  proteinRatio : number;
  carbsRatio : number;
  fatRatio : number
}.

Record State : Type := {
  step : Step;
  formData : FormData;
  error : option string;
  warning : option string;
  isSubmitting : bool
}.

(** [steps.indexOf(x)], counting from [i]; -1 when [x] does not occur. *)
Fixpoint indexOfFrom (l : list Step) (x : Step) (i : Z) : Z :=
  match l with
  | [] => (-1)%Z
  | y :: l' => if Step_eqb y x then i else indexOfFrom l' x (i + 1)%Z
  end.

Definition indexOf (l : list Step) (x : Step) : Z := indexOfFrom l x 0.

Definition steps : list Step := [baseline; goal; timeline; macros; summary].

(** [updateFormData(updates)]: merges the updates into the form and clears
    the error and the warning.  The partial record is given as the function
    that overwrites its fields. *)
Definition updateFormData (updates : FormData -> FormData) (st : State)
    : State :=
  {| step := step st;
     formData := updates (formData st);
     error := None;
     warning := None;
     isSubmitting := isSubmitting st |}.

Definition handleMacroPreferenceChange (preference : MacroPreference)
    (st : State) : State :=
  let preset := MACRO_PRESETS preference in
  updateFormData
    (fun prev =>
       {| gender := gender prev;
          heightFeet := heightFeet prev;
          heightInches := heightInches prev;
          currentWeight := currentWeight prev;
          dateOfBirth := dateOfBirth prev;
          activityLevel := activityLevel prev;
          goalType := goalType prev;
          targetWeight := targetWeight prev;
          targetDate := targetDate prev;
          macroPreference := preference;
          proteinRatio := protein preset;
          carbsRatio := carbs preset;
          fatRatio := fat preset |})
    st.

(** [validateTimeline()]: the state it leaves and the value it returns. *)
Definition validateTimeline (now : Date) (st : State) : State * bool :=
  let weeklyChange :=
    calculateRequiredWeeklyChange now
      (currentWeight (formData st))
      (targetWeight (formData st))
      (targetDate (formData st)) in
  let validation := validateGoalSafety weeklyChange in
  let st' :=
    if negb (GoalSafety.isSafe validation) then
      {| step := step st; formData := formData st; error := error st;
         warning := Some (GoalSafety.message validation);
         isSubmitting := isSubmitting st |}
    else
      {| step := step st; formData := formData st; error := error st;
         warning := None;
         isSubmitting := isSubmitting st |} in
  (st', GoalSafety.isRealistic validation).

Definition setStep (s : Step) (st : State) : State :=
  {| step := s; formData := formData st; error := error st;
     warning := warning st; isSubmitting := isSubmitting st |}.

(** [nextStep()].  The element read from [steps] exists under the guard. *)
Definition nextStep (now : Date) (st : State) : State :=
  let currentIndex := indexOf steps (step st) in
  let st1 :=
    if Step_eqb (step st) timeline then fst (validateTimeline now st)
    else st in
  if (currentIndex <? Z.of_nat (length steps) - 1)%Z then
    setStep (nth (Z.to_nat (currentIndex + 1)) steps (step st)) st1
  else st1.

(** [prevStep()] *)
Definition prevStep (st : State) : State :=
  let currentIndex := indexOf steps (step st) in
  if (0 <? currentIndex)%Z then
    setStep (nth (Z.to_nat (currentIndex - 1)) steps (step st)) st
  else st.

Record Results : Type := {
  tdee : number;
  dailyCalories : number;
  proteinGrams : number;
  carbsGrams : number;
  fatGrams : number;
  weeklyChange : number;
  heightCm : number
}.

(** [calculateResults()].  The clock is read twice, by calculateAge for its
    default reference date and by calculateDailyCalorieTarget: [nowAge] and
    [nowGoal] are the two instants. *)
Definition calculateResults (nowAge nowGoal : Date) (fd : FormData)
    : Results :=
  let heightCm := feetInchesToCm (heightFeet fd) (heightInches fd) in
  let weightKg := lbsToKg (currentWeight fd) in
  let ageYears := calculateAge (dateOfBirth fd) nowAge in
  let tdee :=
    calculateTDEE
      {| TDEEInput.gender := gender fd;
         TDEEInput.weightKg := weightKg;
         TDEEInput.heightCm := heightCm;
         TDEEInput.ageYears := ageYears;
         TDEEInput.activityLevel := activityLevel fd |} in
  let target :=
    calculateDailyCalorieTarget nowGoal
      {| GoalCalculationInput.tdee := tdee;
         GoalCalculationInput.currentWeightLbs := currentWeight fd;
         GoalCalculationInput.targetWeightLbs := targetWeight fd;
         GoalCalculationInput.targetDate := targetDate fd;
         GoalCalculationInput.gender := gender fd |} in
  let macros :=
    getMacroTargets (CalorieTarget.dailyCalories target) (macroPreference fd)
      (Some {| protein := proteinRatio fd;
               carbs := carbsRatio fd;
               fat := fatRatio fd |}) in
  {| tdee := tdee;
     dailyCalories := MacroTargets.dailyCalories macros;
     proteinGrams := MacroTargets.proteinGrams macros;
     carbsGrams := MacroTargets.carbsGrams macros;
     fatGrams := MacroTargets.fatGrams macros;
     weeklyChange := CalorieTarget.weeklyChange target;
     heightCm := heightCm |}.

(** The form the wizard starts from, with the target date twelve weeks
    after 2026-02-04. *)
Definition initialFormData : FormData :=
  {| gender := male;
     heightFeet := ofZ 5;
     heightInches := ofZ 10;
     currentWeight := ofZ 180;
     dateOfBirth := dateOfYMD 1990 1 1;
     activityLevel := moderate;
     goalType := lose;
     targetWeight := ofZ 170;
     targetDate := dateOfYMD 2026 4 29;
     macroPreference := balanced;
     proteinRatio := Fin 0.30;
     carbsRatio := Fin 0.35;
     fatRatio := Fin 0.35 |}.

Definition initialState : State :=
  {| step := baseline; formData := initialFormData; error := None;
     warning := None; isSubmitting := false |}.

(** The step after and the step before a step; the ends stay. *)
Definition after (s : Step) : Step :=
  match s with
  | baseline => goal
  | goal => timeline
  | timeline => macros
  | macros => summary
  | summary => summary
  end.

Definition before (s : Step) : Step :=
  match s with
  | baseline => baseline
  | goal => baseline
  | timeline => goal
  | macros => timeline
  | summary => macros
  end.

End Onboarding.

(* ================================================================== *)
(** ** The check-in page: average daily calories                        *)
(* ================================================================== *)

(** The part of the page that turns the logs of the last seven days into
    the average daily calories handed to the check-in form.  The object
    that collects the calories per day is an association list in insertion
    order, the order in which the language lists keys such as
    ["2026-02-04"]. *)
Module CheckInPage.
Import JS Algorithm.

Record LogRow : Type := { calories : number; log_date : string }.

(** [o[k]]; [None] is [undefined]. *)
Fixpoint get (o : list (string * number)) (k : string) : option number :=
  match o with
  | [] => None
  | (k', v) :: o' => if String.eqb k' k then Some v else get o' k
  end.

(** [o[k] = v] *)
Fixpoint set (o : list (string * number)) (k : string) (v : number)
    : list (string * number) :=
  match o with
  | [] => [(k, v)]
  | (k', v') :: o' =>
      if String.eqb k' k then (k', v) :: o' else (k', v') :: set o' k v
  end.

(** [o[k] || 0] *)
Definition getOrZero (o : list (string * number)) (k : string) : number :=
  match get o k with
  | Some v => orElse v (ofZ 0)
  | None => ofZ 0
  end.

(** The body of the [forEach]. *)
Definition addLog (dailyCalories : list (string * number)) (log : LogRow)
    : list (string * number) :=
  set dailyCalories (log_date log)
      (add (getOrZero dailyCalories (log_date log)) (calories log)).

(** [recentLogs?.forEach(...)]; [None] is [null]. *)
Definition collect (recentLogs : option (list LogRow))
    : list (string * number) :=
  match recentLogs with
  | Some logs => fold_left addLog logs []
  | None => []
  end.

Definition daysLogged (dailyCalories : list (string * number)) : number :=
  ofZ (Z.of_nat (length dailyCalories)).

Definition totalCalories (dailyCalories : list (string * number)) : number :=
  fold_left (fun sum cal => add sum cal) (map snd dailyCalories) (ofZ 0).

(** [daysLogged > 0 ? totalCalories / daysLogged : goals.daily_calories] *)
Definition avgDailyCalories (recentLogs : option (list LogRow))
    (goals_daily_calories : number) : number :=
  let dailyCalories := collect recentLogs in
  if gt (daysLogged dailyCalories) (ofZ 0)
  then div (totalCalories dailyCalories) (daysLogged dailyCalories)
  else goals_daily_calories.

End CheckInPage.

(* ================================================================== *)
(** ** The diary and the dashboard: totals of the day                   *)
(* ================================================================== *)

(** The totals that the diary view and the dashboard compute from the logs
    of a day.  Of a log row only the fields these computations read are
    kept. *)
Module Diary.
Import JS Algorithm.

Inductive MealType : Type := breakfast | lunch | dinner | snack.

Definition MealType_eqb (a b : MealType) : bool :=
  match a, b with
  | breakfast, breakfast | lunch, lunch | dinner, dinner | snack, snack => true
  | _, _ => false
  end.

Module Log.
Record t : Type := {
  id : string;
  meal_type : MealType;
  calories : number;
  protein : number;
  carbs : number;
  fat : number
}.
End Log.

Module Totals.
Record t : Type := {
  calories : number;
  protein : number;
  carbs : number;
  fat : number
}.
End Totals.

(** [logs.reduce((acc, log) => ({ calories: acc.calories + (log.calories || 0), ... }), { calories: 0, ... })] *)
Definition totals (logs : list Log.t) : Totals.t :=
  fold_left
    (fun acc log =>
       {| Totals.calories :=
            add (Totals.calories acc) (orElse (Log.calories log) (ofZ 0));
          Totals.protein :=
            add (Totals.protein acc) (orElse (Log.protein log) (ofZ 0));
          Totals.carbs :=
            add (Totals.carbs acc) (orElse (Log.carbs log) (ofZ 0));
          Totals.fat :=
            add (Totals.fat acc) (orElse (Log.fat log) (ofZ 0)) |})
    logs
    {| Totals.calories := ofZ 0; Totals.protein := ofZ 0;
       Totals.carbs := ofZ 0; Totals.fat := ofZ 0 |}.

Module MealTotals.
Record t : Type := { calories : number }.
End MealTotals.

(** The calories of one meal, as the diary lists them; [None] when the meal
    has no log and nothing is rendered. *)
Definition mealTotals (mealType : MealType) (logs : list Log.t)
    : option MealTotals.t :=
  let mealLogs :=
    filter (fun l => MealType_eqb (Log.meal_type l) mealType) logs in
  if Nat.eqb (length mealLogs) 0 then None
  else Some (fold_left
               (fun acc log =>
                  {| MealTotals.calories :=
                       add (MealTotals.calories acc) (Log.calories log) |})
               mealLogs
               {| MealTotals.calories := ofZ 0 |}).

(** [handleFoodLogged]: the logs after a food was logged. *)
Definition handleFoodLogged (newLog : Log.t) (logs : list Log.t)
    : list Log.t :=
  logs ++ [newLog].

(** [handleDeleteLog]: the logs after the row was deleted from the store
    (when the store reports an error the logs stay as they are). *)
Definition handleDeleteLog (logId : string) (logs : list Log.t)
    : list Log.t :=
  filter (fun log => negb (String.eqb (Log.id log) logId)) logs.

End Diary.

Module Dashboard.
Import JS Algorithm.

(** [Math.min((total / goal) * 100, 100)]: the share of a goal that has
    been eaten, as the progress ring and the macro bars draw it. *)
Definition progress (total goal : number) : number :=
  Math_min (mul (div total goal) (ofZ 100)) (ofZ 100).

(** [goal - total] *)
Definition remaining (total goal : number) : number := sub goal total.

(** The width of the weight bar:
    [Math.max(0, Math.min(100, ((start - current) / (start - target)) * 100))] *)
Definition weightProgress (starting_weight current_weight target_weight : number)
    : number :=
  Math_max (ofZ 0)
    (Math_min (ofZ 100)
       (mul (div (sub starting_weight current_weight)
                 (sub starting_weight target_weight))
            (ofZ 100))).

End Dashboard.

(* ================================================================== *)
(** ** Notions used to state further properties                        *)
(* ================================================================== *)

Module Notions.
Import JS Algorithm.

(** Position of an activity level in the order of the multiplier table. *)
Definition rank (a : ActivityLevel) : Z :=
  match a with
  | sedentary => 0
  | light => 1
  | moderate => 2
  | active => 3
  | very_active => 4
  end%Z.

(** The input of calculateTDEE made of a body profile and an activity
    level. *)
Definition withActivity (p : BMRInput.t) (a : ActivityLevel) : TDEEInput.t :=
  {| TDEEInput.gender := BMRInput.gender p;
     TDEEInput.weightKg := BMRInput.weightKg p;
     TDEEInput.heightCm := BMRInput.heightCm p;
     TDEEInput.ageYears := BMRInput.ageYears p;
     TDEEInput.activityLevel := a |}.

(** A body profile. *)
Definition profile (g : Gender) (weightKg heightCm ageYears : number)
    : BMRInput.t :=
  {| BMRInput.gender := g;
     BMRInput.weightKg := weightKg;
     BMRInput.heightCm := heightCm;
     BMRInput.ageYears := ageYears |}.

(** The three gram amounts of a macro target. *)
Definition gramsOfTargets (t : MacroTargets.t) : MacroGrams.t :=
  {| MacroGrams.proteinGrams := MacroTargets.proteinGrams t;
     MacroGrams.carbsGrams := MacroTargets.carbsGrams t;
     MacroGrams.fatGrams := MacroTargets.fatGrams t |}.

(** The three gram amounts of a check-in result. *)
Definition gramsOfCheckIn (r : WeeklyCheckInResult.t) : MacroGrams.t :=
  {| MacroGrams.proteinGrams := WeeklyCheckInResult.newProteinGrams r;
     MacroGrams.carbsGrams := WeeklyCheckInResult.newCarbsGrams r;
     MacroGrams.fatGrams := WeeklyCheckInResult.newFatGrams r |}.

(** A ratio triple of finite numbers whose sum is not zero. *)
Definition usableRatios (r : Ratios) : Prop :=
  match protein r, carbs r, fat r with
  | Fin p, Fin c, Fin f => ~ p + c + f == 0
  | _, _, _ => False
  end.

(** The ratio triple of a check-in input. *)
Definition ratiosOfCheckIn (i : WeeklyCheckInInput.t) : Ratios :=
  {| protein := WeeklyCheckInInput.proteinRatio i;
     carbs := WeeklyCheckInInput.carbsRatio i;
     fat := WeeklyCheckInInput.fatRatio i |}.

(** A run of weekly check-ins, each made at its own instant, in which every
    check-in starts from the daily target that the one before returned (the
    check-in form stores newDailyCalories as the daily calories of the goal
    and reads it back as currentDailyTarget).  The run begins with [target]
    and ends with [final]. *)
Fixpoint chained (target : number)
    (steps : list (Date * WeeklyCheckInInput.t)) (final : number) : Prop :=
  match steps with
  | [] => same final target
  | (now, input) :: rest =>
      same (WeeklyCheckInInput.currentDailyTarget input) target
      /\ chained
           (WeeklyCheckInResult.newDailyCalories
              (performWeeklyCheckIn now input))
           rest final
  end.

(** A log row with finite calories. *)
Definition row (q : Q) (d : string) : CheckInPage.LogRow :=
  {| CheckInPage.calories := Fin q; CheckInPage.log_date := d |}.

Fixpoint sumQ (l : list Q) : Q :=
  match l with
  | [] => 0
  | q :: l' => q + sumQ l'
  end.

(** The collection of the check-in page on exact day totals, used to follow
    [CheckInPage.addLog]. *)
Fixpoint bump (o : list (string * Q)) (k : string) (q : Q)
    : list (string * Q) :=
  match o with
  | [] => [(k, q)]
  | (k', v) :: o' =>
      if String.eqb k' k then (k', v + q) :: o' else (k', v) :: bump o' k q
  end.

(** [o] holds the finite day totals [oq], key by key. *)
Definition holds (o : list (string * number)) (oq : list (string * Q)) : Prop :=
  Forall2 (fun kv kq => fst kv = fst kq /\ same (snd kv) (Fin (snd kq))) o oq.

(** The exact total on record for day [k], 0 when there is none. *)
Fixpoint getQ (o : list (string * Q)) (k : string) : Q :=
  match o with
  | [] => 0
  | (k', v) :: o' => if String.eqb k' k then v else getQ o' k
  end.

(** Log rows with finite calories, from pairs of calories and date. *)
Definition rows (entries : list (Q * string)) : list CheckInPage.LogRow :=
  map (fun e => row (fst e) (snd e)) entries.

(** The value of a number in a total: itself when finite, 0 when NaN. *)
Definition counted (x : number) : Q :=
  match x with
  | Fin q => q
  | _ => 0
  end.

(** A number that is finite or NaN. *)
Definition notInfinite (x : number) : bool :=
  match x with
  | PosInf | NegInf => false
  | _ => true
  end.

(** Every nutrient of the log is finite or NaN. *)
Definition plainLog (l : Diary.Log.t) : Prop :=
  notInfinite (Diary.Log.calories l) = true
  /\ notInfinite (Diary.Log.protein l) = true
  /\ notInfinite (Diary.Log.carbs l) = true
  /\ notInfinite (Diary.Log.fat l) = true.

(** The logs of the day listed under a meal. *)
Definition mealLogs (m : Diary.MealType) (logs : list Diary.Log.t)
    : list Diary.Log.t :=
  filter (fun l => Diary.MealType_eqb (Diary.Log.meal_type l) m) logs.

(** The calories of the log are a whole number. *)
Definition wholeCalories (l : Diary.Log.t) : Prop :=
  exists z : Z, Diary.Log.calories l = ofZ z.

(** The calories of a meal, 0 when the meal is not listed. *)
Definition mealCalories (m : Diary.MealType) (logs : list Diary.Log.t)
    : number :=
  match Diary.mealTotals m logs with
  | Some t => Diary.MealTotals.calories t
  | None => ofZ 0
  end.

End Notions.

(* ================================================================== *)
(** ** Facts about the number model                                    *)
(* ================================================================== *)

Import JS Algorithm.

Lemma lt_Fin_true (a b : Q) : lt (Fin a) (Fin b) = true <-> a < b.
Proof.
  simpl. rewrite negb_true_iff, <- not_true_iff_false, Qle_bool_iff.
  split; [apply Qnot_le_lt | apply Qlt_not_le].
Qed.

Lemma lt_Fin_false (a b : Q) : lt (Fin a) (Fin b) = false <-> b <= a.
Proof.
  simpl. rewrite negb_false_iff. apply Qle_bool_iff.
Qed.

Lemma le_Fin_true (a b : Q) : le (Fin a) (Fin b) = true <-> a <= b.
Proof. simpl. apply Qle_bool_iff. Qed.

Lemma le_Fin_false (a b : Q) : le (Fin a) (Fin b) = false <-> b < a.
Proof.
  simpl. rewrite <- not_true_iff_false, Qle_bool_iff.
  split; [apply Qnot_le_lt | apply Qlt_not_le].
Qed.

Lemma Qabs_cases (q : Q) : (q < 0 /\ Qabs q == - q) \/ (0 <= q /\ Qabs q == q).
Proof.
  destruct (Qlt_le_dec q 0) as [H | H].
  - left. split; [exact H |]. apply Qabs_neg. lra.
  - right. split; [exact H |]. apply Qabs_pos. exact H.
Qed.

(** Turns the comparisons of finite numbers in the context and in the goal
    into order facts on fractions. *)
Ltac fin_order :=
  unfold gt, ge, ofZ in *;
  repeat match goal with
    | H : lt (Fin _) (Fin _) = true |- _ => apply lt_Fin_true in H
    | H : lt (Fin _) (Fin _) = false |- _ => apply lt_Fin_false in H
    | H : le (Fin _) (Fin _) = true |- _ => apply le_Fin_true in H
    | H : le (Fin _) (Fin _) = false |- _ => apply le_Fin_false in H
    | |- lt (Fin _) (Fin _) = true => apply lt_Fin_true
    | |- lt (Fin _) (Fin _) = false => apply lt_Fin_false
    | |- le (Fin _) (Fin _) = true => apply le_Fin_true
    | |- le (Fin _) (Fin _) = false => apply le_Fin_false
    end;
  unfold inject_Z in *.

Lemma below_band_not_above (a e : number) :
  lt a (sub e (Fin 0.2)) = true -> gt a (add e (Fin 0.2)) = false.
Proof.
  destruct a as [a | | |], e as [e | | |]; simpl; try congruence;
    try reflexivity.
  intros H. change (lt (Fin a) (Fin (e + - 0.2)) = true) in H.
  change (gt (Fin a) (Fin (e + 0.2)) = false). fin_order. lra.
Qed.

Lemma above_band_not_below (a e : number) :
  gt a (add e (Fin 0.2)) = true -> lt a (sub e (Fin 0.2)) = false.
Proof.
  intros H. destruct (lt a (sub e (Fin 0.2))) eqn:E; [| reflexivity].
  apply below_band_not_above in E. congruence.
Qed.

Lemma zero_not_negative (e : number) :
  same e (ofZ 0) -> lt e (ofZ 0) = false /\ gt e (ofZ 0) = false.
Proof.
  destruct e as [e | | |]; simpl; try contradiction.
  intros H. split.
  - change (lt (Fin e) (Fin (inject_Z 0)) = false). fin_order. lra.
  - change (gt (Fin e) (Fin (inject_Z 0)) = false). fin_order. lra.
Qed.

Lemma maintain_gain_branch (a : number) :
  gt a (Fin 0.2) = true ->
  gt (Math_abs a) (Fin 0.2) = true /\ gt a (ofZ 0) = true.
Proof.
  destruct a as [a | | |]; simpl; try congruence; try (split; reflexivity).
  intros H. change (lt (Fin 0.2) (Fin a) = true) in H. split.
  - change (lt (Fin 0.2) (Fin (Qabs a)) = true).
    destruct (Qabs_cases a) as [[? E] | [? E]]; fin_order; rewrite E; lra.
  - change (lt (Fin (inject_Z 0)) (Fin a) = true). fin_order. lra.
Qed.

Lemma maintain_loss_branch (a : number) :
  lt a (Fin (- 0.2)) = true ->
  gt (Math_abs a) (Fin 0.2) = true /\ gt a (ofZ 0) = false.
Proof.
  destruct a as [a | | |]; simpl; try congruence; try (split; reflexivity).
  intros H. change (lt (Fin a) (Fin (- 0.2)) = true) in H. split.
  - change (lt (Fin 0.2) (Fin (Qabs a)) = true).
    destruct (Qabs_cases a) as [[? E] | [? E]]; fin_order; rewrite E; lra.
  - change (lt (Fin (inject_Z 0)) (Fin a) = false). fin_order. lra.
Qed.

Lemma maintain_within_band (a : number) :
  gt a (Fin 0.2) = false -> lt a (Fin (- 0.2)) = false ->
  gt (Math_abs a) (Fin 0.2) = false.
Proof.
  destruct a as [a | | |]; simpl; try congruence; try reflexivity.
  intros H1 H2.
  change (lt (Fin 0.2) (Fin a) = false) in H1.
  change (lt (Fin a) (Fin (- 0.2)) = false) in H2.
  change (lt (Fin 0.2) (Fin (Qabs a)) = false).
  destruct (Qabs_cases a) as [[? E] | [? E]]; fin_order; rewrite E; lra.
Qed.

(* ================================================================== *)
(** ** Weekly check-in: the decision table                             *)
(* ================================================================== *)

Section CheckIn.

Variable now : Date.
Variable input : WeeklyCheckInInput.t.

Let target := WeeklyCheckInInput.currentDailyTarget input.
Let actual :=
  sub (WeeklyCheckInInput.currentWeight input)
      (WeeklyCheckInInput.previousWeight input).
Let expected :=
  calculateRequiredWeeklyChange now
    (WeeklyCheckInInput.previousWeight input)
    (WeeklyCheckInInput.targetWeightLbs input)
    (WeeklyCheckInInput.targetDate input).

Lemma checkin_actual :
  WeeklyCheckInResult.actualWeeklyChange (performWeeklyCheckIn now input)
  = actual.
Proof.
  unfold performWeeklyCheckIn. cbv zeta. fold actual expected target.
  destruct (lt expected (ofZ 0)), (gt expected (ofZ 0)),
    (gt actual (add expected (Fin 0.2))),
    (lt actual (sub expected (Fin 0.2))),
    (gt (Math_abs actual) (Fin 0.2)), (gt actual (ofZ 0)); reflexivity.
Qed.

Lemma checkin_expected :
  WeeklyCheckInResult.expectedWeeklyChange (performWeeklyCheckIn now input)
  = expected.
Proof.
  unfold performWeeklyCheckIn. cbv zeta. fold actual expected target.
  destruct (lt expected (ofZ 0)), (gt expected (ofZ 0)),
    (gt actual (add expected (Fin 0.2))),
    (lt actual (sub expected (Fin 0.2))),
    (gt (Math_abs actual) (Fin 0.2)), (gt actual (ofZ 0)); reflexivity.
Qed.

(** The target that the nested conditionals assign, read off the result. *)
Lemma checkin_new :
  WeeklyCheckInResult.newDailyCalories (performWeeklyCheckIn now input)
  = if lt expected (ofZ 0) then
      if gt actual (add expected (Fin 0.2)) then sub target (ofZ 100)
      else if lt actual (sub expected (Fin 0.2)) then add target (ofZ 100)
      else target
    else if gt expected (ofZ 0) then
      if lt actual (sub expected (Fin 0.2)) then add target (ofZ 100)
      else if gt actual (add expected (Fin 0.2)) then sub target (ofZ 100)
      else target
    else
      if gt (Math_abs actual) (Fin 0.2) then
        if gt actual (ofZ 0) then sub target (ofZ 50)
        else add target (ofZ 50)
      else target.
Proof.
  unfold performWeeklyCheckIn. cbv zeta. fold actual expected target.
  destruct (lt expected (ofZ 0)), (gt expected (ofZ 0)),
    (gt actual (add expected (Fin 0.2))),
    (lt actual (sub expected (Fin 0.2))),
    (gt (Math_abs actual) (Fin 0.2)), (gt actual (ofZ 0)); reflexivity.
Qed.

(** The grams of the result are those of calculateMacroGrams at the new
    target and the ratios of the caller. *)
Lemma checkin_macros :
  let r := performWeeklyCheckIn now input in
  let g :=
    calculateMacroGrams (WeeklyCheckInResult.newDailyCalories r)
      (WeeklyCheckInInput.proteinRatio input)
      (WeeklyCheckInInput.carbsRatio input)
      (WeeklyCheckInInput.fatRatio input) in
  WeeklyCheckInResult.newProteinGrams r = MacroGrams.proteinGrams g
  /\ WeeklyCheckInResult.newCarbsGrams r = MacroGrams.carbsGrams g
  /\ WeeklyCheckInResult.newFatGrams r = MacroGrams.fatGrams g.
Proof.
  unfold performWeeklyCheckIn. cbv zeta. fold actual expected target.
  destruct (lt expected (ofZ 0)), (gt expected (ofZ 0)),
    (gt actual (add expected (Fin 0.2))),
    (lt actual (sub expected (Fin 0.2))),
    (gt (Math_abs actual) (Fin 0.2)), (gt actual (ofZ 0));
    repeat split.
Qed.

End CheckIn.

(** C1.  The weekly check-in chooses the new daily calorie target by the
    three-regime table with a tolerance of 0.2 lbs.  The actual change is
    currentWeight - previousWeight and the expected change is the required
    weekly change computed from previousWeight.  With a losing goal
    (expected < 0) the target drops by 100 when actual > expected + 0.2,
    rises by 100 when actual < expected - 0.2 and is kept otherwise; with a
    gaining goal (expected > 0) it rises by 100 when actual < expected - 0.2,
    drops by 100 when actual > expected + 0.2 and is kept otherwise; with
    expected = 0 it drops by 50 when actual > 0.2, rises by 50 when
    actual < -0.2 and is kept otherwise. *)
Theorem weekly_checkin_decision_table
    (now : Date) (input : WeeklyCheckInInput.t) :
  let r := performWeeklyCheckIn now input in
  let target := WeeklyCheckInInput.currentDailyTarget input in
  let actual := WeeklyCheckInResult.actualWeeklyChange r in
  let expected := WeeklyCheckInResult.expectedWeeklyChange r in
  let new := WeeklyCheckInResult.newDailyCalories r in
  actual = sub (WeeklyCheckInInput.currentWeight input)
               (WeeklyCheckInInput.previousWeight input)
  /\ expected = calculateRequiredWeeklyChange now
                  (WeeklyCheckInInput.previousWeight input)
                  (WeeklyCheckInInput.targetWeightLbs input)
                  (WeeklyCheckInInput.targetDate input)
  /\ (lt expected (ofZ 0) = true ->
        (gt actual (add expected (Fin 0.2)) = true ->
           new = sub target (ofZ 100))
        /\ (lt actual (sub expected (Fin 0.2)) = true ->
           new = add target (ofZ 100))
        /\ (gt actual (add expected (Fin 0.2)) = false ->
            lt actual (sub expected (Fin 0.2)) = false ->
           new = target))
  /\ (gt expected (ofZ 0) = true ->
        (lt actual (sub expected (Fin 0.2)) = true ->
           new = add target (ofZ 100))
        /\ (gt actual (add expected (Fin 0.2)) = true ->
           new = sub target (ofZ 100))
        /\ (lt actual (sub expected (Fin 0.2)) = false ->
            gt actual (add expected (Fin 0.2)) = false ->
           new = target))
  /\ (same expected (ofZ 0) ->
        (gt actual (Fin 0.2) = true -> new = sub target (ofZ 50))
        /\ (lt actual (Fin (- 0.2)) = true -> new = add target (ofZ 50))
        /\ (gt actual (Fin 0.2) = false -> lt actual (Fin (- 0.2)) = false ->
           new = target)).
Proof.
  cbv zeta. rewrite checkin_actual, checkin_expected, checkin_new.
  set (e := calculateRequiredWeeklyChange _ _ _ _).
  set (a := sub (WeeklyCheckInInput.currentWeight input) _).
  set (c := WeeklyCheckInInput.currentDailyTarget input).
  split; [reflexivity | split; [reflexivity |]].
  split; [| split].
  - intros He. rewrite He. repeat split.
    + intros H. now rewrite H.
    + intros H. now rewrite (below_band_not_above _ _ H), H.
    + intros H1 H2. now rewrite H1, H2.
  - intros He.
    assert (Hn : lt e (ofZ 0) = false).
    { destruct e as [q | | |]; simpl in *; try congruence.
      change (lt (Fin (inject_Z 0)) (Fin q) = true) in He.
      change (lt (Fin q) (Fin (inject_Z 0)) = false). fin_order. lra. }
    rewrite Hn, He. repeat split.
    + intros H. now rewrite H.
    + intros H. now rewrite (above_band_not_below _ _ H), H.
    + intros H1 H2. now rewrite H1, H2.
  - intros He. destruct (zero_not_negative _ He) as [H1 H2].
    rewrite H1, H2. repeat split.
    + intros H. destruct (maintain_gain_branch _ H) as [E1 E2].
      now rewrite E1, E2.
    + intros H. destruct (maintain_loss_branch _ H) as [E1 E2].
      now rewrite E1, E2.
    + intros G1 G2. now rewrite (maintain_within_band _ G1 G2).
Qed.

(** The decision table at three sample check-ins, one per regime. *)
Lemma weekly_checkin_decision_table_witness :
  WeeklyCheckInResult.newDailyCalories
    (performWeeklyCheckIn Samples.today Samples.losingTooSlow)
  = sub (ofZ 2000) (ofZ 100)
  /\ WeeklyCheckInResult.newDailyCalories
       (performWeeklyCheckIn Samples.today Samples.gainingTooSlow)
     = add (ofZ 2500) (ofZ 100)
  /\ WeeklyCheckInResult.newDailyCalories
       (performWeeklyCheckIn Samples.today Samples.maintainingDrift)
     = sub (ofZ 2200) (ofZ 50).
Proof.
  split; [| split].
  - destruct (weekly_checkin_decision_table Samples.today Samples.losingTooSlow)
      as (_ & _ & Hlose & _ & _).
    destruct (Hlose eq_refl) as (H & _ & _). exact (H eq_refl).
  - destruct (weekly_checkin_decision_table Samples.today Samples.gainingTooSlow)
      as (_ & _ & _ & Hgain & _).
    destruct (Hgain eq_refl) as (H & _ & _). exact (H eq_refl).
  - destruct (weekly_checkin_decision_table Samples.today Samples.maintainingDrift)
      as (_ & _ & _ & _ & Hkeep).
    assert (Z0 : same
      (WeeklyCheckInResult.expectedWeeklyChange
         (performWeeklyCheckIn Samples.today Samples.maintainingDrift)) (ofZ 0))
      by reflexivity.
    destruct (Hkeep Z0) as (H & _ & _). exact (H eq_refl).
Defined.

(* ================================================================== *)
(** ** Weekly check-in: no floor is applied                            *)
(* ================================================================== *)

Lemma same_refl (x : number) : same x x.
Proof. destruct x; simpl; auto. reflexivity. Qed.

Lemma same_sub_add (x : number) (z : Z) :
  same (sub x (ofZ z)) (add x (ofZ (- z))).
Proof.
  destruct x; simpl; auto. unfold inject_Z. simpl. reflexivity.
Qed.

Lemma same_add_zero (x : number) : same x (add x (ofZ 0)).
Proof.
  destruct x; simpl; auto. unfold inject_Z. lra.
Qed.

Lemma same_add_cancel (q : Q) (d d' : Z) :
  same (add (Fin q) (ofZ d)) (add (Fin q) (ofZ d')) -> d = d'.
Proof.
  simpl. intros H.
  assert (E : inject_Z d == inject_Z d') by lra.
  unfold Qeq in E. simpl in E. lia.
Qed.

(** C6.  The weekly check-in never reapplies the gender calorie floor: the
    new daily target is the current target plus one of -100, -50, 0, +50,
    +100 (for a finite target exactly one of them), also when that value
    lies below 1200 kcal, as it does for the sample check-in whose current
    target is 1200. *)
Theorem weekly_checkin_applies_no_floor :
  (forall (now : Date) (input : WeeklyCheckInInput.t),
     let target := WeeklyCheckInInput.currentDailyTarget input in
     let new :=
       WeeklyCheckInResult.newDailyCalories (performWeeklyCheckIn now input) in
     exists delta : Z,
       In delta [-100; -50; 0; 50; 100]%Z
       /\ same new (add target (ofZ delta))
       /\ (isFinite target = true ->
           forall delta' : Z,
             same new (add target (ofZ delta')) -> delta' = delta))
  /\ (let new :=
        WeeklyCheckInResult.newDailyCalories
          (performWeeklyCheckIn Samples.today Samples.losingAtFloor) in
      new = ofZ 1100
      /\ lt new (ofZ MIN_CALORIES_FEMALE) = true
      /\ lt new (ofZ MIN_CALORIES_MALE) = true).
Proof.
  split.
  - intros now input. cbv zeta. rewrite checkin_new.
    set (c := WeeklyCheckInInput.currentDailyTarget input).
    assert (U : forall (new : number) (delta : Z),
      same new (add c (ofZ delta)) ->
      isFinite c = true ->
      forall delta' : Z, same new (add c (ofZ delta')) -> delta' = delta).
    { intros new delta H F delta' H'. destruct c as [q | | |]; try discriminate.
      destruct new as [n | | |]; simpl in H, H'; try contradiction.
      symmetry. apply (same_add_cancel q). simpl. lra. }
    assert (Dm100 : exists delta : Z, In delta [-100; -50; 0; 50; 100]%Z
      /\ same (sub c (ofZ 100)) (add c (ofZ delta))
      /\ (isFinite c = true -> forall delta' : Z,
            same (sub c (ofZ 100)) (add c (ofZ delta')) -> delta' = delta)).
    { exists (-100)%Z. split; [simpl; tauto |].
      split; [apply (same_sub_add c 100) |]. apply U, (same_sub_add c 100). }
    assert (Dm50 : exists delta : Z, In delta [-100; -50; 0; 50; 100]%Z
      /\ same (sub c (ofZ 50)) (add c (ofZ delta))
      /\ (isFinite c = true -> forall delta' : Z,
            same (sub c (ofZ 50)) (add c (ofZ delta')) -> delta' = delta)).
    { exists (-50)%Z. split; [simpl; tauto |].
      split; [apply (same_sub_add c 50) |]. apply U, (same_sub_add c 50). }
    assert (D0 : exists delta : Z, In delta [-100; -50; 0; 50; 100]%Z
      /\ same c (add c (ofZ delta))
      /\ (isFinite c = true -> forall delta' : Z,
            same c (add c (ofZ delta')) -> delta' = delta)).
    { exists 0%Z. split; [simpl; tauto |].
      split; [apply same_add_zero |]. apply U, same_add_zero. }
    assert (Dp50 : exists delta : Z, In delta [-100; -50; 0; 50; 100]%Z
      /\ same (add c (ofZ 50)) (add c (ofZ delta))
      /\ (isFinite c = true -> forall delta' : Z,
            same (add c (ofZ 50)) (add c (ofZ delta')) -> delta' = delta)).
    { exists 50%Z. split; [simpl; tauto |].
      split; [apply same_refl |]. apply U, same_refl. }
    assert (Dp100 : exists delta : Z, In delta [-100; -50; 0; 50; 100]%Z
      /\ same (add c (ofZ 100)) (add c (ofZ delta))
      /\ (isFinite c = true -> forall delta' : Z,
            same (add c (ofZ 100)) (add c (ofZ delta')) -> delta' = delta)).
    { exists 100%Z. split; [simpl; tauto |].
      split; [apply same_refl |]. apply U, same_refl. }
    repeat match goal with
      | |- context [if ?b then _ else _] => destruct b
      end; assumption.
  - cbv zeta. repeat split.
Qed.

(** The single step below the floor, read off the general statement. *)
Lemma weekly_checkin_applies_no_floor_witness :
  exists delta : Z,
    same (WeeklyCheckInResult.newDailyCalories
            (performWeeklyCheckIn Samples.today Samples.losingAtFloor))
         (add (ofZ 1200) (ofZ delta))
    /\ delta = (-100)%Z.
Proof.
  destruct weekly_checkin_applies_no_floor as [H _].
  destruct (H Samples.today Samples.losingAtFloor) as (delta & _ & S & U).
  exists delta. split; [exact S |].
  symmetry. apply (U eq_refl). reflexivity.
Defined.

(* ================================================================== *)
(** ** Daily calorie target                                            *)
(* ================================================================== *)

Lemma lt_ofZ (a b : Z) : lt (ofZ a) (ofZ b) = (a <? b)%Z.
Proof.
  destruct (a <? b)%Z eqn:E.
  - apply Z.ltb_lt in E. unfold ofZ. apply lt_Fin_true.
    rewrite <- Zlt_Qlt. exact E.
  - apply Z.ltb_ge in E. unfold ofZ. apply lt_Fin_false.
    rewrite <- Zle_Qle. exact E.
Qed.

(** C2.  calculateDailyCalorieTarget returns
    round(tdee + weeklyChange * 3500 / 7), raised to the floor of the gender
    (1500 for male, 1200 for female and other) whenever the rounded value is
    below that floor and left alone otherwise: the result is the maximum of
    the rounded value and the floor. *)
Theorem daily_calorie_target_is_floor_max
    (now : Date) (input : GoalCalculationInput.t) :
  let r := calculateDailyCalorieTarget now input in
  let weekly := CalorieTarget.weeklyChange r in
  let rounded :=
    Math_round
      (add (GoalCalculationInput.tdee input)
           (div (mul weekly (ofZ 3500)) (ofZ 7))) in
  let floor : Z :=
    match GoalCalculationInput.gender input with
    | male => 1500
    | female | other => 1200
    end%Z in
  weekly = calculateRequiredWeeklyChange now
             (GoalCalculationInput.currentWeightLbs input)
             (GoalCalculationInput.targetWeightLbs input)
             (GoalCalculationInput.targetDate input)
  /\ CalorieTarget.dailyCalories r = Math_max rounded (ofZ floor)
  /\ (lt rounded (ofZ floor) = true ->
      CalorieTarget.dailyCalories r = ofZ floor)
  /\ (lt rounded (ofZ floor) = false ->
      CalorieTarget.dailyCalories r = rounded).
Proof.
  cbv zeta. unfold calculateDailyCalorieTarget. cbv zeta.
  cbn [CalorieTarget.weeklyChange CalorieTarget.dailyCalories].
  set (w := calculateRequiredWeeklyChange _ _ _ _).
  set (t := GoalCalculationInput.tdee input).
  change (ofZ CALORIES_PER_POUND) with (ofZ 3500).
  set (x := Math_round (add t (div (mul w (ofZ 3500)) (ofZ 7)))).
  set (f := match GoalCalculationInput.gender input with
            | male => 1500%Z
            | _ => 1200%Z
            end).
  assert (Hf : (if Gender_eqb (GoalCalculationInput.gender input) male
                then ofZ MIN_CALORIES_MALE else ofZ MIN_CALORIES_FEMALE)
               = ofZ f)
    by (subst f; destruct (GoalCalculationInput.gender input); reflexivity).
  rewrite Hf. clear Hf.
  split; [reflexivity |]. split; [| split].
  - unfold Math_max. destruct x; reflexivity.
  - intros H. now rewrite H.
  - intros H. now rewrite H.
Qed.

(** The floor at work on a crash diet, and idle on a steady loss. *)
Lemma daily_calorie_target_is_floor_max_witness :
  CalorieTarget.dailyCalories
    (calculateDailyCalorieTarget Samples.today Samples.crashDiet) = ofZ 1200
  /\ CalorieTarget.dailyCalories
       (calculateDailyCalorieTarget Samples.today Samples.steadyLoss)
     = ofZ 2000.
Proof.
  split.
  - destruct (daily_calorie_target_is_floor_max Samples.today Samples.crashDiet)
      as (_ & _ & H & _).
    exact (H eq_refl).
  - destruct (daily_calorie_target_is_floor_max Samples.today Samples.steadyLoss)
      as (_ & _ & _ & H).
    rewrite (H eq_refl). reflexivity.
Defined.

(* ================================================================== *)
(** ** Goal safety                                                     *)
(* ================================================================== *)

(** C3.  validateGoalSafety classifies a finite weekly change by its
    magnitude.  Loss (weeklyChange < 0): safe and realistic iff
    |weeklyChange| <= 2, unsafe but realistic iff 2 < |weeklyChange| <= 3,
    unsafe and unrealistic iff |weeklyChange| > 3.  Gain (weeklyChange > 0):
    the same with the bounds 1 and 1.5.  A change of exactly 0 is safe and
    realistic. *)
Theorem goal_safety_tiers (w : Q) :
  let r := validateGoalSafety (Fin w) in
  (w < 0 ->
     (GoalSafety.isSafe r = true /\ GoalSafety.isRealistic r = true
        <-> Qabs w <= 2)
     /\ (GoalSafety.isSafe r = false /\ GoalSafety.isRealistic r = true
        <-> 2 < Qabs w /\ Qabs w <= 3)
     /\ (GoalSafety.isSafe r = false /\ GoalSafety.isRealistic r = false
        <-> 3 < Qabs w))
  /\ (0 < w ->
     (GoalSafety.isSafe r = true /\ GoalSafety.isRealistic r = true
        <-> Qabs w <= 1)
     /\ (GoalSafety.isSafe r = false /\ GoalSafety.isRealistic r = true
        <-> 1 < Qabs w /\ Qabs w <= 1.5)
     /\ (GoalSafety.isSafe r = false /\ GoalSafety.isRealistic r = false
        <-> 1.5 < Qabs w))
  /\ (w == 0 ->
     GoalSafety.isSafe r = true /\ GoalSafety.isRealistic r = true).
Proof.
  cbv zeta. unfold validateGoalSafety. cbv zeta.
  change (Math_abs (Fin w)) with (Fin (Qabs w)).
  change (mul (ofZ MAX_WEEKLY_LOSS_LBS) (Fin 1.5)) with (Fin (2 * 1.5)).
  change (mul (ofZ MAX_WEEKLY_GAIN_LBS) (Fin 1.5)) with (Fin (1 * 1.5)).
  change (ofZ MAX_WEEKLY_LOSS_LBS) with (Fin 2).
  change (ofZ MAX_WEEKLY_GAIN_LBS) with (Fin 1).
  change (ofZ 0) with (Fin 0).
  set (m := Qabs w).
  destruct (lt (Fin w) (Fin 0)) eqn:E1;
    destruct (gt (Fin w) (Fin 0)) eqn:E2;
    destruct (gt (Fin m) (Fin (2 * 1.5))) eqn:E3;
    destruct (gt (Fin m) (Fin 2)) eqn:E4;
    destruct (gt (Fin m) (Fin (1 * 1.5))) eqn:E5;
    destruct (gt (Fin m) (Fin 1)) eqn:E6;
    cbn [GoalSafety.isSafe GoalSafety.isRealistic];
    fin_order;
    (split; [| split]);
    intros Hw; try (exfalso; lra); try (split; reflexivity);
    (split; [| split]); split;
    try (intros [? ?]; try discriminate; try (split; lra); lra);
    try (intros ?; try (split; reflexivity); exfalso; lra).
Qed.

(** Safe, aggressive and unrealistic goals on both sides. *)
Lemma goal_safety_tiers_witness :
  (GoalSafety.isSafe (validateGoalSafety (Fin (- 2.5))) = false
   /\ GoalSafety.isRealistic (validateGoalSafety (Fin (- 2.5))) = true)
  /\ (GoalSafety.isSafe (validateGoalSafety (Fin 2)) = false
      /\ GoalSafety.isRealistic (validateGoalSafety (Fin 2)) = false)
  /\ (GoalSafety.isSafe (validateGoalSafety (Fin 0)) = true
      /\ GoalSafety.isRealistic (validateGoalSafety (Fin 0)) = true).
Proof.
  split; [| split].
  - destruct (goal_safety_tiers (- 2.5)) as (H & _ & _).
    assert (L : - 2.5 < 0) by reflexivity.
    destruct (H L) as (_ & H2 & _). apply H2.
    split; [reflexivity | discriminate].
  - destruct (goal_safety_tiers 2) as (_ & H & _).
    assert (L : 0 < 2) by reflexivity.
    destruct (H L) as (_ & _ & H3). apply H3. reflexivity.
  - destruct (goal_safety_tiers 0) as (_ & _ & H).
    apply H. reflexivity.
Defined.

(** The claim of C4 as it is written fails: a loss of 1.5 lbs/week is in the
    safe tier, so the call does not report isSafe = false. *)
Lemma goal_safety_examples_as_claimed_fail :
  ~ (GoalSafety.isSafe (validateGoalSafety (Fin (- 3))) = false
     /\ includes (GoalSafety.message (validateGoalSafety (Fin (- 3))))
                 "dangerous" = true
     /\ GoalSafety.isRealistic (validateGoalSafety (Fin (- 1.5))) = true
     /\ GoalSafety.isSafe (validateGoalSafety (Fin (- 1.5))) = false).
Proof.
  intros (_ & _ & _ & H). vm_compute in H. discriminate H.
Qed.

(** C4 (amended).  validateGoalSafety(-3) returns isSafe = false, and
    validateGoalSafety(-1.5) returns isRealistic = true and isSafe = true
    (the safe tier). *)
Theorem goal_safety_examples :
  GoalSafety.isSafe (validateGoalSafety (Fin (- 3))) = false
  /\ GoalSafety.isRealistic (validateGoalSafety (Fin (- 1.5))) = true
  /\ GoalSafety.isSafe (validateGoalSafety (Fin (- 1.5))) = true.
Proof. repeat split. Qed.

(** What the call at -3 returns in full: the aggressive tier and its
    message, where the test suite of the repository expects the marker of
    the unrealistic tier. *)
Lemma goal_safety_at_minus_3 :
  validateGoalSafety (Fin (- 3))
  = {| GoalSafety.isSafe := false;
       GoalSafety.isRealistic := true;
       GoalSafety.message :=
         "Losing 3.0 lbs/week is aggressive and may not be sustainable. Consider a more gradual approach." |}
  /\ includes (GoalSafety.message (validateGoalSafety (Fin (- 3))))
              "dangerous" = false
  /\ includes (GoalSafety.message (validateGoalSafety (Fin (- 3.5))))
              "dangerous" = true.
Proof. repeat split. Qed.

(* ================================================================== *)
(** ** Macro grams                                                     *)
(* ================================================================== *)

Lemma round_half_up_bounds (q : Q) :
  q - (1 # 2) < inject_Z (Qfloor (q + (1 # 2)))
  /\ inject_Z (Qfloor (q + (1 # 2))) <= q + (1 # 2).
Proof.
  split.
  - pose proof (Qlt_floor (q + (1 # 2))) as H.
    rewrite inject_Z_plus in H. change (inject_Z 1) with 1 in H. lra.
  - apply Qfloor_le.
Qed.

(** With a ratio sum of 1 the three amounts are finite: each is the rounded
    share of the calories divided by the calories per gram. *)
Lemma macro_grams_of_unit_sum (d p c f : Q) :
  p + c + f == 1 ->
  calculateMacroGrams (Fin d) (Fin p) (Fin c) (Fin f)
  = {| MacroGrams.proteinGrams :=
         ofZ (Qfloor (d * (p / (p + c + f)) / 4 + (1 # 2)));
       MacroGrams.carbsGrams :=
         ofZ (Qfloor (d * (c / (p + c + f)) / 4 + (1 # 2)));
       MacroGrams.fatGrams :=
         ofZ (Qfloor (d * (f / (p + c + f)) / 9 + (1 # 2))) |}.
Proof.
  intros H.
  assert (E : Qeq_bool (p + c + f) 0 = false).
  { destruct (Qeq_bool (p + c + f) 0) eqn:E; [| reflexivity].
    apply Qeq_bool_eq in E. lra. }
  unfold calculateMacroGrams. cbv zeta. unfold div, mul, add.
  rewrite E. reflexivity.
Qed.

(** The claim of C5 as it is written fails: 5 kcal, all of it fat, round to
    one gram of fat, that is 9 kcal, 4 kcal away from the 5 asked for. *)
Lemma macro_grams_slack_exceeds_3 :
  0 < 5 /\ 0 <= 0 /\ 0 <= 0 /\ 0 <= 1 /\ 0 + 0 + 1 == 1
  /\ calculateMacroGrams (Fin 5) (Fin 0) (Fin 0) (Fin 1)
     = {| MacroGrams.proteinGrams := Fin 0;
          MacroGrams.carbsGrams := Fin 0;
          MacroGrams.fatGrams := Fin 1 |}
  /\ ~ Properties.recombinesWithin 3 5
         (calculateMacroGrams (Fin 5) (Fin 0) (Fin 0) (Fin 1)).
Proof.
  repeat split; try discriminate.
  intros H. vm_compute in H. apply H. reflexivity.
Qed.

(** C5 (amended).  For every positive dailyCalories and every ratio triple
    of non-negative numbers summing to 1, the grams that calculateMacroGrams
    returns are finite and satisfy
    |proteinGrams*4 + carbsGrams*4 + fatGrams*9 - dailyCalories| <= 8.5,
    each amount being dailyCalories*ratio divided by its calories per gram
    (4, 4, 9) and rounded on its own to the nearest integer. *)
Theorem macro_grams_recombine_within_8_5 (d p c f : Q) :
  0 < d -> 0 <= p -> 0 <= c -> 0 <= f -> p + c + f == 1 ->
  Properties.recombinesWithin (17 # 2) d
    (calculateMacroGrams (Fin d) (Fin p) (Fin c) (Fin f)).
Proof.
  intros _ _ _ _ H. rewrite (macro_grams_of_unit_sum d p c f H).
  unfold Properties.recombinesWithin, Properties.kcalOfGrams, ofZ.
  cbn [MacroGrams.proteinGrams MacroGrams.carbsGrams MacroGrams.fatGrams].
  assert (Ep : d * (p / (p + c + f)) / 4 == d * p / 4)
    by (rewrite H; field).
  assert (Ec : d * (c / (p + c + f)) / 4 == d * c / 4)
    by (rewrite H; field).
  assert (Ef : d * (f / (p + c + f)) / 9 == d * f / 9)
    by (rewrite H; field).
  rewrite Ep, Ec, Ef.
  destruct (round_half_up_bounds (d * p / 4)) as [P1 P2].
  destruct (round_half_up_bounds (d * c / 4)) as [C1 C2].
  destruct (round_half_up_bounds (d * f / 9)) as [F1 F2].
  set (gp := inject_Z (Qfloor (d * p / 4 + (1 # 2)))) in *.
  set (gc := inject_Z (Qfloor (d * c / 4 + (1 # 2)))) in *.
  set (gf := inject_Z (Qfloor (d * f / 9 + (1 # 2)))) in *.
  assert (S : d * p + d * c + d * f == d).
  { rewrite <- !Qmult_plus_distr_r, H. ring. }
  apply Qabs_Qle_condition.
  assert (Xp : d * p / 4 == (d * p) * (1 # 4)) by field.
  assert (Xc : d * c / 4 == (d * c) * (1 # 4)) by field.
  assert (Xf : d * f / 9 == (d * f) * (1 # 9)) by field.
  rewrite Xp in P1, P2. rewrite Xc in C1, C2. rewrite Xf in F1, F2.
  set (dp := d * p) in *. set (dc := d * c) in *. set (df := d * f) in *.
  split; lra.
Qed.

(** The bound at the preset of the test suite and at an input that attains
    it: 8.5 kcal split 2 : 2 : 4.5 round to one gram each, 17 kcal. *)
Lemma macro_grams_recombine_within_8_5_witness :
  Properties.recombinesWithin (17 # 2) 2000
    (calculateMacroGrams (Fin 2000) (Fin 0.4) (Fin 0.3) (Fin 0.3))
  /\ Properties.recombinesWithin (17 # 2) (17 # 2)
       (calculateMacroGrams (Fin (17 # 2)) (Fin (4 # 17)) (Fin (4 # 17))
          (Fin (9 # 17))).
Proof.
  split.
  - apply (macro_grams_recombine_within_8_5 2000 0.4 0.3 0.3);
      first [reflexivity | discriminate].
  - apply (macro_grams_recombine_within_8_5 (17 # 2) (4 # 17) (4 # 17) (9 # 17));
      first [reflexivity | discriminate].
Defined.

(** The bound of 8.5 cannot be lowered: the second input above is off by
    exactly 8.5 kcal. *)
Lemma macro_grams_slack_is_attained :
  Properties.kcalOfGrams
    (calculateMacroGrams (Fin (17 # 2)) (Fin (4 # 17)) (Fin (4 # 17))
       (Fin (9 # 17)))
  = Some (1 * 4 + 1 * 4 + 1 * 9).
Proof. reflexivity. Qed.

(* ================================================================== *)
(** ** Age                                                             *)
(* ================================================================== *)

Lemma DayFromYear_mono (y y' : Z) :
  (y < y')%Z -> (DayFromYear y < DayFromYear y')%Z.
Proof. unfold DayFromYear. intros H. Z.div_mod_to_equations. lia. Qed.

(** [YearFromDay] meets the definition of the language standard: the year
    of a day is the one whose first day is the last first-of-year at or
    before it. *)
Lemma YearFromDay_spec (day : Z) :
  (DayFromYear (YearFromDay day) <= day < DayFromYear (YearFromDay day + 1))%Z.
Proof.
  unfold YearFromDay. cbv zeta.
  set (e := (1970 + day * 400 / 146097)%Z).
  assert (He : (146097 * (e - 1970) <= day * 400
                < 146097 * (e - 1970) + 146097)%Z)
    by (subst e; Z.div_mod_to_equations; lia).
  clearbody e.
  assert (L : (DayFromYear (e - 1) <= day)%Z)
    by (unfold DayFromYear; Z.div_mod_to_equations; lia).
  assert (U : (day < DayFromYear (e + 3))%Z)
    by (unfold DayFromYear; Z.div_mod_to_equations; lia).
  destruct (Z.leb_spec (DayFromYear (e + 2)) day) as [A | A].
  { replace (e + 2 + 1)%Z with (e + 3)%Z by lia. lia. }
  destruct (Z.leb_spec (DayFromYear (e + 1)) day) as [B | B].
  { replace (e + 1 + 1)%Z with (e + 2)%Z by lia. lia. }
  destruct (Z.leb_spec (DayFromYear e) day) as [C | C].
  { lia. }
  replace (e - 1 + 1)%Z with e by lia. lia.
Qed.

Lemma YearFromDay_largest (day y : Z) :
  (DayFromYear y <= day)%Z -> (y <= YearFromDay day)%Z.
Proof.
  intros H. destruct (YearFromDay_spec day) as [_ U].
  destruct (Z.le_gt_cases y (YearFromDay day)) as [L | G]; [exact L |].
  destruct (Z.eq_dec (YearFromDay day + 1) y) as [E | N].
  - rewrite E in U. lia.
  - pose proof (DayFromYear_mono (YearFromDay day + 1) y). lia.
Qed.

(** An instant before the epoch lies in 1969 or earlier. *)
Lemma YearFromTime_before_epoch (t : Z) :
  (t < 0)%Z -> (YearFromTime t <= 1969)%Z.
Proof.
  intros H. unfold YearFromTime.
  assert (D : (t / msPerDay < 0)%Z)
    by (unfold msPerDay; Z.div_mod_to_equations; lia).
  destruct (YearFromDay_spec (t / msPerDay)) as [L _].
  destruct (Z.le_gt_cases (YearFromDay (t / msPerDay)) 1969) as [X | X];
    [exact X |].
  destruct (Z.eq_dec (YearFromDay (t / msPerDay)) 1970) as [E | N].
  - rewrite E in L. change (DayFromYear 1970) with 0%Z in L. lia.
  - pose proof (DayFromYear_mono 1970 (YearFromDay (t / msPerDay))) as M.
    change (DayFromYear 1970) with 0%Z in M. lia.
Qed.

Lemma sub_ofZ (a b : Z) : sub (ofZ a) (ofZ b) = ofZ (a - b).
Proof.
  unfold sub, neg, add, ofZ, inject_Z, Qplus, Qopp. simpl.
  do 2 f_equal. lia.
Qed.

Lemma newDate_in_range (z : Z) :
  (Z.abs z <= 8640000000000000)%Z -> newDate (ofZ z) = Some z.
Proof.
  intros H. unfold newDate, ofZ.
  change (Qabs (inject_Z z)) with (inject_Z (Z.abs z)).
  assert (E : Qle_bool (inject_Z (Z.abs z)) (inject_Z 8640000000000000) = true)
    by (apply Qle_bool_iff; rewrite <- Zle_Qle; exact H).
  rewrite E. simpl. now rewrite Z.quot_1_r.
Qed.

Lemma newDate_out_of_range (z : Z) :
  (8640000000000000 < Z.abs z)%Z -> newDate (ofZ z) = None.
Proof.
  intros H. unfold newDate, ofZ.
  change (Qabs (inject_Z z)) with (inject_Z (Z.abs z)).
  destruct (Qle_bool (inject_Z (Z.abs z)) (inject_Z 8640000000000000)) eqn:E;
    [| reflexivity].
  apply Qle_bool_iff in E. rewrite <- Zle_Qle in E. lia.
Qed.

(** What calculateAge computes on two valid dates that a [Date] can tell
    apart. *)
Lemma calculateAge_in_range (born ref : Z) :
  (Z.abs (ref - born) <= 8640000000000000)%Z ->
  calculateAge (Some born) (Some ref)
  = ofZ (Z.abs (YearFromTime (ref - born) - 1970)).
Proof.
  intros H. unfold calculateAge. cbv zeta. unfold getTime.
  rewrite sub_ofZ, (newDate_in_range _ H). unfold getUTCFullYear.
  rewrite sub_ofZ. reflexivity.
Qed.

(** The claim of C7 as it is written fails: with a reference date one day
    before the date of birth the call returns the number 1. *)
Lemma age_before_birth_as_claimed_fails :
  let born := Properties.toDate (Properties.ymd 2026 2 4) in
  let ref := Properties.toDate (Properties.ymd 2026 2 3) in
  Properties.precedes ref born
  /\ calculateAge born ref = ofZ 1
  /\ Properties.call (calculateAge born ref)
     <> Properties.Thrown Properties.InvalidInput.
Proof.
  cbv zeta. split; [reflexivity |]. split; [reflexivity |]. discriminate.
Qed.

(** C7 (amended).  For every pair of dates where referenceDate precedes
    birthDate, calculateAge does not fail but returns a number: 1970 minus
    the UTC year of the instant that lies as far before the epoch as
    referenceDate lies before birthDate, a whole number of at least 1; or
    NaN when the two dates are more than 8.64e15 ms apart. *)
Theorem age_before_birth_is_returned (born ref : Date) :
  Properties.precedes ref born ->
  exists v : number,
    Properties.call (calculateAge born ref) = Properties.Returned v
    /\ ((exists n : Z, (1 <= n)%Z /\ v = ofZ n)
        \/ v = NaN)
    /\ forall b r : Z, born = Some b -> ref = Some r ->
         ((b - r <= 8640000000000000)%Z ->
            v = ofZ (1970 - YearFromTime (r - b)))
         /\ ((8640000000000000 < b - r)%Z -> v = NaN).
Proof.
  destruct born as [b |], ref as [r |]; simpl; try contradiction.
  intros H. exists (calculateAge (Some b) (Some r)).
  split; [reflexivity |].
  assert (In_range : (b - r <= 8640000000000000)%Z ->
            calculateAge (Some b) (Some r)
            = ofZ (1970 - YearFromTime (r - b))
            /\ (1 <= 1970 - YearFromTime (r - b))%Z).
  { intros R. rewrite calculateAge_in_range by lia.
    pose proof (YearFromTime_before_epoch (r - b)). split; [f_equal |]; lia. }
  assert (Out_of_range : (8640000000000000 < b - r)%Z ->
            calculateAge (Some b) (Some r) = NaN).
  { intros R. unfold calculateAge. cbv zeta. unfold getTime.
    rewrite sub_ofZ, newDate_out_of_range by lia. reflexivity. }
  split.
  - destruct (Z.le_gt_cases (b - r) 8640000000000000) as [R | R].
    + left. destruct (In_range R) as [E N]. eauto.
    + right. auto.
  - intros b' r' Eb Er. injection Eb as <-. injection Er as <-.
    split; [apply In_range | exact Out_of_range].
Qed.

(** A reference date ten years before the date of birth. *)
Lemma age_before_birth_is_returned_witness :
  exists v : number,
    Properties.call (calculateAge (dateOfYMD 2026 2 4) (dateOfYMD 2016 2 4))
    = Properties.Returned v
    /\ v = ofZ 10.
Proof.
  destruct (age_before_birth_is_returned (dateOfYMD 2026 2 4)
              (dateOfYMD 2016 2 4)) as (v & C & _ & F).
  - reflexivity.
  - exists v. split; [exact C |].
    destruct (F _ _ eq_refl eq_refl) as [R _]. rewrite R.
    + reflexivity.
    + discriminate.
Defined.

(** C8.  On 2004-01-01, the third birthday of a person born on 2001-01-01,
    calculateAge returns 2 where three whole calendar years have elapsed;
    on 1972-12-31, the eve of the second birthday of a person born on
    1971-01-01, it returns 2 where one has.  On the dates of the example
    (born 1990-03-01, reference 2026-02-04) it returns 35, the whole
    calendar years elapsed. *)
Theorem age_is_off_around_birthdays :
  (calculateAge (Properties.toDate (Properties.ymd 2001 1 1))
                (Properties.toDate (Properties.ymd 2004 1 1))
   = ofZ 2
   /\ Properties.wholeYearsElapsed
        (Properties.ymd 2001 1 1) (Properties.ymd 2004 1 1) = 3%Z)
  /\ (calculateAge (Properties.toDate (Properties.ymd 1971 1 1))
                   (Properties.toDate (Properties.ymd 1972 12 31))
      = ofZ 2
      /\ Properties.wholeYearsElapsed
           (Properties.ymd 1971 1 1) (Properties.ymd 1972 12 31) = 1%Z)
  /\ (calculateAge (Properties.toDate (Properties.ymd 1990 3 1))
                   (Properties.toDate (Properties.ymd 2026 2 4))
      = ofZ 35
      /\ Properties.wholeYearsElapsed
           (Properties.ymd 1990 3 1) (Properties.ymd 2026 2 4) = 35%Z).
Proof. repeat split. Qed.

(* ================================================================== *)
(** ** Ratios that sum to zero                                         *)
(* ================================================================== *)

Lemma inf_of_sign_not_finite (s : Z) : isFinite (inf_of_sign s) = false.
Proof. destruct s; reflexivity. Qed.

Lemma div_by_zero_not_finite (x t : number) :
  same t (ofZ 0) -> isFinite (div x t) = false.
Proof.
  destruct t as [q | | |]; simpl; try contradiction.
  intros H. apply Qeq_bool_iff in H. change (inject_Z 0) with 0 in H.
  destruct x as [a | | |]; simpl; rewrite ?H;
    auto using inf_of_sign_not_finite.
Qed.

Lemma mul_not_finite (d x : number) :
  isFinite x = false -> isFinite (mul d x) = false.
Proof.
  destruct x as [a | | |]; simpl; try discriminate; intros _;
    destruct d; simpl; auto using inf_of_sign_not_finite.
Qed.

Lemma div_of_not_finite (x : number) (z : Z) :
  isFinite x = false -> isFinite (div x (ofZ z)) = false.
Proof.
  destruct x as [a | | |]; simpl; try discriminate; intros _; auto;
    destruct (Qeq_bool (inject_Z z) 0); auto using inf_of_sign_not_finite.
Qed.

Lemma round_not_finite (x : number) :
  isFinite x = false -> isFinite (Math_round x) = false.
Proof. destruct x; simpl; auto. Qed.

Lemma zero_sum_no_finite_gram (d p c f : number) :
  same (add (add p c) f) (ofZ 0) ->
  Properties.noFiniteGram (calculateMacroGrams d p c f).
Proof.
  intros H. unfold Properties.noFiniteGram, calculateMacroGrams. cbv zeta.
  cbn [MacroGrams.proteinGrams MacroGrams.carbsGrams MacroGrams.fatGrams].
  repeat split;
    apply round_not_finite, div_of_not_finite, mul_not_finite,
      div_by_zero_not_finite, H.
Qed.

(** The claim of C9 as it is written fails: with the ratios 0, 0, 0 the call
    returns three NaN amounts. *)
Lemma zero_ratio_sum_as_claimed_fails :
  same (add (add (ofZ 0) (ofZ 0)) (ofZ 0)) (ofZ 0)
  /\ calculateMacroGrams (ofZ 2000) (ofZ 0) (ofZ 0) (ofZ 0)
     = {| MacroGrams.proteinGrams := NaN;
          MacroGrams.carbsGrams := NaN;
          MacroGrams.fatGrams := NaN |}
  /\ Properties.call (calculateMacroGrams (ofZ 2000) (ofZ 0) (ofZ 0) (ofZ 0))
     <> Properties.Thrown Properties.InvalidInput.
Proof.
  split; [reflexivity |]. split; [reflexivity |]. discriminate.
Qed.

(** C9 (amended).  For every input whose macro ratio set sums to zero, the
    macro-gram computation does not fail: calculateMacroGrams returns, and
    each of its three gram amounts is NaN or an infinity; getMacroTargets
    with custom ratios and performWeeklyCheckIn hand these amounts on to
    the caller. *)
Theorem zero_ratio_sum_is_not_rejected (d p c f : number) :
  same (add (add p c) f) (ofZ 0) ->
  (exists g : MacroGrams.t,
     Properties.call (calculateMacroGrams d p c f) = Properties.Returned g
     /\ Properties.noFiniteGram g)
  /\ (exists t : MacroTargets.t,
       Properties.call
         (getMacroTargets d manual
            (Some {| protein := p; carbs := c; fat := f |}))
       = Properties.Returned t
       /\ isFinite (MacroTargets.proteinGrams t) = false
       /\ isFinite (MacroTargets.carbsGrams t) = false
       /\ isFinite (MacroTargets.fatGrams t) = false)
  /\ (forall (now : Date) (input : WeeklyCheckInInput.t),
       WeeklyCheckInInput.proteinRatio input = p ->
       WeeklyCheckInInput.carbsRatio input = c ->
       WeeklyCheckInInput.fatRatio input = f ->
       exists r : WeeklyCheckInResult.t,
         Properties.call (performWeeklyCheckIn now input)
         = Properties.Returned r
         /\ isFinite (WeeklyCheckInResult.newProteinGrams r) = false
         /\ isFinite (WeeklyCheckInResult.newCarbsGrams r) = false
         /\ isFinite (WeeklyCheckInResult.newFatGrams r) = false).
Proof.
  intros H. split; [| split].
  - eexists. split; [reflexivity |]. apply zero_sum_no_finite_gram, H.
  - eexists. split; [reflexivity |].
    apply (zero_sum_no_finite_gram d p c f H).
  - intros now input <- <- <-. eexists. split; [reflexivity |].
    destruct (checkin_macros now input) as (-> & -> & ->).
    apply zero_sum_no_finite_gram, H.
Qed.

(** Ratios 0, 0, 0 and ratios 1, -1, 0. *)
Lemma zero_ratio_sum_is_not_rejected_witness :
  (exists g : MacroGrams.t,
     Properties.call (calculateMacroGrams (ofZ 2000) (ofZ 0) (ofZ 0) (ofZ 0))
     = Properties.Returned g
     /\ Properties.noFiniteGram g)
  /\ (exists g : MacroGrams.t,
       Properties.call
         (calculateMacroGrams (ofZ 2000) (ofZ 1) (ofZ (-1)) (ofZ 0))
       = Properties.Returned g
       /\ Properties.noFiniteGram g).
Proof.
  split.
  - apply (zero_ratio_sum_is_not_rejected (ofZ 2000) (ofZ 0) (ofZ 0) (ofZ 0)).
    reflexivity.
  - apply (zero_ratio_sum_is_not_rejected (ofZ 2000) (ofZ 1) (ofZ (-1)) (ofZ 0)).
    reflexivity.
Defined.

(* ================================================================== *)
(** ** Manual preference without custom ratios                         *)
(* ================================================================== *)

(** C10.  For every positive dailyCalories, getMacroTargets with the
    preference manual and no customRatios does not fail: it falls back to
    the preset ratios protein 0.30, carbs 0.35, fat 0.35, the same as the
    balanced preset, and returns the grams computed from them. *)
Theorem manual_without_ratios_falls_back (q : Q) :
  0 < q ->
  let r := getMacroTargets (Fin q) manual None in
  Properties.call r = Properties.Returned r
  /\ MACRO_PRESETS manual
     = {| protein := Fin 0.30; carbs := Fin 0.35; fat := Fin 0.35 |}
  /\ MACRO_PRESETS manual = MACRO_PRESETS balanced
  /\ r = getMacroTargets (Fin q) balanced None
  /\ (let g := calculateMacroGrams (Fin q) (Fin 0.30) (Fin 0.35) (Fin 0.35) in
      r = {| MacroTargets.dailyCalories := Fin q;
             MacroTargets.proteinGrams := MacroGrams.proteinGrams g;
             MacroTargets.carbsGrams := MacroGrams.carbsGrams g;
             MacroTargets.fatGrams := MacroGrams.fatGrams g |})
  /\ r = {| MacroTargets.dailyCalories := Fin q;
            MacroTargets.proteinGrams :=
              ofZ (Qfloor (q * 0.30 / 4 + (1 # 2)));
            MacroTargets.carbsGrams :=
              ofZ (Qfloor (q * 0.35 / 4 + (1 # 2)));
            MacroTargets.fatGrams :=
              ofZ (Qfloor (q * 0.35 / 9 + (1 # 2))) |}.
Proof.
  intros _. cbv zeta. repeat (split; [reflexivity |]).
  unfold getMacroTargets. cbv zeta.
  cbn [MacroPreference_eqb MACRO_PRESETS protein carbs fat].
  rewrite (macro_grams_of_unit_sum q 0.30 0.35 0.35) by reflexivity.
  cbn [MacroGrams.proteinGrams MacroGrams.carbsGrams MacroGrams.fatGrams].
  assert (Ep : q * (0.30 / (0.30 + 0.35 + 0.35)) / 4 + (1 # 2)
               == q * 0.30 / 4 + (1 # 2)) by field.
  assert (Ec : q * (0.35 / (0.30 + 0.35 + 0.35)) / 4 + (1 # 2)
               == q * 0.35 / 4 + (1 # 2)) by field.
  assert (Ef : q * (0.35 / (0.30 + 0.35 + 0.35)) / 9 + (1 # 2)
               == q * 0.35 / 9 + (1 # 2)) by field.
  now rewrite (Qfloor_comp _ _ Ep), (Qfloor_comp _ _ Ec), (Qfloor_comp _ _ Ef).
Qed.

(** 2000 kcal: 150 g of protein, 175 g of carbs, 78 g of fat. *)
Lemma manual_without_ratios_falls_back_witness :
  getMacroTargets (Fin 2000) manual None
  = {| MacroTargets.dailyCalories := Fin 2000;
       MacroTargets.proteinGrams := ofZ 150;
       MacroTargets.carbsGrams := ofZ 175;
       MacroTargets.fatGrams := ofZ 78 |}.
Proof.
  assert (P : 0 < 2000) by reflexivity.
  destruct (manual_without_ratios_falls_back 2000 P) as (_ & _ & _ & _ & _ & H).
  rewrite H. reflexivity.
Defined.

(* ================================================================== *)
(** ** Unit conversions and energy expenditure                         *)
(* ================================================================== *)

Lemma same_trans (x y z : number) : same x y -> same y z -> same x z.
Proof.
  destruct x, y, z; simpl; auto; try contradiction.
  intros H1 H2. now rewrite H1.
Qed.



Lemma round_mono (a b : Q) :
  a <= b -> le (Math_round (Fin a)) (Math_round (Fin b)) = true.
Proof.
  intros H. unfold Math_round, ofZ. apply le_Fin_true.
  rewrite <- Zle_Qle. apply Qfloor_resp_le. lra.
Qed.

(** X3.  For a body whose BMR is not negative, calculateTDEE does not
    decrease when the activity level goes up the table (sedentary, light,
    moderate, active, very_active), and at every level it is at least the
    rounded BMR. *)
Theorem tdee_grows_with_activity
    (p : BMRInput.t) (a1 a2 : ActivityLevel) :
  le (ofZ 0) (calculateBMR p) = true ->
  (Notions.rank a1 <= Notions.rank a2)%Z ->
  le (calculateTDEE (Notions.withActivity p a1))
     (calculateTDEE (Notions.withActivity p a2)) = true
  /\ le (Math_round (calculateBMR p))
        (calculateTDEE (Notions.withActivity p a1)) = true.
Proof.
  unfold calculateTDEE. cbv zeta.
  assert (E : forall a,
    TDEEInput.asBMRInput (Notions.withActivity p a) = p)
    by (intros a; destruct p; reflexivity).
  rewrite !E. cbn [Notions.withActivity TDEEInput.activityLevel].
  destruct (calculateBMR p) as [b | | |]; simpl; try discriminate.
  - intros Hb Hr. apply Qle_bool_iff in Hb. unfold inject_Z in Hb.
    split.
    + destruct a1, a2; simpl in Hr; try lia;
        apply (round_mono (b * _) (b * _)); lra.
    + destruct a1; apply (round_mono b (b * _)); lra.
  - intros _ _. destruct a1, a2; split; reflexivity.
Qed.

(** The profile of the test suite, from sedentary to active. *)
Lemma tdee_grows_with_activity_witness :
  le (calculateTDEE
        (Notions.withActivity
           (Notions.profile male (ofZ 80) (ofZ 180) (ofZ 30)) sedentary))
     (calculateTDEE
        (Notions.withActivity
           (Notions.profile male (ofZ 80) (ofZ 180) (ofZ 30)) active)) = true.
Proof.
  apply (tdee_grows_with_activity
           (Notions.profile male (ofZ 80) (ofZ 180) (ofZ 30))
           sedentary active).
  - reflexivity.
  - discriminate.
Defined.

(* ================================================================== *)
(** ** Day counts and the check-in calendar                            *)
(* ================================================================== *)

Lemma round_of_Z_quotient (n d : Z) :
  (0 < d)%Z ->
  Qfloor (inject_Z n / inject_Z d + (1 # 2)) = ((2 * n + d) / (2 * d))%Z.
Proof.
  intros Hd. rewrite Zdiv_Qdiv. apply Qfloor_comp.
  rewrite !inject_Z_plus, !inject_Z_mult.
  assert (N : ~ inject_Z d == 0).
  { intros E. unfold Qeq in E. simpl in E. lia. }
  change (inject_Z 2) with 2. field. exact N.
Qed.

(** The day count of two valid dates, read on their time values. *)
Lemma daysBetween_valid (s e : Z) :
  daysBetween (Some s) (Some e)
  = ofZ ((2 * (e - s) + 86400000) / 172800000).
Proof.
  unfold daysBetween. cbv zeta. unfold getTime. rewrite sub_ofZ.
  change (1000 * 60 * 60 * 24)%Z with 86400000%Z.
  change (div (ofZ (e - s)) (ofZ 86400000))
    with (Fin (inject_Z (e - s) / inject_Z 86400000)).
  unfold Math_round. f_equal.
  now rewrite round_of_Z_quotient.
Qed.

(** An invalid date on either side makes the day count NaN. *)
Lemma daysBetween_invalid (a b : Date) :
  a = None \/ b = None -> daysBetween a b = NaN.
Proof.
  intros [-> | ->]; [destruct b | destruct a]; reflexivity.
Qed.

(** X4.  daysBetween counts whole days and absorbs a time-of-day offset of
    less than half a day: from an instant to the instant k days and delta
    milliseconds later, with -12 h <= delta < 12 h, it returns k. *)
Theorem days_between_absorbs_time_of_day (t k delta : Z) :
  (- 43200000 <= delta < 43200000)%Z ->
  daysBetween (Some t) (Some (t + k * 86400000 + delta)%Z) = ofZ k.
Proof.
  intros H. rewrite daysBetween_valid. f_equal.
  Z.div_mod_to_equations. lia.
Qed.

(** Ten weeks and a summer-time hour. *)
Lemma days_between_absorbs_time_of_day_witness :
  daysBetween (Some 0%Z) (Some (0 + 70 * 86400000 + 3600000)%Z) = ofZ 70.
Proof.
  apply (days_between_absorbs_time_of_day 0 70 3600000).
  split; [discriminate | reflexivity].
Defined.

(** X5.  daysBetween is antisymmetric except at a tie: the counts in the
    two directions add up to 0, unless the two instants are a whole number
    of days and exactly twelve hours apart, where both directions round up
    and the counts add up to 1. *)
Theorem days_between_directions (s e : Z) :
  exists n m : Z,
    daysBetween (Some s) (Some e) = ofZ n
    /\ daysBetween (Some e) (Some s) = ofZ m
    /\ (n + m = if ((e - s) mod 86400000 =? 43200000) then 1 else 0)%Z.
Proof.
  do 2 eexists. split; [apply daysBetween_valid |].
  split; [apply daysBetween_valid |].
  destruct (Z.eqb_spec ((e - s) mod 86400000) 43200000) as [E | E];
    Z.div_mod_to_equations; lia.
Qed.

Lemma div_ofZ_7 (d : Z) : div (ofZ d) (ofZ 7) = Fin (inject_Z d / inject_Z 7).
Proof. reflexivity. Qed.

Lemma required_change_zero_when_due
    (n t : Z) (currentWeightLbs targetWeightLbs : number) :
  (t - n < 43200000)%Z ->
  calculateRequiredWeeklyChange (Some n) currentWeightLbs targetWeightLbs
    (Some t) = ofZ 0.
Proof.
  intros H. unfold calculateRequiredWeeklyChange. cbv zeta.
  rewrite daysBetween_valid, div_ofZ_7.
  assert (D : ((2 * (t - n) + 86400000) / 172800000 <= 0)%Z)
    by (Z.div_mod_to_equations; lia).
  set (d := ((2 * (t - n) + 86400000) / 172800000)%Z) in *.
  assert (L : le (Fin (inject_Z d / inject_Z 7)) (ofZ 0) = true).
  { apply le_Fin_true. rewrite Zle_Qle in D. unfold inject_Z in *.
    apply Qle_shift_div_r; [reflexivity | lra]. }
  now rewrite L.
Qed.

(** X6.  calculateRequiredWeeklyChange returns 0, whatever the two weights
    (NaN included), when the target date is less than twelve hours after
    the instant of the call, in particular when it lies in the past; and it
    returns NaN when the target date or the clock is an invalid date. *)
Theorem required_change_without_future_date
    (now targetDate : Date) (currentWeightLbs targetWeightLbs : number) :
  (forall n t : Z, now = Some n -> targetDate = Some t ->
     (t - n < 43200000)%Z ->
     calculateRequiredWeeklyChange now currentWeightLbs targetWeightLbs
       targetDate = ofZ 0)
  /\ (now = None \/ targetDate = None ->
      calculateRequiredWeeklyChange now currentWeightLbs targetWeightLbs
        targetDate = NaN).
Proof.
  split.
  - intros n t -> -> H. apply required_change_zero_when_due, H.
  - intros H. unfold calculateRequiredWeeklyChange. cbv zeta.
    rewrite (daysBetween_invalid _ _ H).
    change (div NaN (ofZ 7)) with NaN. cbn [le].
    destruct (sub targetWeightLbs currentWeightLbs); reflexivity.
Qed.

(** A target date that passed a week ago. *)
Lemma required_change_without_future_date_witness :
  calculateRequiredWeeklyChange Samples.today (ofZ 200) (ofZ 190)
    (dateOfYMD 2026 1 28) = ofZ 0.
Proof.
  destruct (required_change_without_future_date Samples.today
              (dateOfYMD 2026 1 28) (ofZ 200) (ofZ 190)) as [H _].
  apply (H _ _ eq_refl eq_refl). reflexivity.
Defined.

(** X7.  With finite weights and a target date at least twelve hours ahead,
    calculateRequiredWeeklyChange returns the finite pace that reaches the
    goal on the target date: the pace times the number of weeks
    (daysBetween / 7, at least one day) is targetWeight - currentWeight, and
    the pace is negative, zero or positive as the target weight is below,
    equal to or above the current weight. *)
Theorem required_change_reaches_goal (n t : Z) (c g : Q) :
  (43200000 <= t - n)%Z ->
  exists (d : Z) (r : Q),
    daysBetween (Some n) (Some t) = ofZ d
    /\ (1 <= d)%Z
    /\ calculateRequiredWeeklyChange (Some n) (Fin c) (Fin g) (Some t) = Fin r
    /\ r * (inject_Z d / 7) == g - c
    /\ (r < 0 <-> g < c) /\ (r == 0 <-> g == c) /\ (0 < r <-> c < g).
Proof.
  intros H.
  exists ((2 * (t - n) + 86400000) / 172800000)%Z.
  assert (D : (1 <= (2 * (t - n) + 86400000) / 172800000)%Z)
    by (Z.div_mod_to_equations; lia).
  set (d := ((2 * (t - n) + 86400000) / 172800000)%Z) in *.
  assert (W : 0 < inject_Z d / 7).
  { apply Qlt_shift_div_l; [reflexivity |].
    rewrite Zle_Qle in D. unfold inject_Z in *. lra. }
  exists ((g - c) / (inject_Z d / 7)).
  split; [apply daysBetween_valid |]. split; [exact D |].
  assert (R : (g - c) / (inject_Z d / 7) * (inject_Z d / 7) == g - c)
    by (field; intros E; unfold Qeq in E; simpl in E; lia).
  split.
  - unfold calculateRequiredWeeklyChange. cbv zeta.
    rewrite daysBetween_valid, div_ofZ_7. fold d.
    change (inject_Z 7) with 7.
    assert (L : le (Fin (inject_Z d / 7)) (ofZ 0) = false)
      by (apply le_Fin_false; exact W).
    rewrite L. unfold sub, neg, add, div.
    assert (Z0 : Qeq_bool (inject_Z d / 7) 0 = false).
    { destruct (Qeq_bool (inject_Z d / 7) 0) eqn:E; [| reflexivity].
      apply Qeq_bool_eq in E. rewrite E in W.
      exfalso. revert W. apply Qlt_irrefl. }
    now rewrite Z0.
  - split; [exact R |].
    set (w := inject_Z d / 7) in *. set (r := (g - c) / w) in *.
    clearbody r w. repeat split; intros; nra.
Qed.

(** Ten pounds to lose in ten weeks: one pound a week. *)
Lemma required_change_reaches_goal_witness :
  exists r : Q,
    calculateRequiredWeeklyChange Samples.today (ofZ 200) (ofZ 190)
      Samples.inTenWeeks = Fin r
    /\ r == - 1.
Proof.
  destruct (required_change_reaches_goal 1770163200000 1776211200000 200 190)
    as (d & r & Hd & _ & Hr & Hm & _).
  - discriminate.
  - exists r. split; [exact Hr |].
    assert (E : d = 70%Z).
    { change (daysBetween (Some 1770163200000%Z) (Some 1776211200000%Z))
        with (ofZ 70) in Hd.
      injection Hd as Hd. symmetry. exact Hd. }
    subst d. setoid_replace (inject_Z 70 / 7) with 10 in Hm by reflexivity.
    lra.
Defined.

Lemma max_zero_countdown (x : number) :
  ge x (ofZ 7) = true <-> same (Math_max (ofZ 0) (sub (ofZ 7) x)) (ofZ 0).
Proof.
  destruct x as [q | | |]; simpl; try (split; [discriminate | contradiction]);
    try (split; reflexivity).
  change (ge (Fin q) (ofZ 7) = true
          <-> same (if lt (ofZ 0) (Fin (inject_Z 7 + - q))
                    then Fin (inject_Z 7 + - q) else ofZ 0) (ofZ 0)).
  unfold ge, ofZ. rewrite le_Fin_true.
  destruct (lt (Fin (inject_Z 0)) (Fin (inject_Z 7 + - q))) eqn:E;
    [apply lt_Fin_true in E | apply lt_Fin_false in E];
    unfold same, inject_Z in *; split; intros; lra.
Qed.

(** X10.  The two check-in functions agree: for every last check-in date
    (null and invalid dates included) isCheckInAvailable is true exactly
    when daysUntilCheckIn is 0. *)
Theorem availability_matches_countdown
    (now : Date) (lastCheckInDate : option Date) :
  isCheckInAvailable now lastCheckInDate = true
  <-> same (daysUntilCheckIn now lastCheckInDate) (ofZ 0).
Proof.
  destruct lastCheckInDate as [last |]; simpl.
  - apply max_zero_countdown.
  - split; reflexivity.
Qed.

(** X11.  With valid dates a check-in is available exactly from six days
    and twelve hours (561 600 000 ms) after the last check-in date, not
    from seven full days: the day count is rounded to the nearest day.
    With null it is available; with an invalid last check-in date it is
    not. *)
Theorem availability_threshold (n l : Z) :
  (isCheckInAvailable (Some n) (Some (Some l)) = true
   <-> (561600000 <= n - l)%Z)
  /\ isCheckInAvailable (Some n) None = true
  /\ isCheckInAvailable (Some n) (Some None) = false.
Proof.
  split; [| split; reflexivity].
  unfold isCheckInAvailable. cbv zeta. rewrite daysBetween_valid.
  unfold ge, ofZ. rewrite le_Fin_true, <- Zle_Qle.
  split; intros H; Z.div_mod_to_equations; lia.
Qed.

Lemma max_ofZ (a b : Z) : Math_max (ofZ a) (ofZ b) = ofZ (Z.max a b).
Proof.
  unfold Math_max. change (ofZ a) with (Fin (inject_Z a)) at 1.
  change (ofZ b) with (Fin (inject_Z b)) at 1. cbv iota beta.
  change (lt (Fin (inject_Z a)) (Fin (inject_Z b))) with (lt (ofZ a) (ofZ b)).
  rewrite lt_ofZ. destruct (Z.ltb_spec a b).
  - now rewrite Z.max_r by lia.
  - now rewrite Z.max_l by lia.
Qed.

Lemma daysUntilCheckIn_valid (n l : Z) :
  daysUntilCheckIn (Some n) (Some (Some l))
  = ofZ (Z.max 0 (7 - (2 * (n - l) + 86400000) / 172800000)).
Proof.
  unfold daysUntilCheckIn. cbv zeta.
  now rewrite daysBetween_valid, sub_ofZ, max_ofZ.
Qed.

(** X12.  With valid dates daysUntilCheckIn is a whole number that is never
    negative; it is at most 7 unless the last check-in date lies more than
    twelve hours in the future; and a day later it is one less, stopping
    at 0. *)
Theorem countdown_counts_down (n l : Z) :
  exists k k' : Z,
    daysUntilCheckIn (Some n) (Some (Some l)) = ofZ k
    /\ daysUntilCheckIn (Some (n + 86400000)%Z) (Some (Some l)) = ofZ k'
    /\ (0 <= k)%Z
    /\ (l - n <= 43200000 -> k <= 7)%Z
    /\ k' = Z.max 0 (k - 1).
Proof.
  do 2 eexists. split; [apply daysUntilCheckIn_valid |].
  split; [apply daysUntilCheckIn_valid |].
  split; [lia |]. split.
  - intros H. Z.div_mod_to_equations. lia.
  - Z.div_mod_to_equations. lia.
Qed.

(* ================================================================== *)
(** ** The energy balance                                              *)
(* ================================================================== *)

Lemma trueTDEE_finite (a w d : Q) :
  ~ d == 0 ->
  calculateTrueTDEE (Fin a) (Fin w) (Fin d)
  = ofZ (Qfloor (a - w * 3500 / d + (1 # 2))).
Proof.
  intros H. unfold calculateTrueTDEE. cbv zeta. unfold mul, div, ofZ.
  assert (E : Qeq_bool d 0 = false).
  { destruct (Qeq_bool d 0) eqn:E; [| reflexivity].
    apply Qeq_bool_eq in E. contradiction. }
  rewrite E. reflexivity.
Qed.

(** X8.  At the same average intake over the same positive number of days,
    a larger weight change never gives a larger calculateTrueTDEE; with no
    weight change the estimate is the rounded intake; and with zero days
    tracked the result is not a finite number. *)
Theorem true_tdee_falls_with_weight_change (a w1 w2 d : Q) :
  0 < d -> w1 <= w2 ->
  le (calculateTrueTDEE (Fin a) (Fin w2) (Fin d))
     (calculateTrueTDEE (Fin a) (Fin w1) (Fin d)) = true
  /\ calculateTrueTDEE (Fin a) (Fin 0) (Fin d) = Math_round (Fin a)
  /\ isFinite (calculateTrueTDEE (Fin a) (Fin w1) (Fin 0)) = false.
Proof.
  intros Hd Hw.
  assert (N : ~ d == 0) by (intros E; rewrite E in Hd; revert Hd; apply Qlt_irrefl).
  split; [| split].
  - rewrite !trueTDEE_finite by exact N. unfold ofZ. apply le_Fin_true.
    rewrite <- Zle_Qle. apply Qfloor_resp_le.
    assert (M : w1 * 3500 / d <= w2 * 3500 / d).
    { unfold Qdiv. apply Qmult_le_compat_r; [lra |].
      apply Qlt_le_weak, Qinv_lt_0_compat, Hd. }
    lra.
  - rewrite trueTDEE_finite by exact N. unfold Math_round. f_equal.
    apply Qfloor_comp. field. exact N.
  - unfold calculateTrueTDEE. cbv zeta.
    apply round_not_finite.
    assert (X : isFinite (div (mul (Fin w1) (ofZ CALORIES_PER_POUND)) (Fin 0))
                = false) by (apply div_by_zero_not_finite; reflexivity).
    destruct (div (mul (Fin w1) (ofZ CALORIES_PER_POUND)) (Fin 0));
      try discriminate; reflexivity.
Qed.

(** The two examples of the test suite: 2000 kcal with one pound lost and
    3000 kcal with one pound gained both give 2500. *)
Lemma true_tdee_falls_with_weight_change_witness :
  le (calculateTrueTDEE (Fin 2000) (Fin 1) (Fin 7))
     (calculateTrueTDEE (Fin 2000) (Fin (- 1)) (Fin 7)) = true.
Proof.
  apply (true_tdee_falls_with_weight_change 2000 (- 1) 1 7).
  - reflexivity.
  - discriminate.
Defined.

(** X9.  The energy-balance identity closes the loop: when the TDEE is a
    whole number, the weekly change is finite and the floor does not
    apply, a user who eats exactly the daily target and changes weight at
    exactly the planned weekly rate gets back the TDEE from
    calculateTrueTDEE, or the TDEE plus 1 when the target was rounded up
    from a tie. *)
Theorem energy_balance_round_trip
    (now : Date) (input : GoalCalculationInput.t) (z : Z) (w : Q) :
  let r := calculateDailyCalorieTarget now input in
  GoalCalculationInput.tdee input = ofZ z ->
  CalorieTarget.weeklyChange r = Fin w ->
  lt (Math_round (add (ofZ z) (CalorieTarget.dailyDeficitSurplus r)))
     (if Gender_eqb (GoalCalculationInput.gender input) male
      then ofZ MIN_CALORIES_MALE else ofZ MIN_CALORIES_FEMALE) = false ->
  exists z' : Z,
    calculateTrueTDEE (CalorieTarget.dailyCalories r)
      (CalorieTarget.weeklyChange r) (ofZ 7) = ofZ z'
    /\ (z' = z \/ z' = (z + 1)%Z).
Proof.
  cbv zeta. unfold calculateDailyCalorieTarget. cbv zeta.
  cbn [CalorieTarget.weeklyChange CalorieTarget.dailyCalories
       CalorieTarget.dailyDeficitSurplus].
  intros Ht Hw. rewrite Ht, Hw. intros Hc. rewrite Hc.
  change (Math_round (add (ofZ z)
            (div (mul (Fin w) (ofZ CALORIES_PER_POUND)) (ofZ 7))))
    with (ofZ (Qfloor (inject_Z z + w * 3500 / 7 + (1 # 2)))).
  set (m := Qfloor (inject_Z z + w * 3500 / 7 + (1 # 2))).
  change (ofZ 7) with (Fin 7). unfold ofZ at 1.
  rewrite trueTDEE_finite by discriminate.
  eexists. split; [reflexivity |].
  destruct (round_half_up_bounds (inject_Z z + w * 3500 / 7)) as [B1 B2].
  fold m in B1, B2.
  set (x := w * 3500 / 7) in *.
  pose proof (Qfloor_le (inject_Z m - x + (1 # 2))) as F1.
  pose proof (Qlt_floor (inject_Z m - x + (1 # 2))) as F2.
  set (k := Qfloor (inject_Z m - x + (1 # 2))) in *.
  assert (U : inject_Z k <= inject_Z (z + 1))
    by (rewrite inject_Z_plus; change (inject_Z 1) with 1; lra).
  assert (L : inject_Z z < inject_Z (k + 1)) by lra.
  rewrite <- Zle_Qle in U. rewrite <- Zlt_Qlt in L. lia.
Qed.

(** The steady loss of the samples: a TDEE of 2500 comes back as 2500. *)
Lemma energy_balance_round_trip_witness :
  exists z' : Z,
    calculateTrueTDEE
      (CalorieTarget.dailyCalories
         (calculateDailyCalorieTarget Samples.today Samples.steadyLoss))
      (CalorieTarget.weeklyChange
         (calculateDailyCalorieTarget Samples.today Samples.steadyLoss))
      (ofZ 7) = ofZ z'
    /\ (z' = 2500%Z \/ z' = (2500 + 1)%Z).
Proof.
  apply (energy_balance_round_trip Samples.today Samples.steadyLoss 2500
           (- 70 # 70)); reflexivity.
Defined.

(* ================================================================== *)
(** ** Goal safety: flags and message                                  *)
(* ================================================================== *)

Lemma includes_app_r (s1 s2 t : string) :
  includes s2 t = true -> includes (s1 ++ s2) t = true.
Proof.
  intros H. induction s1 as [| ch s1 IH]; [exact H |].
  change (includes (String ch s1 ++ s2) t)
    with (if String.prefix t (String ch (s1 ++ s2)) then true
          else includes (s1 ++ s2) t).
  rewrite IH. now destruct (String.prefix t (String ch (s1 ++ s2))).
Qed.

(** X13.  For every number, NaN and the infinities included,
    validateGoalSafety never reports a goal as safe but unrealistic; the
    result is safe exactly when the message is the fixed text "Your goal is
    realistic and safe."; an unrealistic loss carries a message containing
    "dangerous" and an unrealistic gain one containing "excessive fat
    gain"; NaN is reported safe and realistic, both infinities unsafe and
    unrealistic. *)
Theorem goal_safety_flags_and_message (x : number) :
  let r := validateGoalSafety x in
  (GoalSafety.isSafe r = true -> GoalSafety.isRealistic r = true)
  /\ (GoalSafety.isSafe r = true
      <-> GoalSafety.message r = "Your goal is realistic and safe.")
  /\ (GoalSafety.isRealistic r = false -> lt x (ofZ 0) = true ->
      includes (GoalSafety.message r) "dangerous" = true)
  /\ (GoalSafety.isRealistic r = false -> gt x (ofZ 0) = true ->
      includes (GoalSafety.message r) "excessive fat gain" = true)
  /\ (x = NaN -> GoalSafety.isSafe r = true)
  /\ (x = PosInf \/ x = NegInf ->
      GoalSafety.isSafe r = false /\ GoalSafety.isRealistic r = false).
Proof.
  cbv zeta. split; [| split; [| split; [| split; [| split]]]].
  - unfold validateGoalSafety. cbv zeta.
    repeat match goal with
      | |- context [if ?b then _ else _] => destruct b
      end; simpl; congruence.
  - unfold validateGoalSafety. cbv zeta.
    repeat match goal with
      | |- context [if ?b then _ else _] => destruct b
      end; simpl; split; intros H; try reflexivity; discriminate H.
  - unfold validateGoalSafety. cbv zeta. intros H L. revert H. rewrite L.
    destruct (gt (Math_abs x) (mul (ofZ MAX_WEEKLY_LOSS_LBS) (Fin 1.5))).
    + intros _. cbn [GoalSafety.message].
      apply (includes_app_r "Losing "), includes_app_r. reflexivity.
    + destruct (gt (Math_abs x) (ofZ MAX_WEEKLY_LOSS_LBS)); discriminate.
  - unfold validateGoalSafety. cbv zeta. intros H G. revert H.
    assert (L : lt x (ofZ 0) = false).
    { destruct x as [q | | |]; simpl in *; try congruence.
      change (lt (Fin (inject_Z 0)) (Fin q) = true) in G.
      change (lt (Fin q) (Fin (inject_Z 0)) = false). fin_order. lra. }
    rewrite L, G.
    destruct (gt (Math_abs x) (mul (ofZ MAX_WEEKLY_GAIN_LBS) (Fin 1.5))).
    + intros _. cbn [GoalSafety.message].
      apply (includes_app_r "Gaining "), includes_app_r. reflexivity.
    + destruct (gt (Math_abs x) (ofZ MAX_WEEKLY_GAIN_LBS)); discriminate.
  - intros ->. reflexivity.
  - intros [-> | ->]; split; reflexivity.
Qed.

(** A loss of four pounds a week. *)
Lemma goal_safety_flags_and_message_witness :
  includes (GoalSafety.message (validateGoalSafety (Fin (- 4)))) "dangerous"
  = true.
Proof.
  destruct (goal_safety_flags_and_message (Fin (- 4))) as (_ & _ & H & _).
  apply H; reflexivity.
Defined.

(* ================================================================== *)
(** ** Macro grams under normalisation                                 *)
(* ================================================================== *)

Lemma macro_grams_finite (d p c f : Q) :
  ~ p + c + f == 0 ->
  calculateMacroGrams (Fin d) (Fin p) (Fin c) (Fin f)
  = {| MacroGrams.proteinGrams :=
         ofZ (Qfloor (d * (p / (p + c + f)) / 4 + (1 # 2)));
       MacroGrams.carbsGrams :=
         ofZ (Qfloor (d * (c / (p + c + f)) / 4 + (1 # 2)));
       MacroGrams.fatGrams :=
         ofZ (Qfloor (d * (f / (p + c + f)) / 9 + (1 # 2))) |}.
Proof.
  intros H.
  assert (E : Qeq_bool (p + c + f) 0 = false).
  { destruct (Qeq_bool (p + c + f) 0) eqn:E; [| reflexivity].
    apply Qeq_bool_eq in E. contradiction. }
  unfold calculateMacroGrams. cbv zeta. unfold div, mul, add.
  rewrite E. reflexivity.
Qed.

(** Rounding three amounts whose energy is [d] moves the energy by at most
    2 + 2 + 4.5 kcal. *)
Lemma rounded_energy_bound (x y z d : Q) :
  4 * x + 4 * y + 9 * z == d ->
  Qabs (inject_Z (Qfloor (x + (1 # 2))) * 4
        + inject_Z (Qfloor (y + (1 # 2))) * 4
        + inject_Z (Qfloor (z + (1 # 2))) * 9 - d) <= 17 # 2.
Proof.
  intros H.
  destruct (round_half_up_bounds x) as [X1 X2].
  destruct (round_half_up_bounds y) as [Y1 Y2].
  destruct (round_half_up_bounds z) as [Z1 Z2].
  apply Qabs_Qle_condition. split; lra.
Qed.

Lemma normalised_energy_bound (d p c f : Q) :
  ~ p + c + f == 0 ->
  Properties.recombinesWithin (17 # 2) d
    (calculateMacroGrams (Fin d) (Fin p) (Fin c) (Fin f)).
Proof.
  intros H. rewrite (macro_grams_finite d p c f H).
  unfold Properties.recombinesWithin, Properties.kcalOfGrams, ofZ.
  cbn [MacroGrams.proteinGrams MacroGrams.carbsGrams MacroGrams.fatGrams].
  apply rounded_energy_bound. field. exact H.
Qed.

Lemma round_half_up_nonneg (x : Q) : 0 <= x -> (0 <= Qfloor (x + (1 # 2)))%Z.
Proof.
  intros H. change 0%Z with (Qfloor 0). apply Qfloor_resp_le. lra.
Qed.

Lemma share_nonneg (d r s k : Q) :
  0 <= d -> 0 <= r -> 0 < s -> 0 < k -> 0 <= d * (r / s) / k.
Proof.
  intros Hd Hr Hs Hk. unfold Qdiv.
  apply Qmult_le_0_compat; [apply Qmult_le_0_compat; [exact Hd |] |].
  - apply Qmult_le_0_compat; [exact Hr |].
    apply Qlt_le_weak, Qinv_lt_0_compat, Hs.
  - apply Qlt_le_weak, Qinv_lt_0_compat, Hk.
Qed.

(** X15.  Whatever finite ratios are passed, as long as their sum is not
    zero, the three gram amounts are whole numbers whose energy (4, 4 and
    9 kcal per gram) is within 8.5 kcal of dailyCalories: the normalisation
    makes a sum different from 1 harmless.  When dailyCalories and the
    ratios are not negative, no gram amount is negative. *)
Theorem macro_grams_energy_after_normalisation (d p c f : Q) :
  ~ p + c + f == 0 ->
  let g := calculateMacroGrams (Fin d) (Fin p) (Fin c) (Fin f) in
  Properties.recombinesWithin (17 # 2) d g
  /\ exists gp gc gf : Z,
       g = {| MacroGrams.proteinGrams := ofZ gp;
              MacroGrams.carbsGrams := ofZ gc;
              MacroGrams.fatGrams := ofZ gf |}
       /\ (0 <= d -> 0 <= p -> 0 <= c -> 0 <= f ->
           (0 <= gp /\ 0 <= gc /\ 0 <= gf)%Z).
Proof.
  intros H. cbv zeta. split; [apply normalised_energy_bound, H |].
  rewrite (macro_grams_finite d p c f H).
  eexists _, _, _. split; [reflexivity |].
  intros Hd Hp Hc Hf.
  assert (Hs : 0 < p + c + f).
  { destruct (Qlt_le_dec 0 (p + c + f)) as [L | L]; [exact L |].
    exfalso. apply H. lra. }
  repeat split; apply round_half_up_nonneg, share_nonneg;
    first [assumption | reflexivity].
Qed.

(** Slider values 40 / 40 / 40 percent, a sum of 1.2. *)
Lemma macro_grams_energy_after_normalisation_witness :
  Properties.recombinesWithin (17 # 2) 2000
    (calculateMacroGrams (Fin 2000) (Fin 0.4) (Fin 0.4) (Fin 0.4)).
Proof.
  apply (macro_grams_energy_after_normalisation 2000 0.4 0.4 0.4).
  discriminate.
Defined.

Lemma presets_usable (preference : MacroPreference) :
  Notions.usableRatios (MACRO_PRESETS preference).
Proof. destruct preference; simpl; discriminate. Qed.

(** X16.  getMacroTargets hands the calories through unchanged, and for
    finite calories its grams are within 8.5 kcal of them for each of the
    five preferences, with the custom ratios omitted or given as finite
    numbers with a non-zero sum; custom ratios change the result only
    under the preference manual. *)
Theorem macro_targets_energy
    (d : Q) (preference : MacroPreference) (customRatios : option Ratios) :
  match customRatios with
  | Some custom => Notions.usableRatios custom
  | None => True
  end ->
  let t := getMacroTargets (Fin d) preference customRatios in
  MacroTargets.dailyCalories t = Fin d
  /\ Properties.recombinesWithin (17 # 2) d (Notions.gramsOfTargets t)
  /\ (preference <> manual ->
      t = getMacroTargets (Fin d) preference None).
Proof.
  intros H. cbv zeta. split; [reflexivity |]. split.
  - unfold getMacroTargets, Notions.gramsOfTargets. cbv zeta.
    cbn [MacroTargets.proteinGrams MacroTargets.carbsGrams
         MacroTargets.fatGrams].
    set (ratios := match MacroPreference_eqb preference manual, customRatios
                   with
                   | true, Some custom => custom
                   | _, _ => MACRO_PRESETS preference
                   end).
    assert (U : Notions.usableRatios ratios).
    { subst ratios. destruct (MacroPreference_eqb preference manual),
        customRatios; auto using presets_usable. }
    clearbody ratios. destruct ratios as [rp rc rf].
    unfold Notions.usableRatios in U. cbn [protein carbs fat] in *.
    destruct rp as [p | | |], rc as [c | | |], rf as [f | | |];
      try contradiction.
    pose proof (normalised_energy_bound d p c f U) as B.
    destruct (calculateMacroGrams (Fin d) (Fin p) (Fin c) (Fin f)).
    exact B.
  - intros N. unfold getMacroTargets.
    destruct preference; try reflexivity. contradiction.
Qed.

(** The keto preset, and slider ratios under the preference manual. *)
Lemma macro_targets_energy_witness :
  Properties.recombinesWithin (17 # 2) 1800
    (Notions.gramsOfTargets (getMacroTargets (Fin 1800) keto None))
  /\ Properties.recombinesWithin (17 # 2) 1800
       (Notions.gramsOfTargets
          (getMacroTargets (Fin 1800) manual
             (Some {| protein := Fin 0.6; carbs := Fin 0.6;
                      fat := Fin 0.7 |}))).
Proof.
  split.
  - apply (macro_targets_energy 1800 keto None). exact I.
  - apply (macro_targets_energy 1800 manual
             (Some {| protein := Fin 0.6; carbs := Fin 0.6; fat := Fin 0.7 |})).
    simpl. discriminate.
Defined.

(* ================================================================== *)
(** ** Weekly check-in: reason, macros and repeated check-ins          *)
(* ================================================================== *)

Section CheckInReason.

Variable now : Date.
Variable input : WeeklyCheckInInput.t.

Let target := WeeklyCheckInInput.currentDailyTarget input.
Let actual :=
  sub (WeeklyCheckInInput.currentWeight input)
      (WeeklyCheckInInput.previousWeight input).
Let expected :=
  calculateRequiredWeeklyChange now
    (WeeklyCheckInInput.previousWeight input)
    (WeeklyCheckInInput.targetWeightLbs input)
    (WeeklyCheckInInput.targetDate input).

(** The new target and the reason that the nested conditionals assign
    together. *)
Lemma checkin_new_and_reason :
  let r := performWeeklyCheckIn now input in
  (WeeklyCheckInResult.newDailyCalories r,
   WeeklyCheckInResult.adjustmentReason r)
  = if lt expected (ofZ 0) then
      if gt actual (add expected (Fin 0.2)) then
        (sub target (ofZ 100),
         "Lost less than expected. Reducing daily calories by 100.")
      else if lt actual (sub expected (Fin 0.2)) then
        (add target (ofZ 100),
         "Lost more than expected. Increasing daily calories by 100 to prevent too rapid loss.")
      else (target, "On track! No adjustment needed.")
    else if gt expected (ofZ 0) then
      if lt actual (sub expected (Fin 0.2)) then
        (add target (ofZ 100),
         "Gained less than expected. Increasing daily calories by 100.")
      else if gt actual (add expected (Fin 0.2)) then
        (sub target (ofZ 100),
         "Gained more than expected. Reducing daily calories by 100.")
      else (target, "On track! No adjustment needed.")
    else
      if gt (Math_abs actual) (Fin 0.2) then
        if gt actual (ofZ 0) then
          (sub target (ofZ 50),
           "Weight increased slightly. Reducing calories by 50.")
        else
          (add target (ofZ 50),
           "Weight decreased slightly. Increasing calories by 50.")
      else (target, "Maintaining weight. No adjustment needed.").
Proof.
  unfold performWeeklyCheckIn. cbv zeta. fold actual expected target.
  destruct (lt expected (ofZ 0)), (gt expected (ofZ 0)),
    (gt actual (add expected (Fin 0.2))),
    (lt actual (sub expected (Fin 0.2))),
    (gt (Math_abs actual) (Fin 0.2)), (gt actual (ofZ 0)); reflexivity.
Qed.

End CheckInReason.

Lemma lowered_target (q : Q) (z : Z) :
  (0 < z)%Z ->
  lt (sub (Fin q) (ofZ z)) (Fin q) = true
  /\ gt (sub (Fin q) (ofZ z)) (Fin q) = false
  /\ ~ same (sub (Fin q) (ofZ z)) (Fin q).
Proof.
  intros H. rewrite Zlt_Qlt in H. unfold sub, neg, add, ofZ, gt, same.
  repeat split; [apply lt_Fin_true | apply lt_Fin_false | intros E];
    change (inject_Z 0) with 0 in H; lra.
Qed.

Lemma raised_target (q : Q) (z : Z) :
  (0 < z)%Z ->
  lt (add (Fin q) (ofZ z)) (Fin q) = false
  /\ gt (add (Fin q) (ofZ z)) (Fin q) = true
  /\ ~ same (add (Fin q) (ofZ z)) (Fin q).
Proof.
  intros H. rewrite Zlt_Qlt in H. unfold add, ofZ, gt, same.
  repeat split; [apply lt_Fin_false | apply lt_Fin_true | intros E];
    change (inject_Z 0) with 0 in H; lra.
Qed.

Lemma kept_target (q : Q) :
  lt (Fin q) (Fin q) = false /\ gt (Fin q) (Fin q) = false
  /\ same (Fin q) (Fin q).
Proof.
  unfold gt, same. repeat split; try apply lt_Fin_false; lra.
Qed.

(** X17.  The reason always tells what was done to a finite target: it
    contains "No adjustment needed" exactly when the new target equals the
    current one, "Reducing" exactly when it is lower and "Increasing"
    exactly when it is higher; it is never the empty text. *)
Theorem checkin_reason_matches_adjustment
    (now : Date) (input : WeeklyCheckInInput.t) :
  isFinite (WeeklyCheckInInput.currentDailyTarget input) = true ->
  let r := performWeeklyCheckIn now input in
  let target := WeeklyCheckInInput.currentDailyTarget input in
  let new := WeeklyCheckInResult.newDailyCalories r in
  let reason := WeeklyCheckInResult.adjustmentReason r in
  (includes reason "No adjustment needed" = true <-> same new target)
  /\ (includes reason "Reducing" = true <-> lt new target = true)
  /\ (includes reason "Increasing" = true <-> gt new target = true)
  /\ reason <> "".
Proof.
  intros F. cbv zeta.
  pose proof (checkin_new_and_reason now input) as E. cbv zeta in E.
  destruct (WeeklyCheckInInput.currentDailyTarget input) as [q | | |];
    try discriminate.
  destruct (lowered_target q 100 eq_refl) as (A1 & A2 & A3).
  destruct (lowered_target q 50 eq_refl) as (B1 & B2 & B3).
  destruct (raised_target q 100 eq_refl) as (C1 & C2 & C3).
  destruct (raised_target q 50 eq_refl) as (D1 & D2 & D3).
  destruct (kept_target q) as (K1 & K2 & K3).
  repeat match type of E with
    | context [if ?b then _ else _] => destruct b
    end;
    injection E as -> ->;
    (split; [| split; [| split]]);
    try discriminate;
    split; intros H; try reflexivity; try discriminate H;
    first
      [ exact A1 | exact B1 | exact C2 | exact D2 | exact K3
      | exfalso;
        first
          [ discriminate (eq_trans (eq_sym H) A2)
          | discriminate (eq_trans (eq_sym H) B2)
          | discriminate (eq_trans (eq_sym H) C1)
          | discriminate (eq_trans (eq_sym H) D1)
          | discriminate (eq_trans (eq_sym H) K1)
          | discriminate (eq_trans (eq_sym H) K2)
          | exact (A3 H) | exact (B3 H) | exact (C3 H) | exact (D3 H) ] ].
Qed.

(** The check-in of the test suite that loses too slowly. *)
Lemma checkin_reason_matches_adjustment_witness :
  includes
    (WeeklyCheckInResult.adjustmentReason
       (performWeeklyCheckIn Samples.today Samples.losingTooSlow))
    "Reducing" = true.
Proof.
  destruct (checkin_reason_matches_adjustment Samples.today
              Samples.losingTooSlow eq_refl) as (_ & H & _).
  apply H. reflexivity.
Defined.

Lemma checkin_one_step (now : Date) (input : WeeklyCheckInInput.t) (q : Q) :
  same (WeeklyCheckInInput.currentDailyTarget input) (Fin q) ->
  exists q' : Q,
    WeeklyCheckInResult.newDailyCalories (performWeeklyCheckIn now input)
    = Fin q'
    /\ Qabs (q' - q) <= 100.
Proof.
  intros H. rewrite checkin_new.
  destruct (WeeklyCheckInInput.currentDailyTarget input) as [c | | |];
    simpl in H; try contradiction.
  repeat match goal with
    | |- context [if ?b then _ else _] => destruct b
    end;
    eexists; (split; [reflexivity |]);
    apply Qabs_Qle_condition; unfold inject_Z; split; lra.
Qed.

(** X18.  Check-ins move the daily target by at most 100 kcal each: after
    any run of n check-ins, each starting from the target the one before
    returned, a finite starting target has become a finite target that is
    at most 100 * n kcal away from it. *)
Theorem chained_checkins_bounded
    (steps : list (Date * WeeklyCheckInInput.t)) (q : Q) (final : number) :
  Notions.chained (Fin q) steps final ->
  exists q' : Q,
    final = Fin q'
    /\ Qabs (q' - q) <= 100 * inject_Z (Z.of_nat (length steps)).
Proof.
  revert q. induction steps as [| [now input] rest IH]; intros q H.
  - simpl in H. destruct final as [f | | |]; try contradiction.
    exists f. split; [reflexivity |].
    change (same (Fin f) (Fin q)) with (f == q) in H.
    change (Qabs (f - q) <= 100 * 0).
    apply Qabs_Qle_condition. split; lra.
  - destruct H as [H1 H2].
    destruct (checkin_one_step now input q H1) as (q1 & E1 & B1).
    rewrite E1 in H2. destruct (IH q1 H2) as (q' & E' & B').
    exists q'. split; [exact E' |].
    change (length ((now, input) :: rest)) with (S (length rest)).
    rewrite Nat2Z.inj_succ. unfold Z.succ. rewrite inject_Z_plus.
    change (inject_Z 1) with 1.
    apply Qabs_Qle_condition in B1. apply Qabs_Qle_condition in B'.
    apply Qabs_Qle_condition. split; lra.
Qed.

(** Two check-ins in a row that both find the loss too slow. *)
Lemma chained_checkins_bounded_witness :
  exists q' : Q,
    ofZ 1800 = Fin q'
    /\ Qabs (q' - 2000) <= 100 * inject_Z (Z.of_nat 2).
Proof.
  apply (chained_checkins_bounded
           [ (Samples.today, Samples.losingTooSlow);
             (Samples.today,
              Samples.checkIn (ofZ 200) (ofZ 200) (ofZ 1900) (ofZ 190)
                Samples.inTenWeeks) ]
           2000 (ofZ 1800)).
  simpl. repeat split.
Defined.

(** X19.  Once the target date is less than twelve hours away or has
    passed, the check-in treats every goal as maintenance, whatever the
    goal weight: the expected change is 0, a gain of more than 0.2 lbs
    lowers the target by 50, a loss of more than 0.2 lbs raises it by 50,
    and anything else keeps it. *)
Theorem checkin_after_target_date
    (n t : Z) (input : WeeklyCheckInInput.t) :
  WeeklyCheckInInput.targetDate input = Some t ->
  (t - n < 43200000)%Z ->
  let r := performWeeklyCheckIn (Some n) input in
  let target := WeeklyCheckInInput.currentDailyTarget input in
  let actual := WeeklyCheckInResult.actualWeeklyChange r in
  let outcome :=
    (WeeklyCheckInResult.newDailyCalories r,
     WeeklyCheckInResult.adjustmentReason r) in
  WeeklyCheckInResult.expectedWeeklyChange r = ofZ 0
  /\ (gt actual (Fin 0.2) = true ->
      outcome = (sub target (ofZ 50),
                 "Weight increased slightly. Reducing calories by 50."))
  /\ (lt actual (Fin (- 0.2)) = true ->
      outcome = (add target (ofZ 50),
                 "Weight decreased slightly. Increasing calories by 50."))
  /\ (gt actual (Fin 0.2) = false -> lt actual (Fin (- 0.2)) = false ->
      outcome = (target, "Maintaining weight. No adjustment needed.")).
Proof.
  intros Ht Hd. cbv zeta.
  rewrite checkin_new_and_reason, checkin_expected, checkin_actual.
  rewrite Ht, (required_change_zero_when_due n t _ _ Hd).
  change (lt (ofZ 0) (ofZ 0)) with false.
  change (gt (ofZ 0) (ofZ 0)) with false. cbv iota.
  set (a := sub (WeeklyCheckInInput.currentWeight input) _).
  split; [reflexivity |]. split; [| split].
  - intros H. destruct (maintain_gain_branch _ H) as [E1 E2].
    now rewrite E1, E2.
  - intros H. destruct (maintain_loss_branch _ H) as [E1 E2].
    now rewrite E1, E2.
  - intros H1 H2. now rewrite (maintain_within_band _ H1 H2).
Qed.

(** A gaining goal whose date passed a week ago, with a pound gained. *)
Lemma checkin_after_target_date_witness :
  WeeklyCheckInResult.newDailyCalories
    (performWeeklyCheckIn Samples.today
       (Samples.checkIn (ofZ 150) (ofZ 151) (ofZ 2500) (ofZ 160)
          (dateOfYMD 2026 1 28)))
  = sub (ofZ 2500) (ofZ 50).
Proof.
  destruct (checkin_after_target_date 1770163200000 1769558400000
              (Samples.checkIn (ofZ 150) (ofZ 151) (ofZ 2500) (ofZ 160)
                 (dateOfYMD 2026 1 28)) eq_refl eq_refl)
    as (_ & H & _).
  exact (f_equal fst (H eq_refl)).
Defined.

(** X20.  The macro grams of a check-in belong to the new target, not to
    the old one: with a finite current target and finite ratios whose sum
    is not zero, the new target is finite and the energy of the returned
    grams is within 8.5 kcal of it. *)
Theorem checkin_macros_follow_new_target
    (now : Date) (input : WeeklyCheckInInput.t) :
  isFinite (WeeklyCheckInInput.currentDailyTarget input) = true ->
  Notions.usableRatios (Notions.ratiosOfCheckIn input) ->
  let r := performWeeklyCheckIn now input in
  exists q' : Q,
    WeeklyCheckInResult.newDailyCalories r = Fin q'
    /\ Properties.recombinesWithin (17 # 2) q' (Notions.gramsOfCheckIn r).
Proof.
  intros F U. cbv zeta.
  destruct (WeeklyCheckInInput.currentDailyTarget input) as [q | | |] eqn:T;
    try discriminate.
  destruct (checkin_one_step now input q) as (q' & E & _);
    [rewrite T; apply same_refl |].
  exists q'. split; [exact E |].
  unfold Notions.gramsOfCheckIn.
  destruct (checkin_macros now input) as (-> & -> & ->). rewrite E.
  unfold Notions.usableRatios, Notions.ratiosOfCheckIn in U.
  cbn [protein carbs fat] in U.
  destruct (WeeklyCheckInInput.proteinRatio input) as [p | | |],
    (WeeklyCheckInInput.carbsRatio input) as [c | | |],
    (WeeklyCheckInInput.fatRatio input) as [f | | |]; try contradiction.
  pose proof (normalised_energy_bound q' p c f U) as B.
  destruct (calculateMacroGrams (Fin q') (Fin p) (Fin c) (Fin f)). exact B.
Qed.

(** The check-in of the test suite with the high-protein ratios. *)
Lemma checkin_macros_follow_new_target_witness :
  exists q' : Q,
    WeeklyCheckInResult.newDailyCalories
      (performWeeklyCheckIn Samples.today Samples.losingTooSlow) = Fin q'
    /\ Properties.recombinesWithin (17 # 2) q'
         (Notions.gramsOfCheckIn
            (performWeeklyCheckIn Samples.today Samples.losingTooSlow)).
Proof.
  apply (checkin_macros_follow_new_target Samples.today Samples.losingTooSlow).
  - reflexivity.
  - simpl. discriminate.
Defined.

(* ================================================================== *)
(** ** The onboarding wizard                                           *)
(* ================================================================== *)

Lemma safe_implies_realistic (x : number) :
  GoalSafety.isSafe (validateGoalSafety x) = true ->
  GoalSafety.isRealistic (validateGoalSafety x) = true.
Proof.
  unfold validateGoalSafety. cbv zeta.
  repeat match goal with
    | |- context [if ?b then _ else _] => destruct b
    end; simpl; congruence.
Qed.

(** X21.  validateTimeline leaves the step and the form alone.  Whenever it
    returns false (the goal is unrealistic) it has set a warning.  When the
    target date is less than twelve hours ahead, in the past, or not a
    valid date, it returns true and clears the warning, whatever the two
    weights are. *)
Theorem timeline_check (now : Date) (st : Onboarding.State) :
  let st' := fst (Onboarding.validateTimeline now st) in
  let ok := snd (Onboarding.validateTimeline now st) in
  Onboarding.step st' = Onboarding.step st
  /\ Onboarding.formData st' = Onboarding.formData st
  /\ (ok = false -> exists m : string, Onboarding.warning st' = Some m)
  /\ (forall n t : Z,
        now = Some n ->
        Onboarding.targetDate (Onboarding.formData st) = Some t ->
        (t - n < 43200000)%Z ->
        ok = true /\ Onboarding.warning st' = None)
  /\ (Onboarding.targetDate (Onboarding.formData st) = None ->
      ok = true /\ Onboarding.warning st' = None).
Proof.
  cbv zeta. unfold Onboarding.validateTimeline. cbv zeta.
  cbn [fst snd].
  set (w := calculateRequiredWeeklyChange _ _ _ _).
  split; [| split; [| split; [| split]]].
  - destruct (GoalSafety.isSafe (validateGoalSafety w)); reflexivity.
  - destruct (GoalSafety.isSafe (validateGoalSafety w)); reflexivity.
  - intros H. pose proof (safe_implies_realistic w) as S.
    destruct (GoalSafety.isSafe (validateGoalSafety w)).
    + rewrite S in H by reflexivity. discriminate.
    + eexists. reflexivity.
  - intros n t -> Ht Hd. subst w.
    rewrite Ht, (required_change_zero_when_due n t _ _ Hd).
    split; reflexivity.
  - intros Ht. subst w. rewrite Ht.
    unfold calculateRequiredWeeklyChange. cbv zeta.
    rewrite (daysBetween_invalid now None) by (right; reflexivity).
    change (div NaN (ofZ 7)) with NaN. cbn [le].
    destruct (sub _ _); split; reflexivity.
Qed.

(** A form whose target date passed a week ago and asks for 100 lbs. *)
Lemma timeline_check_witness :
  snd (Onboarding.validateTimeline Samples.today
         (Onboarding.updateFormData
            (fun _ =>
               {| Onboarding.gender := male;
                  Onboarding.heightFeet := ofZ 5;
                  Onboarding.heightInches := ofZ 10;
                  Onboarding.currentWeight := ofZ 280;
                  Onboarding.dateOfBirth := dateOfYMD 1990 1 1;
                  Onboarding.activityLevel := moderate;
                  Onboarding.goalType := Onboarding.lose;
                  Onboarding.targetWeight := ofZ 180;
                  Onboarding.targetDate := dateOfYMD 2026 1 28;
                  Onboarding.macroPreference := balanced;
                  Onboarding.proteinRatio := Fin 0.30;
                  Onboarding.carbsRatio := Fin 0.35;
                  Onboarding.fatRatio := Fin 0.35 |})
            Onboarding.initialState)) = true.
Proof.
  match goal with
  | |- snd (Onboarding.validateTimeline ?n ?s) = true =>
      destruct (timeline_check n s) as (_ & _ & _ & H & _)
  end.
  destruct (H 1770163200000%Z 1769558400000%Z eq_refl eq_refl eq_refl)
    as [E _].
  exact E.
Defined.

Lemma validateTimeline_frame (now : Date) (st : Onboarding.State) :
  Onboarding.step (fst (Onboarding.validateTimeline now st))
  = Onboarding.step st
  /\ Onboarding.formData (fst (Onboarding.validateTimeline now st))
     = Onboarding.formData st.
Proof.
  unfold Onboarding.validateTimeline. cbv zeta. cbn [fst].
  destruct (GoalSafety.isSafe _); split; reflexivity.
Qed.

(** X22.  nextStep moves the wizard exactly one step forward, up to the
    summary, and never edits the form; the verdict of validateTimeline does
    not hold it back: from the timeline step it always reaches the macros
    step, leaving the warning that validateTimeline set.  prevStep moves
    one step back, down to the baseline; after a nextStep that was not
    made on the summary, prevStep returns to the step one came from. *)
Theorem wizard_navigation (now : Date) (st : Onboarding.State) :
  Onboarding.step (Onboarding.nextStep now st)
  = Onboarding.after (Onboarding.step st)
  /\ Onboarding.formData (Onboarding.nextStep now st) = Onboarding.formData st
  /\ (Onboarding.step st = Onboarding.timeline ->
      Onboarding.step (Onboarding.nextStep now st) = Onboarding.macros
      /\ Onboarding.warning (Onboarding.nextStep now st)
         = Onboarding.warning (fst (Onboarding.validateTimeline now st)))
  /\ (Onboarding.step st <> Onboarding.timeline ->
      Onboarding.warning (Onboarding.nextStep now st) = Onboarding.warning st)
  /\ Onboarding.prevStep st
     = Onboarding.setStep (Onboarding.before (Onboarding.step st)) st
  /\ (Onboarding.step st <> Onboarding.summary ->
      Onboarding.step (Onboarding.prevStep (Onboarding.nextStep now st))
      = Onboarding.step st).
Proof.
  destruct (validateTimeline_frame now st) as [K1 K2].
  unfold Onboarding.nextStep, Onboarding.prevStep. cbv zeta.
  set (v := fst (Onboarding.validateTimeline now st)) in *.
  destruct st as [s fd e w b]. cbn [Onboarding.step Onboarding.formData] in *.
  destruct s; simpl;
    repeat split; try congruence; try reflexivity; try exact K2.
Qed.

(** X23.  Choosing a macro preference stores the preference together with
    the three ratios of its preset, clears the error and the warning and
    keeps the step; the summary computed from the new form has the same
    TDEE and daily calories as before, and its grams are those of
    getMacroTargets for that preset (for manual: the default ratios, until
    the sliders are moved). *)
Theorem preference_change_uses_preset
    (preference : MacroPreference) (st : Onboarding.State)
    (nowAge nowGoal : Date) :
  let st' := Onboarding.handleMacroPreferenceChange preference st in
  let fd' := Onboarding.formData st' in
  let res := Onboarding.calculateResults nowAge nowGoal fd' in
  let res0 :=
    Onboarding.calculateResults nowAge nowGoal (Onboarding.formData st) in
  let t := getMacroTargets (Onboarding.dailyCalories res) preference None in
  Onboarding.macroPreference fd' = preference
  /\ {| protein := Onboarding.proteinRatio fd';
        carbs := Onboarding.carbsRatio fd';
        fat := Onboarding.fatRatio fd' |} = MACRO_PRESETS preference
  /\ Onboarding.error st' = None /\ Onboarding.warning st' = None
  /\ Onboarding.step st' = Onboarding.step st
  /\ Onboarding.tdee res = Onboarding.tdee res0
  /\ Onboarding.dailyCalories res = Onboarding.dailyCalories res0
  /\ Onboarding.proteinGrams res = MacroTargets.proteinGrams t
  /\ Onboarding.carbsGrams res = MacroTargets.carbsGrams t
  /\ Onboarding.fatGrams res = MacroTargets.fatGrams t.
Proof.
  cbv zeta.
  unfold Onboarding.calculateResults, Onboarding.handleMacroPreferenceChange,
    Onboarding.updateFormData.
  cbv zeta.
  cbn [Onboarding.formData Onboarding.step Onboarding.error
       Onboarding.warning Onboarding.gender Onboarding.heightFeet
       Onboarding.heightInches Onboarding.currentWeight
       Onboarding.dateOfBirth Onboarding.activityLevel
       Onboarding.targetWeight Onboarding.targetDate
       Onboarding.macroPreference Onboarding.proteinRatio
       Onboarding.carbsRatio Onboarding.fatRatio
       Onboarding.tdee Onboarding.dailyCalories Onboarding.proteinGrams
       Onboarding.carbsGrams Onboarding.fatGrams].
  set (target := calculateDailyCalorieTarget nowGoal _).
  unfold getMacroTargets. cbv zeta.
  cbn [MacroTargets.dailyCalories MacroTargets.proteinGrams
       MacroTargets.carbsGrams MacroTargets.fatGrams].
  split; [reflexivity |].
  split; [destruct preference; reflexivity |].
  do 5 (split; [reflexivity |]).
  destruct preference;
    cbn [MacroPreference_eqb MACRO_PRESETS protein carbs fat];
    repeat split.
Qed.

Lemma never_below (x m : number) :
  let y := if lt x m then m else x in
  isFinite m = true -> y = NaN \/ le m y = true.
Proof.
  cbv zeta. destruct m as [m | | |]; try discriminate. intros _.
  destruct x as [x | | |].
  - right. destruct (lt (Fin x) (Fin m)) eqn:E.
    + apply le_Fin_true. lra.
    + apply le_Fin_true. apply lt_Fin_false in E. exact E.
  - right. reflexivity.
  - right. apply le_Fin_true. lra.
  - left. reflexivity.
Qed.

(** X24.  The summary of the wizard never shows daily calories below the
    floor of the chosen gender: they are NaN or at least 1500 (male) or
    1200 (female, other).  When they are finite and the ratios in use are
    finite with a non-zero sum, the energy of the grams shown is within
    8.5 kcal of them.  A date of birth that is not a valid date makes the
    TDEE and the daily calories NaN. *)
Theorem onboarding_summary
    (nowAge nowGoal : Date) (fd : Onboarding.FormData) :
  let res := Onboarding.calculateResults nowAge nowGoal fd in
  let floor :=
    match Onboarding.gender fd with
    | male => ofZ 1500
    | female | other => ofZ 1200
    end in
  let grams :=
    {| MacroGrams.proteinGrams := Onboarding.proteinGrams res;
       MacroGrams.carbsGrams := Onboarding.carbsGrams res;
       MacroGrams.fatGrams := Onboarding.fatGrams res |} in
  (Onboarding.dailyCalories res = NaN
   \/ le floor (Onboarding.dailyCalories res) = true)
  /\ (forall d : Q,
        Onboarding.dailyCalories res = Fin d ->
        (Onboarding.macroPreference fd = manual ->
         Notions.usableRatios
           {| protein := Onboarding.proteinRatio fd;
              carbs := Onboarding.carbsRatio fd;
              fat := Onboarding.fatRatio fd |}) ->
        Properties.recombinesWithin (17 # 2) d grams)
  /\ (Onboarding.dateOfBirth fd = None ->
      Onboarding.tdee res = NaN /\ Onboarding.dailyCalories res = NaN).
Proof.
  cbv zeta. unfold Onboarding.calculateResults. cbv zeta.
  cbn [Onboarding.dailyCalories Onboarding.proteinGrams
       Onboarding.carbsGrams Onboarding.fatGrams Onboarding.tdee].
  unfold getMacroTargets. cbv zeta.
  cbn [MacroTargets.dailyCalories MacroTargets.proteinGrams
       MacroTargets.carbsGrams MacroTargets.fatGrams].
  unfold calculateDailyCalorieTarget. cbv zeta.
  cbn [CalorieTarget.dailyCalories GoalCalculationInput.tdee
       GoalCalculationInput.gender GoalCalculationInput.currentWeightLbs
       GoalCalculationInput.targetWeightLbs GoalCalculationInput.targetDate].
  set (tdee := calculateTDEE _).
  set (x := Math_round (add tdee _)).
  split; [| split].
  - destruct (Onboarding.gender fd); cbn [Gender_eqb];
      apply (never_below x); reflexivity.
  - intros d Hd Hu.
    set (ratios := match MacroPreference_eqb (Onboarding.macroPreference fd)
                           manual with
                   | true => _
                   | false => _
                   end).
    assert (U : Notions.usableRatios ratios).
    { subst ratios. destruct (Onboarding.macroPreference fd);
        cbn [MacroPreference_eqb];
        first [apply presets_usable | apply Hu; reflexivity]. }
    rewrite Hd. clearbody ratios. destruct ratios as [rp rc rf].
    unfold Notions.usableRatios in U. cbn [protein carbs fat] in *.
    destruct rp as [p | | |], rc as [c | | |], rf as [f | | |];
      try contradiction.
    pose proof (normalised_energy_bound d p c f U) as B.
    destruct (calculateMacroGrams (Fin d) (Fin p) (Fin c) (Fin f)). exact B.
  - intros Hb.
    assert (T : tdee = NaN).
    { subst tdee. rewrite Hb. unfold calculateTDEE, calculateBMR. cbv zeta.
      cbn [TDEEInput.asBMRInput TDEEInput.activityLevel BMRInput.gender
           BMRInput.weightKg BMRInput.heightCm BMRInput.ageYears
           TDEEInput.gender TDEEInput.weightKg TDEEInput.heightCm
           TDEEInput.ageYears].
      assert (A : calculateAge None nowAge = NaN)
        by (destruct nowAge; reflexivity).
      rewrite A. change (mul (ofZ 5) NaN) with NaN.
      assert (S : forall y, sub y NaN = NaN) by (intros []; reflexivity).
      rewrite S.
      destruct (Onboarding.gender fd), (Onboarding.activityLevel fd);
        reflexivity. }
    split; [exact T |]. subst x. rewrite T.
    change (add NaN ?y) with NaN.
    destruct (Onboarding.gender fd); reflexivity.
Qed.

(** The form the wizard starts from. *)
Lemma onboarding_summary_witness :
  exists d : Q,
    Onboarding.dailyCalories
      (Onboarding.calculateResults Samples.today Samples.today
         Onboarding.initialFormData) = Fin d
    /\ Properties.recombinesWithin (17 # 2) d
         {| MacroGrams.proteinGrams :=
              Onboarding.proteinGrams
                (Onboarding.calculateResults Samples.today Samples.today
                   Onboarding.initialFormData);
            MacroGrams.carbsGrams :=
              Onboarding.carbsGrams
                (Onboarding.calculateResults Samples.today Samples.today
                   Onboarding.initialFormData);
            MacroGrams.fatGrams :=
              Onboarding.fatGrams
                (Onboarding.calculateResults Samples.today Samples.today
                   Onboarding.initialFormData) |}.
Proof.
  destruct (onboarding_summary Samples.today Samples.today
              Onboarding.initialFormData) as (_ & H & _).
  eexists. split; [reflexivity |].
  apply H; [reflexivity | discriminate].
Defined.

(** An unrealistic plan on the timeline step: 80 lbs in twelve weeks. *)
Lemma wizard_navigation_witness :
  let st :=
    Onboarding.setStep Onboarding.timeline
      (Onboarding.updateFormData
         (fun fd =>
            {| Onboarding.gender := Onboarding.gender fd;
               Onboarding.heightFeet := Onboarding.heightFeet fd;
               Onboarding.heightInches := Onboarding.heightInches fd;
               Onboarding.currentWeight := Onboarding.currentWeight fd;
               Onboarding.dateOfBirth := Onboarding.dateOfBirth fd;
               Onboarding.activityLevel := Onboarding.activityLevel fd;
               Onboarding.goalType := Onboarding.goalType fd;
               Onboarding.targetWeight := ofZ 100;
               Onboarding.targetDate := Onboarding.targetDate fd;
               Onboarding.macroPreference := Onboarding.macroPreference fd;
               Onboarding.proteinRatio := Onboarding.proteinRatio fd;
               Onboarding.carbsRatio := Onboarding.carbsRatio fd;
               Onboarding.fatRatio := Onboarding.fatRatio fd |})
         Onboarding.initialState) in
  snd (Onboarding.validateTimeline Samples.today st) = false
  /\ Onboarding.step (Onboarding.nextStep Samples.today st)
     = Onboarding.macros.
Proof.
  cbv zeta. split; [reflexivity |].
  match goal with
  | |- Onboarding.step (Onboarding.nextStep ?n ?s) = _ =>
      destruct (wizard_navigation n s) as (_ & _ & H & _)
  end.
  apply H. reflexivity.
Defined.

(* ================================================================== *)
(** ** The check-in page: average daily calories                       *)
(* ================================================================== *)

Lemma getOrZero_holds (o : list (string * number)) (oq : list (string * Q))
    (k : string) :
  Notions.holds o oq ->
  same (CheckInPage.getOrZero o k) (Fin (Notions.getQ oq k)).
Proof.
  unfold CheckInPage.getOrZero.
  induction 1 as [| [k1 v] [k2 vq] o oq [Hk Hv] _ IH]; simpl.
  - reflexivity.
  - simpl in Hk, Hv. subst k2. destruct (String.eqb k1 k); [| exact IH].
    destruct v as [x | | |]; simpl in Hv; try contradiction.
    unfold orElse, truthy. destruct (Qeq_bool x 0) eqn:E; simpl.
    + apply Qeq_bool_eq in E. unfold inject_Z. lra.
    + exact Hv.
Qed.

Lemma set_holds (o : list (string * number)) (oq : list (string * Q))
    (k : string) (v : number) (q : Q) :
  Notions.holds o oq ->
  same v (Fin (Notions.getQ oq k + q)) ->
  Notions.holds (CheckInPage.set o k v) (Notions.bump oq k q).
Proof.
  induction 1 as [| [k1 v1] [k2 vq] o oq [Hk Hv] Hrest IH]; simpl; intros Hs.
  - constructor; [| constructor]. split; [reflexivity |].
    destruct v as [x | | |]; simpl in *; try contradiction. lra.
  - simpl in Hk, Hv. subst k2. destruct (String.eqb k1 k).
    + constructor; [| exact Hrest]. split; [reflexivity | exact Hs].
    + constructor; [| exact (IH Hs)]. split; [reflexivity | exact Hv].
Qed.

Lemma addLog_holds (o : list (string * number)) (oq : list (string * Q))
    (q : Q) (k : string) :
  Notions.holds o oq ->
  Notions.holds (CheckInPage.addLog o (Notions.row q k)) (Notions.bump oq k q).
Proof.
  intros H. unfold CheckInPage.addLog, Notions.row.
  cbn [CheckInPage.log_date CheckInPage.calories].
  apply set_holds; [exact H |].
  pose proof (getOrZero_holds o oq k H) as G.
  destruct (CheckInPage.getOrZero o k) as [x | | |]; simpl in *;
    try contradiction.
  lra.
Qed.

Lemma bump_keys (oq : list (string * Q)) (k : string) (q : Q) :
  NoDup (map fst oq) ->
  NoDup (map fst (Notions.bump oq k q))
  /\ (forall d : string,
        In d (map fst (Notions.bump oq k q)) <-> In d (map fst oq) \/ d = k)
  /\ Notions.sumQ (map snd (Notions.bump oq k q))
     == Notions.sumQ (map snd oq) + q.
Proof.
  induction oq as [| [k1 v] oq IH]; simpl; intros N.
  - split; [constructor; [intros [] | constructor] |].
    split; [intros d; split; [intros [<- | []]; auto | intros [[] | ->]; auto]
           | lra].
  - inversion N as [| ? ? Hn Hr]; subst.
    destruct (IH Hr) as (I1 & I2 & I3).
    destruct (String.eqb_spec k1 k) as [-> | Hne]; simpl.
    + split; [exact N |].
      split; [intros d; split; [auto | intros [H | ->]; auto] | lra].
    + split.
      * constructor; [| exact I1]. rewrite I2. intros [H | H]; auto.
      * split; [| rewrite I3; lra].
        intros d. rewrite I2. tauto.
Qed.

Lemma collect_holds (entries : list (Q * string))
    (o : list (string * number)) (oq : list (string * Q)) :
  Notions.holds o oq -> NoDup (map fst oq) ->
  exists oq' : list (string * Q),
    Notions.holds (fold_left CheckInPage.addLog (Notions.rows entries) o) oq'
    /\ NoDup (map fst oq')
    /\ (forall d : string,
          In d (map fst oq') <-> In d (map fst oq) \/ In d (map snd entries))
    /\ Notions.sumQ (map snd oq')
       == Notions.sumQ (map snd oq) + Notions.sumQ (map fst entries).
Proof.
  revert o oq. induction entries as [| [q k] entries IH]; intros o oq H N.
  - exists oq. simpl. repeat split; auto; try tauto. lra.
  - destruct (bump_keys oq k q N) as (B1 & B2 & B3).
    destruct (IH _ _ (addLog_holds o oq q k H) B1) as (oq' & H' & N' & K' & S').
    exists oq'. split; [exact H' |]. split; [exact N' |].
    split.
    + intros d. rewrite K', B2. simpl. intuition.
    + rewrite S', B3. simpl. lra.
Qed.

Lemma total_holds (o : list (string * number)) (oq : list (string * Q))
    (acc : number) (a : Q) :
  Notions.holds o oq -> same acc (Fin a) ->
  same (fold_left (fun sum cal => add sum cal) (map snd o) acc)
       (Fin (a + Notions.sumQ (map snd oq))).
Proof.
  intros H. revert acc a.
  induction H as [| [k1 v] [k2 vq] o oq [_ Hv] _ IH]; simpl; intros acc a Ha.
  - destruct acc; simpl in *; try contradiction. lra.
  - apply (same_trans _ (Fin (a + vq + Notions.sumQ (map snd oq)))).
    + apply IH. destruct acc, v; simpl in *; try contradiction. lra.
    + simpl. lra.
Qed.

(** X25.  The average handed to the check-in form: without logs (none
    fetched, or an empty list) it is the stored daily calories of the
    goal; with logs of finite calories it is the sum of all logged
    calories divided by the number of distinct days that have a log, so
    days without any log do not lower it. *)
Theorem average_counts_logged_days
    (entries : list (Q * string)) (goals_daily_calories : number) :
  CheckInPage.avgDailyCalories None goals_daily_calories
  = goals_daily_calories
  /\ CheckInPage.avgDailyCalories (Some []) goals_daily_calories
     = goals_daily_calories
  /\ (entries <> [] ->
      exists days : list string,
        NoDup days
        /\ (forall d : string, In d days <-> In d (map snd entries))
        /\ CheckInPage.daysLogged
             (CheckInPage.collect (Some (Notions.rows entries)))
           = ofZ (Z.of_nat (length days))
        /\ same (CheckInPage.avgDailyCalories (Some (Notions.rows entries))
                  goals_daily_calories)
                (Fin (Notions.sumQ (map fst entries)
                      / inject_Z (Z.of_nat (length days))))).
Proof.
  split; [reflexivity |]. split; [reflexivity |]. intros Hne.
  destruct (collect_holds entries [] []) as (oq & H & N & K & S);
    [constructor | constructor |].
  exists (map fst oq). split; [exact N |].
  split; [intros d; rewrite K; simpl; tauto |].
  assert (L : length (CheckInPage.collect (Some (Notions.rows entries)))
              = length (map fst oq)).
  { rewrite length_map. exact (Forall2_length H). }
  split; [unfold CheckInPage.daysLogged; now rewrite L |].
  unfold CheckInPage.avgDailyCalories. cbv zeta.
  unfold CheckInPage.daysLogged. rewrite L.
  assert (P : (0 < Z.of_nat (length (map fst oq)))%Z).
  { destruct entries as [| [q k] entries]; [contradiction |].
    assert (I : In k (map fst oq)) by (apply K; right; left; reflexivity).
    destruct (map fst oq); [destruct I | simpl; lia]. }
  set (n := Z.of_nat (length (map fst oq))) in *.
  unfold gt. rewrite lt_ofZ.
  destruct (Z.ltb_spec 0 n) as [_ | X]; [| lia].
  pose proof (total_holds _ _ (ofZ 0) 0 H (Qeq_refl 0)) as T.
  fold (CheckInPage.collect (Some (Notions.rows entries))) in T.
  fold (CheckInPage.totalCalories
          (CheckInPage.collect (Some (Notions.rows entries)))) in T.
  destruct (CheckInPage.totalCalories _) as [t | | |]; simpl in T;
    try contradiction.
  unfold div, ofZ.
  assert (Z0 : Qeq_bool (inject_Z n) 0 = false).
  { destruct (Qeq_bool (inject_Z n) 0) eqn:E; [| reflexivity].
    apply Qeq_bool_eq in E. unfold Qeq in E. simpl in E. lia. }
  rewrite Z0. simpl. rewrite T, S. simpl.
  assert (NZ : ~ inject_Z n == 0)
    by (intros E; unfold Qeq in E; simpl in E; lia).
  field. exact NZ.
Qed.

(** Three logs on two days: 600 + 900 on one day, 1500 on the other. *)
Lemma average_counts_logged_days_witness :
  exists days : list string,
    NoDup days
    /\ (forall d : string,
          In d days
          <-> In d (map snd [(600, "2026-02-01"); (900, "2026-02-01");
                             (1500, "2026-02-03")]))
    /\ CheckInPage.daysLogged
         (CheckInPage.collect
            (Some (Notions.rows
                     [(600, "2026-02-01"); (900, "2026-02-01");
                      (1500, "2026-02-03")])))
       = ofZ (Z.of_nat (length days))
    /\ same (CheckInPage.avgDailyCalories
              (Some (Notions.rows
                       [(600, "2026-02-01"); (900, "2026-02-01");
                        (1500, "2026-02-03")]))
              (ofZ 2000))
            (Fin (Notions.sumQ
                    (map fst [(600, "2026-02-01"); (900, "2026-02-01");
                              (1500, "2026-02-03")])
                  / inject_Z (Z.of_nat (length days)))).
Proof.
  apply (average_counts_logged_days
           [(600, "2026-02-01"); (900, "2026-02-01"); (1500, "2026-02-03")]
           (ofZ 2000)).
  discriminate.
Defined.

(* ================================================================== *)
(** ** The diary and the dashboard: totals of the day                  *)
(* ================================================================== *)

Lemma orElse_counted (x : number) :
  Notions.notInfinite x = true ->
  same (orElse x (ofZ 0)) (Fin (Notions.counted x)).
Proof.
  destruct x as [q | | |]; simpl; try discriminate; intros _.
  - unfold orElse, truthy. destruct (Qeq_bool q 0) eqn:E; simpl.
    + apply Qeq_bool_eq in E. unfold inject_Z. lra.
    + reflexivity.
  - reflexivity.
Qed.

Lemma fold_add_same (A : Type) (f : A -> number) (g : A -> Q) (l : list A) :
  (forall x : A, In x l -> same (f x) (Fin (g x))) ->
  forall (acc : number) (a : Q),
    same acc (Fin a) ->
    same (fold_left (fun s x => add s (f x)) l acc)
         (Fin (a + Notions.sumQ (map g l))).
Proof.
  induction l as [| x l IH]; simpl; intros H acc a Ha.
  - destruct acc; simpl in *; try contradiction. lra.
  - apply (same_trans _ (Fin (a + g x + Notions.sumQ (map g l)))).
    + apply IH; [intros y Hy; apply H; right; exact Hy |].
      pose proof (H x (or_introl eq_refl)) as Hx.
      destruct acc, (f x); simpl in *; try contradiction. lra.
    + simpl. lra.
Qed.

Lemma totals_fold (logs : list Diary.Log.t) (acc : Diary.Totals.t) :
  let r :=
    fold_left
      (fun acc log =>
         {| Diary.Totals.calories :=
              add (Diary.Totals.calories acc)
                  (orElse (Diary.Log.calories log) (ofZ 0));
            Diary.Totals.protein :=
              add (Diary.Totals.protein acc)
                  (orElse (Diary.Log.protein log) (ofZ 0));
            Diary.Totals.carbs :=
              add (Diary.Totals.carbs acc)
                  (orElse (Diary.Log.carbs log) (ofZ 0));
            Diary.Totals.fat :=
              add (Diary.Totals.fat acc)
                  (orElse (Diary.Log.fat log) (ofZ 0)) |})
      logs acc in
  Diary.Totals.calories r
  = fold_left (fun s l => add s (orElse (Diary.Log.calories l) (ofZ 0)))
      logs (Diary.Totals.calories acc)
  /\ Diary.Totals.protein r
     = fold_left (fun s l => add s (orElse (Diary.Log.protein l) (ofZ 0)))
         logs (Diary.Totals.protein acc)
  /\ Diary.Totals.carbs r
     = fold_left (fun s l => add s (orElse (Diary.Log.carbs l) (ofZ 0)))
         logs (Diary.Totals.carbs acc)
  /\ Diary.Totals.fat r
     = fold_left (fun s l => add s (orElse (Diary.Log.fat l) (ofZ 0)))
         logs (Diary.Totals.fat acc).
Proof.
  cbv zeta. revert acc.
  induction logs as [| l ls IH]; intros acc; [repeat split |].
  cbn [fold_left]. apply IH.
Qed.

Lemma totals_by_field (logs : list Diary.Log.t) :
  Diary.Totals.calories (Diary.totals logs)
  = fold_left (fun s l => add s (orElse (Diary.Log.calories l) (ofZ 0)))
      logs (ofZ 0)
  /\ Diary.Totals.protein (Diary.totals logs)
     = fold_left (fun s l => add s (orElse (Diary.Log.protein l) (ofZ 0)))
         logs (ofZ 0)
  /\ Diary.Totals.carbs (Diary.totals logs)
     = fold_left (fun s l => add s (orElse (Diary.Log.carbs l) (ofZ 0)))
         logs (ofZ 0)
  /\ Diary.Totals.fat (Diary.totals logs)
     = fold_left (fun s l => add s (orElse (Diary.Log.fat l) (ofZ 0)))
         logs (ofZ 0).
Proof. apply (totals_fold logs). Qed.

(** X26.  A log whose calories or nutrient is NaN or 0 counts as 0 in the
    totals of the day: over logs whose nutrients are finite or NaN, each of
    the four totals is finite and equals the sum of the finite values, so a
    single broken log cannot turn the totals into NaN. *)
Theorem totals_skip_nan (logs : list Diary.Log.t) :
  Forall Notions.plainLog logs ->
  let t := Diary.totals logs in
  let sum f := Fin (Notions.sumQ (map (fun l => Notions.counted (f l)) logs)) in
  same (Diary.Totals.calories t) (sum Diary.Log.calories)
  /\ same (Diary.Totals.protein t) (sum Diary.Log.protein)
  /\ same (Diary.Totals.carbs t) (sum Diary.Log.carbs)
  /\ same (Diary.Totals.fat t) (sum Diary.Log.fat).
Proof.
  intros H. cbv zeta. rewrite Forall_forall in H.
  destruct (totals_by_field logs) as (-> & -> & -> & ->).
  assert (Z0 : forall q, same (Fin (0 + q)) (Fin q)) by (intros q; simpl; lra).
  repeat split;
    (eapply same_trans; [| apply Z0]);
    apply (fold_add_same _ _ (fun l => Notions.counted (_ l)));
    try reflexivity;
    intros l Hl; apply orElse_counted; apply (H l Hl).
Qed.

(** Two logs of 300 and 450 kcal and one whose numbers are NaN. *)
Lemma totals_skip_nan_witness :
  same (Diary.Totals.calories
          (Diary.totals
             [ {| Diary.Log.id := "a"; Diary.Log.meal_type := Diary.lunch;
                  Diary.Log.calories := ofZ 300; Diary.Log.protein := ofZ 20;
                  Diary.Log.carbs := ofZ 30; Diary.Log.fat := ofZ 10 |};
               {| Diary.Log.id := "b"; Diary.Log.meal_type := Diary.snack;
                  Diary.Log.calories := NaN; Diary.Log.protein := NaN;
                  Diary.Log.carbs := NaN; Diary.Log.fat := NaN |};
               {| Diary.Log.id := "c"; Diary.Log.meal_type := Diary.dinner;
                  Diary.Log.calories := ofZ 450; Diary.Log.protein := ofZ 35;
                  Diary.Log.carbs := ofZ 40; Diary.Log.fat := ofZ 15 |} ]))
       (Fin (300 + (0 + (450 + 0)))).
Proof.
  match goal with
  | |- same (Diary.Totals.calories (Diary.totals ?l)) _ =>
      destruct (totals_skip_nan l) as (H & _)
  end.
  - repeat constructor.
  - exact H.
Defined.

Lemma finite_is_counted (x : number) :
  isFinite x = true -> same x (Fin (Notions.counted x)).
Proof. destruct x; simpl; try discriminate. intros _. reflexivity. Qed.

Lemma finite_not_infinite (x : number) :
  isFinite x = true -> Notions.notInfinite x = true.
Proof. destruct x; simpl; auto. Qed.

Lemma meal_calories_sum (m : Diary.MealType) (logs : list Diary.Log.t) :
  (forall l, In l logs -> isFinite (Diary.Log.calories l) = true) ->
  same (Notions.mealCalories m logs)
       (Fin (Notions.sumQ
               (map (fun l => Notions.counted (Diary.Log.calories l))
                  (filter (fun l => Diary.MealType_eqb (Diary.Log.meal_type l) m)
                     logs)))).
Proof.
  intros H. unfold Notions.mealCalories, Diary.mealTotals. cbv zeta.
  set (mealLogs := filter _ logs).
  assert (Hm : forall l, In l mealLogs ->
            same (Diary.Log.calories l)
                 (Fin (Notions.counted (Diary.Log.calories l)))).
  { intros l Hl. apply finite_is_counted, H.
    subst mealLogs. apply filter_In in Hl. tauto. }
  assert (P : forall ls acc,
            Diary.MealTotals.calories
              (fold_left
                 (fun acc log =>
                    {| Diary.MealTotals.calories :=
                         add (Diary.MealTotals.calories acc)
                             (Diary.Log.calories log) |})
                 ls acc)
            = fold_left (fun s log => add s (Diary.Log.calories log)) ls
                (Diary.MealTotals.calories acc)).
  { induction ls as [| x ls IH]; intros acc; [reflexivity |].
    cbn [fold_left]. apply IH. }
  assert (F : same (fold_left (fun acc log => add acc (Diary.Log.calories log))
                      mealLogs (ofZ 0))
                   (Fin (Notions.sumQ
                           (map (fun l => Notions.counted (Diary.Log.calories l))
                              mealLogs)))).
  { eapply same_trans;
      [apply (fold_add_same _ _ (fun l => Notions.counted (Diary.Log.calories l))
                mealLogs Hm (ofZ 0) 0); reflexivity |].
    simpl. lra. }
  destruct mealLogs as [| l ls]; [reflexivity |].
  cbn [length Nat.eqb]. rewrite P. exact F.
Qed.

Lemma meals_partition (logs : list Diary.Log.t) :
  let part m :=
    Notions.sumQ
      (map (fun l => Notions.counted (Diary.Log.calories l))
         (filter (fun l => Diary.MealType_eqb (Diary.Log.meal_type l) m) logs)) in
  part Diary.breakfast + part Diary.lunch + part Diary.dinner
  + part Diary.snack
  == Notions.sumQ (map (fun l => Notions.counted (Diary.Log.calories l)) logs).
Proof.
  cbv zeta. induction logs as [| l ls IH]; simpl; [lra |].
  destruct (Diary.Log.meal_type l); simpl; lra.
Qed.

Lemma meal_logs_count (logs : list Diary.Log.t) :
  (length (Notions.mealLogs Diary.breakfast logs)
   + length (Notions.mealLogs Diary.lunch logs)
   + length (Notions.mealLogs Diary.dinner logs)
   + length (Notions.mealLogs Diary.snack logs) = length logs)%nat.
Proof.
  unfold Notions.mealLogs. induction logs as [| l ls IH]; [reflexivity |].
  simpl. destruct (Diary.Log.meal_type l); simpl; lia.
Qed.

Lemma meal_not_listed (m : Diary.MealType) (logs : list Diary.Log.t) :
  Diary.mealTotals m logs = None
  <-> forall l, In l logs -> Diary.Log.meal_type l <> m.
Proof.
  unfold Diary.mealTotals. cbv zeta.
  destruct (filter _ logs) as [| x xs] eqn:E.
  - split; [| reflexivity]. intros _ l Hl Hm.
    assert (I : In l (filter
                        (fun l => Diary.MealType_eqb (Diary.Log.meal_type l) m)
                        logs)).
    { apply filter_In. split; [exact Hl |]. rewrite Hm. now destruct m. }
    rewrite E in I. exact I.
  - cbn [length Nat.eqb]. split; [discriminate |]. intros H. exfalso.
    assert (I : In x (filter
                        (fun l => Diary.MealType_eqb (Diary.Log.meal_type l) m)
                        logs))
      by (rewrite E; left; reflexivity).
    apply filter_In in I. destruct I as [I1 I2]. apply (H x I1).
    destruct (Diary.Log.meal_type x), m; first [reflexivity | discriminate].
Qed.

(** X27.  The diary lists the logs of the day meal by meal: every log is
    listed under exactly one of breakfast, lunch, dinner and snack, so the
    four lists are as long together as the logs of the day, and a meal is
    left out exactly when no log belongs to it.  Over logs whose calories
    are whole numbers, the subtotals of the four meals (a meal that is left
    out counting as 0) add up to the calories of the day. *)
Theorem meal_subtotals_add_up (logs : list Diary.Log.t) :
  (length (Notions.mealLogs Diary.breakfast logs)
   + length (Notions.mealLogs Diary.lunch logs)
   + length (Notions.mealLogs Diary.dinner logs)
   + length (Notions.mealLogs Diary.snack logs) = length logs)%nat
  /\ (forall m : Diary.MealType,
        Diary.mealTotals m logs = None
        <-> forall l, In l logs -> Diary.Log.meal_type l <> m)
  /\ ((forall l, In l logs -> Notions.wholeCalories l) ->
      same (add (add (add (Notions.mealCalories Diary.breakfast logs)
                          (Notions.mealCalories Diary.lunch logs))
                     (Notions.mealCalories Diary.dinner logs))
                (Notions.mealCalories Diary.snack logs))
           (Diary.Totals.calories (Diary.totals logs))).
Proof.
  split; [apply meal_logs_count |].
  split; [intros m; apply meal_not_listed |].
  intros W.
  assert (H : forall l, In l logs -> isFinite (Diary.Log.calories l) = true).
  { intros l Hl. destruct (W l Hl) as [z ->]. reflexivity. }
  pose proof (meal_calories_sum Diary.breakfast logs H) as B.
  pose proof (meal_calories_sum Diary.lunch logs H) as L.
  pose proof (meal_calories_sum Diary.dinner logs H) as D.
  pose proof (meal_calories_sum Diary.snack logs H) as S.
  pose proof (meals_partition logs) as P. cbv zeta in P.
  destruct (totals_by_field logs) as (-> & _).
  assert (T : same (fold_left
                      (fun s l => add s (orElse (Diary.Log.calories l) (ofZ 0)))
                      logs (ofZ 0))
                   (Fin (0 + Notions.sumQ
                           (map (fun l => Notions.counted (Diary.Log.calories l))
                              logs)))).
  { apply (fold_add_same _ _ (fun l => Notions.counted (Diary.Log.calories l)));
      [| reflexivity].
    intros l Hl. apply orElse_counted, finite_not_infinite, H, Hl. }
  destruct (Notions.mealCalories Diary.breakfast logs),
    (Notions.mealCalories Diary.lunch logs),
    (Notions.mealCalories Diary.dinner logs),
    (Notions.mealCalories Diary.snack logs),
    (fold_left _ logs (ofZ 0)); simpl in *; try contradiction.
  lra.
Qed.

(** A lunch of 300 kcal and a dinner of 450 kcal. *)
Lemma meal_subtotals_add_up_witness :
  let logs :=
    [ {| Diary.Log.id := "a"; Diary.Log.meal_type := Diary.lunch;
         Diary.Log.calories := ofZ 300; Diary.Log.protein := ofZ 20;
         Diary.Log.carbs := ofZ 30; Diary.Log.fat := ofZ 10 |};
      {| Diary.Log.id := "c"; Diary.Log.meal_type := Diary.dinner;
         Diary.Log.calories := ofZ 450; Diary.Log.protein := ofZ 35;
         Diary.Log.carbs := ofZ 40; Diary.Log.fat := ofZ 15 |} ] in
  same (add (add (add (Notions.mealCalories Diary.breakfast logs)
                      (Notions.mealCalories Diary.lunch logs))
                 (Notions.mealCalories Diary.dinner logs))
            (Notions.mealCalories Diary.snack logs))
       (Diary.Totals.calories (Diary.totals logs)).
Proof.
  cbv zeta.
  match goal with
  | |- same _ (Diary.Totals.calories (Diary.totals ?l)) =>
      destruct (meal_subtotals_add_up l) as (_ & _ & H)
  end.
  apply H.
  intros l [<- | [<- | []]]; [exists 300%Z | exists 450%Z]; reflexivity.
Defined.

Lemma delete_absent (logId : string) (logs : list Diary.Log.t) :
  (forall l, In l logs -> Diary.Log.id l <> logId) ->
  Diary.handleDeleteLog logId logs = logs.
Proof.
  unfold Diary.handleDeleteLog. induction logs as [| l ls IH]; intros H;
    [reflexivity |].
  simpl. destruct (String.eqb_spec (Diary.Log.id l) logId) as [E | _].
  - exfalso. apply (H l); [left; reflexivity | exact E].
  - simpl. f_equal. apply IH. intros x Hx. apply H. right. exact Hx.
Qed.

(** X28.  Logging a food and then deleting that log gives back the logs,
    and hence the totals, one had before, provided no earlier log has the
    same id; and a deletion removes the rows with the deleted id and no
    other row. *)
Theorem log_then_delete (logs : list Diary.Log.t) :
  (forall newLog : Diary.Log.t,
     (forall l, In l logs -> Diary.Log.id l <> Diary.Log.id newLog) ->
     Diary.handleDeleteLog (Diary.Log.id newLog)
       (Diary.handleFoodLogged newLog logs) = logs
     /\ Diary.totals
          (Diary.handleDeleteLog (Diary.Log.id newLog)
             (Diary.handleFoodLogged newLog logs))
        = Diary.totals logs)
  /\ (forall (logId : string) (l : Diary.Log.t),
        In l (Diary.handleDeleteLog logId logs)
        <-> In l logs /\ Diary.Log.id l <> logId).
Proof.
  split.
  - intros newLog H.
    assert (E : Diary.handleDeleteLog (Diary.Log.id newLog)
                  (Diary.handleFoodLogged newLog logs) = logs).
    { unfold Diary.handleDeleteLog, Diary.handleFoodLogged.
      rewrite filter_app. simpl. rewrite String.eqb_refl. simpl.
      rewrite app_nil_r. apply delete_absent, H. }
    split; [exact E | now rewrite E].
  - intros logId l. unfold Diary.handleDeleteLog. rewrite filter_In.
    rewrite negb_true_iff.
    destruct (String.eqb_spec (Diary.Log.id l) logId) as [E | N].
    + split; [intros [_ X]; discriminate | intros [_ X]; contradiction].
    + split; intros [X _]; split; first [exact X | exact N | reflexivity].
Qed.

(** A third log added to a lunch and a dinner, then deleted. *)
Lemma log_then_delete_witness :
  let logs :=
    [ {| Diary.Log.id := "a"; Diary.Log.meal_type := Diary.lunch;
         Diary.Log.calories := ofZ 300; Diary.Log.protein := ofZ 20;
         Diary.Log.carbs := ofZ 30; Diary.Log.fat := ofZ 10 |};
      {| Diary.Log.id := "c"; Diary.Log.meal_type := Diary.dinner;
         Diary.Log.calories := ofZ 450; Diary.Log.protein := ofZ 35;
         Diary.Log.carbs := ofZ 40; Diary.Log.fat := ofZ 15 |} ] in
  let newLog :=
    {| Diary.Log.id := "d"; Diary.Log.meal_type := Diary.snack;
       Diary.Log.calories := ofZ 120; Diary.Log.protein := ofZ 3;
       Diary.Log.carbs := ofZ 20; Diary.Log.fat := ofZ 2 |} in
  Diary.handleDeleteLog (Diary.Log.id newLog)
    (Diary.handleFoodLogged newLog logs) = logs.
Proof.
  cbv zeta.
  match goal with
  | |- Diary.handleDeleteLog (Diary.Log.id ?n) (Diary.handleFoodLogged _ ?l) = _ =>
      destruct (log_then_delete l) as [H _]; apply (H n)
  end.
  intros l [<- | [<- | []]]; discriminate.
Defined.

Lemma min_capped (x : number) :
  Math_min x (ofZ 100) = NaN \/ le (Math_min x (ofZ 100)) (ofZ 100) = true.
Proof.
  destruct x as [q | | |]; [| right; reflexivity | right; reflexivity
                            | left; reflexivity].
  right. unfold Math_min.
  destruct (lt (ofZ 100) (Fin q)) eqn:E.
  - reflexivity.
  - apply le_Fin_true. apply lt_Fin_false in E. exact E.
Qed.

(** X29.  The progress drawn on the dashboard never exceeds 100: for every
    total and goal it is NaN or at most 100.  With a positive goal and a
    finite total it is total / goal * 100 below the goal and exactly 100
    from the goal on; with a goal of 0 it is 100 for a positive total and
    NaN for a total of 0.  The width of the weight bar is NaN or lies
    between 0 and 100. *)
Theorem progress_is_capped :
  (forall total goal : number,
     Dashboard.progress total goal = NaN
     \/ le (Dashboard.progress total goal) (ofZ 100) = true)
  /\ (forall t g : Q,
        0 < g ->
        (t < g -> same (Dashboard.progress (Fin t) (Fin g)) (Fin (t / g * 100)))
        /\ (g <= t -> same (Dashboard.progress (Fin t) (Fin g)) (ofZ 100)))
  /\ (forall t : Q,
        (0 < t -> Dashboard.progress (Fin t) (Fin 0) = ofZ 100)
        /\ (t == 0 -> Dashboard.progress (Fin t) (Fin 0) = NaN))
  /\ (forall start current target : number,
        let w := Dashboard.weightProgress start current target in
        w = NaN \/ (le (ofZ 0) w = true /\ le w (ofZ 100) = true)).
Proof.
  split; [| split; [| split]].
  - intros total goal. apply min_capped.
  - intros t g Hg.
    assert (N : Qeq_bool g 0 = false).
    { destruct (Qeq_bool g 0) eqn:E; [| reflexivity].
      apply Qeq_bool_eq in E. lra. }
    assert (P : Dashboard.progress (Fin t) (Fin g)
                = if lt (ofZ 100) (Fin (t / g * inject_Z 100))
                  then ofZ 100 else Fin (t / g * inject_Z 100)).
    { unfold Dashboard.progress, div, mul, Math_min, ofZ. now rewrite N. }
    rewrite P. clear P.
    assert (R : t / g * g == t) by (field; lra).
    set (r := t / g) in *. clearbody r.
    split; intros H.
    + destruct (lt (ofZ 100) (Fin (r * inject_Z 100))) eqn:E.
      * apply lt_Fin_true in E. unfold inject_Z in E. exfalso. nra.
      * reflexivity.
    + destruct (lt (ofZ 100) (Fin (r * inject_Z 100))) eqn:E.
      * reflexivity.
      * apply lt_Fin_false in E. unfold ofZ, inject_Z in *. simpl. nra.
  - intros t. split; intros H.
    + unfold Dashboard.progress, div.
      change (Qeq_bool 0 0) with true. cbv iota.
      assert (S : sign (Fin t) = 1%Z).
      { unfold sign. destruct t as [n d]. unfold Qlt in H. simpl in *.
        lia. }
      rewrite S. reflexivity.
    + unfold Dashboard.progress, div.
      change (Qeq_bool 0 0) with true. cbv iota.
      assert (S : sign (Fin t) = 0%Z).
      { unfold sign. destruct t as [n d]. unfold Qeq in H. simpl in *.
        lia. }
      rewrite S. reflexivity.
  - intros start current target. cbv zeta. unfold Dashboard.weightProgress.
    set (y := mul _ (ofZ 100)).
    destruct y as [q | | |]; [| right | right | left]; try (split; reflexivity);
      try reflexivity.
    change (Math_min (ofZ 100) (Fin q))
      with (if lt (Fin q) (ofZ 100) then Fin q else ofZ 100).
    destruct (lt (Fin q) (ofZ 100)) eqn:E.
    + change (Math_max (ofZ 0) (Fin q))
        with (if lt (ofZ 0) (Fin q) then Fin q else ofZ 0).
      destruct (lt (ofZ 0) (Fin q)) eqn:E0; right.
      * split; apply le_Fin_true; fin_order; lra.
      * split; reflexivity.
    + right. split; reflexivity.
Qed.

(** 1500 of 2000 kcal eaten, and 2600 of 2000. *)
Lemma progress_is_capped_witness :
  same (Dashboard.progress (Fin 1500) (Fin 2000)) (Fin 75)
  /\ same (Dashboard.progress (Fin 2600) (Fin 2000)) (ofZ 100).
Proof.
  destruct progress_is_capped as (_ & H & _).
  destruct (H 1500 2000 eq_refl) as [H1 _].
  destruct (H 2600 2000 eq_refl) as [_ H2].
  split.
  - apply (same_trans _ _ _ (H1 eq_refl)). reflexivity.
  - apply H2. discriminate.
Defined.

(** Three days after the last check-in: four days to go, three the day
    after. *)
Lemma countdown_counts_down_witness :
  exists k k' : Z,
    daysUntilCheckIn (Some 259200000%Z) (Some (Some 0%Z)) = ofZ k
    /\ daysUntilCheckIn (Some (259200000 + 86400000)%Z) (Some (Some 0%Z))
       = ofZ k'
    /\ (0 <= k)%Z
    /\ (0 - 259200000 <= 43200000 -> k <= 7)%Z
    /\ k' = Z.max 0 (k - 1).
Proof. apply (countdown_counts_down 259200000 0). Defined.
